(** * Contribution chart builder: [scripts/generate_svg.py]

    A shallow embedding of the chart-building core of the script
    ([_month_labels] and [build_svg]) together with the properties the
    design document states about it, and of the command line tool around
    the core ([_github_token], [_request_graphql], [fetch_contributions]
    and [main]).

    Python integers are [Z]; Python strings are [string], read as the
    UTF-8 byte sequence the script finally writes; a raised exception is
    the [Raise] case of [result].  Python floats are kept behind the
    interface [PyFloat], which names exactly the float operations the
    script performs.  The interface is instantiated with the real numbers
    ([RealFloat]), the exact-arithmetic reading in which the design
    document states its formulas (rounding and the finite range of
    binary64 are outside that reading), and with the binary64 floats of
    the machine ([Float64]), on which the functions can be run. *)

From Stdlib Require Import ZArith List String Ascii Bool Lia.
From Stdlib Require Import Numbers.DecimalString.
From Stdlib Require Import Sorting.Sorted Sorting.Permutation.
From Stdlib Require Import Structures.OrderedTypeEx.
From Stdlib Require Import Floats.PrimFloat Floats.FloatOps Floats.SpecFloat.
From Stdlib Require Import Floats.FloatAxioms.
From Stdlib Require Import Reals Lra.
Import ListNotations.

Local Open Scope string_scope.
Local Open Scope Z_scope.

(** ** Exceptions and results *)

Inductive exn : Set :=
| ZeroDivisionError
| ValueError
| IndexError
| TypeError.

Inductive result (A : Type) : Type :=
| Ok (a : A)
| Raise (e : exn).

Arguments Ok {A} a.
Arguments Raise {A} e.

Definition bind {A B : Type} (r : result A) (k : A -> result B) : result B :=
  match r with
  | Ok a => k a
  | Raise e => Raise e
  end.

Notation "x <- r ;; k" := (bind r (fun x => k))
  (at level 61, r at next level, right associativity).

(** A list comprehension or [for] loop whose body may raise: elements are
    evaluated left to right and the first exception ends the evaluation. *)
Fixpoint mapM {A B : Type} (f : A -> result B) (l : list A) : result (list B) :=
  match l with
  | [] => Ok []
  | a :: l' =>
      b <- f a ;;
      bs <- mapM f l' ;;
      Ok (b :: bs)
  end.

(** ** Strings *)

(** The markup templates of the script are Python literals delimited by
    apostrophes and containing double quotes.  They are written here with
    an apostrophe wherever the script has a double quote; [dq] puts the
    double quotes back.  It is applied to the literal pieces only, never
    to an interpolated value. *)
Fixpoint dq (s : string) : string :=
  match s with
  | EmptyString => EmptyString
  | String c s' =>
      String (if Ascii.eqb c "'"%char then "034"%char else c) (dq s')
  end.

(** ["".join(...)] *)
Definition join_empty (l : list string) : string :=
  fold_right append EmptyString l.

(** ["\n".join(...)] *)
Fixpoint join_nl (l : list string) : string :=
  match l with
  | [] => EmptyString
  | [s] => s
  | s :: l' => s ++ String "010"%char (join_nl l')
  end.

(** [str(z)] and [f"{z}"] for an [int]. *)
Definition str_int (z : Z) : string :=
  NilZero.string_of_int (Z.to_int z).

(** [s[:k]] *)
Definition prefix_of (k : nat) (s : string) : string := substring 0 k s.

(** ** Reading markup back *)

(** No character of [s] opens a tag. *)
Fixpoint markup_free (s : string) : bool :=
  match s with
  | EmptyString => true
  | String c s' => negb (Ascii.eqb c "<"%char) && markup_free s'
  end.

(** The name that follows a tag opener: up to a space, [>] or [/]. *)
Fixpoint tag_name (s : string) : string :=
  match s with
  | EmptyString => EmptyString
  | String c s' =>
      if Ascii.eqb c " "%char || Ascii.eqb c ">"%char || Ascii.eqb c "/"%char
      then EmptyString
      else String c (tag_name s')
  end.

(** The names of the elements of a document, in document order: one for
    every [<] that does not begin a closing tag. *)
Fixpoint elements (s : string) : list string :=
  match s with
  | EmptyString => []
  | String c s' =>
      if Ascii.eqb c "<"%char then
        match s' with
        | String "/"%char _ => elements s'
        | _ => tag_name s' :: elements s'
        end
      else elements s'
  end.

(** [sub in s] *)
Fixpoint contains (sub s : string) : bool :=
  prefix sub s ||
  match s with
  | EmptyString => false
  | String _ s' => contains sub s'
  end.

(** [range(n)] *)
Definition range (n : nat) : list nat := seq 0 n.

(** [enumerate(l)] *)
Definition enumerate {A : Type} (l : list A) : list (nat * A) :=
  combine (seq 0 (List.length l)) l.

(** ** The float operations of the script *)

Class PyFloat (F : Type) : Type := {
  of_int : Z -> F;              (* int -> float conversion *)
  fadd : F -> F -> F;
  fsub : F -> F -> F;
  fmul : F -> F -> F;
  fdiv : F -> F -> F;           (* quotient for a divisor that is not zero *)
  fis_zero : F -> bool;
  log1p_lib : F -> F;           (* the C library's log1p, for arguments above -1 *)
  format_2f : F -> string       (* f"{x:.2f}" *)
}.

(** ** Data model *)

(** One entry of [days]: the dict [{"date": ..., "count": ...}]. *)
Record Sample : Type := {
  date : string;
  count : Z
}.

(** The keyword arguments of [build_svg]. *)
Record ChartConfig : Type := {
  width : Z;
  height : Z;
  padding : Z;
  bg : string;
  stroke : string;
  text : string
}.

Definition BG : string := "#1e1e1e".
Definition STROKE : string := "#E65729".
Definition TEXT : string := "#ffffff".

Definition default_config : ChartConfig :=
  {| width := 1200; height := 360; padding := 52;
     bg := BG; stroke := STROKE; text := TEXT |}.

(** ** Calendar dates: [datetime.date] *)

Record pydate : Type := {
  year : Z;
  month : Z;
  day : Z
}.

Definition digit_of (c : ascii) : option Z :=
  let n := Z.of_nat (nat_of_ascii c) in
  if (48 <=? n) && (n <=? 57) then Some (n - 48) else None.

Definition is_leap (y : Z) : bool :=
  (y mod 4 =? 0) && (negb (y mod 100 =? 0) || (y mod 400 =? 0)).

Definition days_in_month (y m : Z) : Z :=
  if m =? 2 then (if is_leap y then 29 else 28)
  else if (m =? 4) || (m =? 6) || (m =? 9) || (m =? 11) then 30
  else 31.

Definition valid_date (d : pydate) : bool :=
  (1 <=? year d) && (year d <=? 9999) &&
  (1 <=? month d) && (month d <=? 12) &&
  (1 <=? day d) && (day d <=? days_in_month (year d) (month d)).

(** [datetime.date.fromisoformat] as CPython 3.11 and later have it.  The
    string is taken in UTF-8; it must be 7, 8 or 10 bytes long and begin
    with the four digits of the year.  Then comes a calendar date, [MM] and
    [DD], or an ISO week date, [W], [ww] and possibly [D]; the parts are
    separated by hyphens throughout or not at all.  Bytes behind a complete
    date are not looked at.  The date that was read must exist. *)

(** The number that the first [n] bytes of [s] spell in decimal digits,
    after the digits [acc], and the rest of [s]. *)
Fixpoint parse_digits (n : nat) (acc : Z) (s : string) : option (Z * string) :=
  match n with
  | O => Some (acc, s)
  | S n' =>
      match s with
      | String c s' =>
          match digit_of c with
          | Some d => parse_digits n' (10 * acc + d) s'
          | None => None
          end
      | EmptyString => None
      end
  end.

Definition starts_with (c : ascii) (s : string) : bool :=
  match s with
  | String a _ => Ascii.eqb a c
  | EmptyString => false
  end.

Definition skip_one (s : string) : string :=
  match s with
  | String _ s' => s'
  | EmptyString => EmptyString
  end.

(** The days before 1 January of year [y >= 1], counted from 1 January of
    year 1. *)
Definition days_before_year (y : Z) : Z :=
  let p := y - 1 in p * 365 + p / 4 - p / 100 + p / 400.

(** The days of a year before the first of month [m], leap day aside. *)
Definition days_before_month (m : Z) : Z :=
  match m with
  | 1 => 0 | 2 => 31 | 3 => 59 | 4 => 90 | 5 => 120 | 6 => 151
  | 7 => 181 | 8 => 212 | 9 => 243 | 10 => 273 | 11 => 304 | 12 => 334
  | _ => 0
  end.

(** The date of the day with ordinal [ordinal >= 1], where 1 January of
    year 1 has ordinal 1. *)
Definition ord_to_ymd (ordinal : Z) : pydate :=
  let o := ordinal - 1 in
  let n400 := o / 146097 in
  let r400 := o mod 146097 in
  let n100 := r400 / 36524 in
  let r100 := r400 mod 36524 in
  let n4 := r100 / 1461 in
  let r4 := r100 mod 1461 in
  let n1 := r4 / 365 in
  let n := r4 mod 365 in
  let y := n400 * 400 + 1 + n100 * 100 + n4 * 4 + n1 in
  if (n1 =? 4) || (n100 =? 4)
  then {| year := y - 1; month := 12; day := 31 |}
  else
    let leapyear := (n1 =? 3) && (negb (n4 =? 24) || (n100 =? 3)) in
    let m := Z.shiftr (n + 50) 5 in
    let preceding :=
      days_before_month m + (if (2 <? m) && leapyear then 1 else 0) in
    if n <? preceding
    then {| year := y; month := m - 1;
            day := n - (preceding - days_in_month y (m - 1)) + 1 |}
    else {| year := y; month := m; day := n - preceding + 1 |}.

(** The date of day [iso_day] of week [iso_week] of the ISO year
    [iso_year >= 1]; nothing for a week or a day that the year does not
    have. *)
Definition iso_to_ymd (iso_year iso_week iso_day : Z) : option pydate :=
  let first_day := days_before_year iso_year + 1 in
  let first_weekday := (first_day + 6) mod 7 in
  let has_week :=
    if (iso_week <=? 0) || (53 <=? iso_week)
    then (iso_week =? 53)
         && ((first_weekday =? 3)
             || ((first_weekday =? 2) && is_leap iso_year))
    else true in
  if negb has_week then None
  else if (iso_day <=? 0) || (8 <=? iso_day) then None
  else
    let week1_monday :=
      first_day - first_weekday + (if 3 <? first_weekday then 7 else 0) in
    Some (ord_to_ymd (week1_monday + (iso_week - 1) * 7 + iso_day - 1)).

(** The year, month and day that a string of the right length spells. *)
Definition parse_isoformat_date (s : string) : option pydate :=
  match parse_digits 4 0 s with
  | None => None
  | Some (y, p) =>
      let uses_separator := starts_with "-" p in
      let p := if uses_separator then skip_one p else p in
      if starts_with "W" p then
        match parse_digits 2 0 (skip_one p) with
        | None => None
        | Some (w, p) =>
            match p with
            | EmptyString => if y <? 1 then None else iso_to_ymd y w 1
            | String _ _ =>
                if uses_separator && negb (starts_with "-" p) then None
                else
                  match parse_digits 1 0
                          (if uses_separator then skip_one p else p) with
                  | None => None
                  | Some (d, _) => if y <? 1 then None else iso_to_ymd y w d
                  end
            end
        end
      else
        match parse_digits 2 0 p with
        | None => None
        | Some (m, p) =>
            if uses_separator && negb (starts_with "-" p) then None
            else
              match parse_digits 2 0
                      (if uses_separator then skip_one p else p) with
              | None => None
              | Some (d, _) => Some {| year := y; month := m; day := d |}
              end
        end
  end.

Definition fromisoformat (s : string) : result pydate :=
  let len := String.length s in
  if (len =? 7)%nat || (len =? 8)%nat || (len =? 10)%nat then
    match parse_isoformat_date s with
    | Some d => if valid_date d then Ok d else Raise ValueError
    | None => Raise ValueError
    end
  else Raise ValueError.

(** ** The locale of the process

    [strftime("%b")] gives the abbreviated month name of the [LC_TIME]
    locale that is in force in the process when it is called: an input of
    the script that is no argument of its functions.  Python starts in the
    C locale, whatever the environment says ([LC_CTYPE] aside), and the
    script does not set the locale itself; a program that imports the
    script can. *)
Class Locale : Type := {
  abmon : Z -> string   (* the abbreviated name of month 1 to 12 *)
}.

(** [date_obj.strftime("%b")] *)
Definition strftime_b {lc : Locale} (d : pydate) : string := abmon (month d).

(** The C locale. *)
Definition c_locale : Locale :=
  {| abmon := fun m =>
       match m with
       | 1 => "Jan" | 2 => "Feb" | 3 => "Mar" | 4 => "Apr"
       | 5 => "May" | 6 => "Jun" | 7 => "Jul" | 8 => "Aug"
       | 9 => "Sep" | 10 => "Oct" | 11 => "Nov" | _ => "Dec"
       end |}.

(** The locale [pt_BR]. *)
Definition pt_locale : Locale :=
  {| abmon := fun m =>
       match m with
       | 1 => "jan" | 2 => "fev" | 3 => "mar" | 4 => "abr"
       | 5 => "mai" | 6 => "jun" | 7 => "jul" | 8 => "ago"
       | 9 => "set" | 10 => "out" | 11 => "nov" | _ => "dez"
       end |}.

(** ** [_month_labels] *)

(** [date_obj.day == 1 and date_obj.month in (1, 4, 7, 10)] *)
Definition is_anchor (d : pydate) : bool :=
  (day d =? 1) &&
  ((month d =? 1) || (month d =? 4) || (month d =? 7) || (month d =? 10)).

(** The loop of [_month_labels], entered at index [i]. *)
Fixpoint month_labels_from {lc : Locale} (i : nat) (days : list Sample)
  : result (list (nat * string)) :=
  match days with
  | [] => Ok []
  | d :: days' =>
      date_obj <- fromisoformat (date d) ;;
      labels <- month_labels_from (S i) days' ;;
      Ok (if is_anchor date_obj
          then (i, strftime_b date_obj) :: labels
          else labels)
  end.

Definition _month_labels {lc : Locale} (days : list Sample)
  : result (list (nat * string)) :=
  month_labels_from 0 days.

(** ** [build_svg] *)

Section Core.

Context {F : Type} `{PyFloat F} {lc : Locale}.

(** [a / b] on two [int]s: true division.  The quotient is taken on the
    converted operands, which is what Python computes as long as both are
    below 2^53 in magnitude. *)
Definition int_truediv (a b : Z) : result F :=
  if b =? 0 then Raise ZeroDivisionError
  else Ok (fdiv (of_int a) (of_int b)).

(** [a / b] on two [float]s. *)
Definition float_truediv (a b : F) : result F :=
  if fis_zero b then Raise ZeroDivisionError
  else Ok (fdiv a b).

(** [math.log1p(c)] on an [int]: a math domain error at and below -1. *)
Definition math_log1p (c : Z) : result F :=
  if c <=? -1 then Raise ValueError
  else Ok (log1p_lib (of_int c)).

Definition inner_w (cfg : ChartConfig) : Z := width cfg - padding cfg * 2.
Definition inner_h (cfg : ChartConfig) : Z := height cfg - padding cfg * 2.

Definition counts (days : list Sample) : list Z := map count days.

(** [max(counts) if counts else 1] *)
Definition max_c (days : list Sample) : Z :=
  match counts days with
  | [] => 1
  | c :: cs => fold_left Z.max cs c
  end.

(** [sum(counts)] *)
Definition total (days : list Sample) : Z := fold_left Z.add (counts days) 0.

(** [[padding + (i / (n - 1)) * inner_w for i in range(n)]] *)
Definition xs (days : list Sample) (cfg : ChartConfig) : result (list F) :=
  let n := Z.of_nat (List.length days) in
  mapM (fun i : nat =>
          q <- int_truediv (Z.of_nat i) (n - 1) ;;
          Ok (fadd (of_int (padding cfg)) (fmul q (of_int (inner_w cfg)))))
       (range (List.length days)).

(** The local [norm] of [y_for_count]. *)
Definition norm_for_count (max_c c : Z) : result F :=
  if 20 <? max_c then
    a <- math_log1p c ;;
    b <- math_log1p max_c ;;
    float_truediv a b
  else
    if negb (max_c =? 0) then int_truediv c max_c else Ok (of_int 0).

Definition y_for_count (cfg : ChartConfig) (max_c c : Z) : result F :=
  norm <- norm_for_count max_c c ;;
  Ok (fadd (of_int (padding cfg))
           (fmul (fsub (of_int 1) norm) (of_int (inner_h cfg)))).

(** [[y_for_count(c) for c in counts]] *)
Definition ys (days : list Sample) (cfg : ChartConfig) : result (list F) :=
  mapM (y_for_count cfg (max_c days)) (counts days).

Definition path_of (xs ys : list F) : string :=
  join_empty
    (map (fun '(i, (x, y)) =>
            (if Nat.eqb i 0 then "M" else "L")
            ++ format_2f x ++ "," ++ format_2f y)
         (enumerate (combine xs ys))).

Definition grid_lines : Z := 5.

Definition grid_line (cfg : ChartConfig) (i : nat) : result string :=
  q <- int_truediv (Z.of_nat i) grid_lines ;;
  let y := fadd (of_int (padding cfg)) (fmul q (of_int (inner_h cfg))) in
  Ok (dq "<line x1='" ++ str_int (padding cfg)
      ++ dq "' y1='" ++ format_2f y
      ++ dq "' x2='" ++ str_int (width cfg - padding cfg)
      ++ dq "' y2='" ++ format_2f y ++ dq "' "
      ++ dq "stroke='" ++ text cfg
      ++ dq "' stroke-opacity='0.08' stroke-width='1' />").

Definition grid (cfg : ChartConfig) : result (list string) :=
  mapM (grid_line cfg) (range (Z.to_nat (grid_lines + 1))).

Definition font_family : string :=
  dq "font-family='Space Grotesk, Orbitron, Rajdhani, Arial, sans-serif' ".

(** The separator of the subtitle, as the seven bytes it has in the script. *)
Definition subtitle_separator : string :=
  String "195" (String "162" (String "226" (String "130"
    (String "172" (String "194" (String "162" EmptyString)))))).

Definition svg_open (cfg : ChartConfig) : string :=
  dq "<svg xmlns='http://www.w3.org/2000/svg' width='" ++ str_int (width cfg)
  ++ dq "' height='" ++ str_int (height cfg) ++ dq "' "
  ++ dq "viewBox='0 0 " ++ str_int (width cfg) ++ " " ++ str_int (height cfg)
  ++ dq "' role='img' aria-label='GitHub contributions line chart'>".

Definition svg_head (cfg : ChartConfig) (first_date : string) (total : Z)
  : list string :=
  [ svg_open cfg;
    dq "<rect width='100%' height='100%' fill='" ++ bg cfg
      ++ dq "' rx='14' ry='14'/>";
    "<defs>";
    dq "<filter id='glow' x='-50%' y='-50%' width='200%' height='200%'>";
    dq "<feGaussianBlur stdDeviation='3' result='coloredBlur'/>";
    "<feMerge>";
    dq "<feMergeNode in='coloredBlur'/>";
    dq "<feMergeNode in='SourceGraphic'/>";
    "</feMerge>";
    "</filter>";
    "</defs>";
    dq "<text x='" ++ str_int (padding cfg)
      ++ dq "' y='" ++ str_int (padding cfg - 16)
      ++ dq "' fill='" ++ text cfg ++ dq "' "
      ++ font_family
      ++ dq "font-size='20' font-weight='700'>GitHub Contributions</text>";
    dq "<text x='" ++ str_int (padding cfg)
      ++ dq "' y='" ++ str_int (padding cfg + 6)
      ++ dq "' fill='" ++ text cfg ++ dq "' "
      ++ font_family
      ++ dq "font-size='12' opacity='0.8'>Year "
      ++ prefix_of 4 first_date
      ++ " " ++ subtitle_separator ++ " Total " ++ str_int total
      ++ "</text>" ].

Definition svg_paths (cfg : ChartConfig) (path : string) : list string :=
  [ dq "<path d='" ++ path ++ dq "' fill='none' stroke='" ++ stroke cfg
      ++ dq "' stroke-width='2.6' "
      ++ dq "stroke-linejoin='round' stroke-linecap='round' filter='url(#glow)'/>";
    dq "<path d='" ++ path ++ dq "' fill='none' stroke='" ++ stroke cfg
      ++ dq "' stroke-width='1.4' "
      ++ dq "stroke-linejoin='round' stroke-linecap='round'/>" ].

(** The body of [for idx, label in labels]. *)
Definition label_text (cfg : ChartConfig) (xs : list F) (l : nat * string)
  : result string :=
  match nth_error xs (fst l) with
  | None => Raise IndexError
  | Some x =>
      Ok (dq "<text x='" ++ format_2f x
          ++ dq "' y='" ++ str_int (height cfg - padding cfg + 24)
          ++ dq "' fill='" ++ text cfg ++ dq "' "
          ++ font_family
          ++ dq "font-size='11' text-anchor='middle' opacity='0.9'>"
          ++ snd l ++ "</text>")
  end.

Definition max_text (days : list Sample) (cfg : ChartConfig) : string :=
  dq "<text x='" ++ str_int (width cfg - padding cfg)
  ++ dq "' y='" ++ str_int (padding cfg - 10)
  ++ dq "' fill='" ++ text cfg ++ dq "' "
  ++ font_family
  ++ dq "font-size='11' text-anchor='end' opacity='0.8'>max: "
  ++ str_int (max_c days) ++ "</text>".

(** The markup returned for [not days]. *)
Definition empty_svg (cfg : ChartConfig) : string :=
  dq "<svg xmlns='http://www.w3.org/2000/svg' width='" ++ str_int (width cfg)
  ++ dq "' height='" ++ str_int (height cfg) ++ dq "'>"
  ++ dq "<rect width='100%' height='100%' fill='" ++ bg cfg ++ dq "'/>"
  ++ "</svg>".

Definition build_svg (days : list Sample) (cfg : ChartConfig) : result string :=
  match days with
  | [] => Ok (empty_svg cfg)
  | d0 :: _ =>
      xs_ <- xs days cfg ;;
      ys_ <- ys days cfg ;;
      let path := path_of xs_ ys_ in
      labels <- _month_labels days ;;
      grid_ <- grid cfg ;;
      label_texts <- mapM (label_text cfg xs_) labels ;;
      Ok (join_nl (svg_head cfg (date d0) (total days)
                   ++ grid_ ++ svg_paths cfg path
                   ++ label_texts ++ [max_text days cfg; "</svg>"]))
  end.

End Core.

(** ** The script on a store of objects

    [days] reaches [build_svg] as a reference to a list object whose items
    are references to dict objects, and the function builds its result in
    list objects of its own ([labels], [grid], [svg]) that it appends to.
    The store keeps every list and dict object at a location; a location
    is the position of the object in the store, and a new object takes the
    next free position. *)

Definition loc : Type := nat.

Inductive val : Type :=
| VRef (l : loc)                 (* a reference to a dict of the store *)
| VStr (s : string)
| VLabel (i : nat) (s : string). (* the tuple [(i, name)] *)

Inductive obj : Type :=
| ODay (d : string) (c : Z)      (* [{"date": d, "count": c}] *)
| OList (items : list val).

Definition store : Type := list obj.

(** A computation on the store: a result, or an exception, and the store
    it leaves. *)
Definition M (A : Type) : Type := store -> result A * store.

Definition ret {A : Type} (a : A) : M A := fun h => (Ok a, h).

Definition lift {A : Type} (r : result A) : M A := fun h => (r, h).

Definition bindM {A B : Type} (m : M A) (k : A -> M B) : M B :=
  fun h =>
    match m h with
    | (Ok a, h') => k a h'
    | (Raise e, h') => (Raise e, h')
    end.

Notation "x <~ m ;; k" := (bindM m (fun x => k))
  (at level 61, m at next level, right associativity).

Fixpoint for_each {A : Type} (l : list A) (body : A -> M unit) : M unit :=
  match l with
  | [] => ret tt
  | a :: l' => _ <~ body a ;; for_each l' body
  end.

(** What the store holds at a reference. *)
Definition list_at (h : store) (l : loc) : option (list val) :=
  match nth_error h l with
  | Some (OList items) => Some items
  | _ => None
  end.

Definition day_at (h : store) (v : val) : option Sample :=
  match v with
  | VRef l =>
      match nth_error h l with
      | Some (ODay d c) => Some {| date := d; count := c |}
      | _ => None
      end
  | _ => None
  end.

Fixpoint all_some {A : Type} (l : list (option A)) : option (list A) :=
  match l with
  | [] => Some []
  | Some a :: l' =>
      match all_some l' with
      | Some r => Some (a :: r)
      | None => None
      end
  | None :: _ => None
  end.

(** The series a reference stands for. *)
Definition days_at (h : store) (l : loc) : option (list Sample) :=
  match list_at h l with
  | Some items => all_some (map (day_at h) items)
  | None => None
  end.

Definition from_option {A : Type} (o : option A) : M A :=
  fun h =>
    match o with
    | Some a => (Ok a, h)
    | None => (Raise TypeError, h)
    end.

(** Reading. *)
Definition get_list (l : loc) : M (list val) := fun h => from_option (list_at h l) h.
Definition get_day (v : val) : M Sample := fun h => from_option (day_at h v) h.
Definition get_days (l : loc) : M (list Sample) := fun h => from_option (days_at h l) h.

(** [days[0]] *)
Definition get_first (l : loc) : M Sample :=
  items <~ get_list l ;;
  match items with
  | [] => lift (Raise IndexError)
  | v :: _ => get_day v
  end.

(** Creating a list object. *)
Definition new_list (items : list val) : M loc :=
  fun h => (Ok (List.length h), (h ++ [OList items])%list).

Fixpoint set_nth (h : store) (l : loc) (o : obj) : store :=
  match h, l with
  | [], _ => []
  | _ :: h', O => o :: h'
  | o' :: h', S l' => o' :: set_nth h' l' o
  end.

(** [lst.append(v)] *)
Definition list_append (l : loc) (v : val) : M unit :=
  fun h =>
    match list_at h l with
    | Some items => (Ok tt, set_nth h l (OList (items ++ [v])))
    | None => (Raise TypeError, h)
    end.

Definition str_of (v : val) : result string :=
  match v with
  | VStr s => Ok s
  | _ => Raise TypeError
  end.

Section Store.

Context {F : Type} `{PyFloat F} {lc : Locale}.

(** [_month_labels], statement by statement.  The loop runs over the
    items that [days] has on entry; each [d["date"]] is read from the store
    when its iteration comes. *)
Definition month_labels_st (days : loc) : M loc :=
  labels <~ new_list [] ;;
  items <~ get_list days ;;
  _ <~ for_each (enumerate items)
         (fun '(i, v) =>
            d <~ get_day v ;;
            date_obj <~ lift (fromisoformat (date d)) ;;
            if is_anchor date_obj
            then list_append labels (VLabel i (strftime_b date_obj))
            else ret tt) ;;
  ret labels.

(** [build_svg], statement by statement.  What is computed without
    writing to an object is taken from the functions above. *)
Definition build_svg_st (days : loc) (cfg : ChartConfig) : M string :=
  items <~ get_list days ;;
  match items with
  | [] => ret (empty_svg cfg)
  | _ :: _ =>
      ds <~ get_days days ;;
      xs_ <~ lift (xs ds cfg) ;;
      ys_ <~ lift (ys ds cfg) ;;
      let path := path_of xs_ ys_ in
      labels <~ month_labels_st days ;;
      grid_ <~ new_list [] ;;
      _ <~ for_each (range (Z.to_nat (grid_lines + 1)))
             (fun i =>
                line <~ lift (grid_line cfg i) ;;
                list_append grid_ (VStr line)) ;;
      grid_items <~ get_list grid_ ;;
      d0 <~ get_first days ;;
      svg <~ new_list (map VStr (svg_head cfg (date d0) (total ds))
                       ++ grid_items
                       ++ map VStr (svg_paths cfg path)) ;;
      label_items <~ get_list labels ;;
      _ <~ for_each label_items
             (fun l =>
                match l with
                | VLabel idx label =>
                    t <~ lift (label_text cfg xs_ (idx, label)) ;;
                    list_append svg (VStr t)
                | _ => lift (Raise TypeError)
                end) ;;
      _ <~ list_append svg (VStr (max_text ds cfg)) ;;
      _ <~ list_append svg (VStr "</svg>") ;;
      svg_items <~ get_list svg ;;
      lines <~ lift (mapM str_of svg_items) ;;
      ret (join_nl lines)
  end.

(** The markup the function of the series returns for a reference. *)
Definition build_svg_at (h : store) (days : loc) (cfg : ChartConfig)
  : result string :=
  match days_at h days with
  | Some ds => build_svg ds cfg
  | None => Raise TypeError
  end.

End Store.

(** ** A run of the process

    What a program does with the chart builder: it calls [build_svg] on a
    series of the store, or it sets the locale of the process
    ([locale.setlocale]). *)
Inductive event : Type :=
| Call (days : loc) (cfg : ChartConfig)
| SetLocale (lc : Locale).

(** A run from the locale [lc] and the store [h]: what every event gave, a
    call its result, and the store at the end. *)
Fixpoint run_events {F : Type} `{PyFloat F} (lc : Locale)
    (events : list event) (h : store)
  : list (option (result string)) * store :=
  match events with
  | [] => ([], h)
  | Call days cfg :: events' =>
      let (r, h') := build_svg_st (lc := lc) days cfg h in
      let (rs, h'') := run_events lc events' h' in
      (Some r :: rs, h'')
  | SetLocale lc' :: events' =>
      let (rs, h') := run_events lc' events' h in
      (None :: rs, h')
  end.

(** The locale in force when event [i] of a run from [lc] begins. *)
Fixpoint locale_at (lc : Locale) (events : list event) (i : nat) : Locale :=
  match i, events with
  | S i', SetLocale lc' :: events' => locale_at lc' events' i'
  | S i', Call _ _ :: events' => locale_at lc events' i'
  | _, _ => lc
  end.

(** The series that the calls of a run are made on exist. *)
Definition calls_on_series (h : store) (events : list event) : Prop :=
  Forall (fun e => match e with
                   | Call days _ => days_at h days <> None
                   | SetLocale _ => True
                   end) events.

(** ** Exact arithmetic: the real numbers as [PyFloat] *)

Local Open Scope R_scope.

(** Nearest integer of a real that is not negative, ties to even. *)
Definition round_half_even (r : R) : Z :=
  let k := Int_part r in
  let f := r - IZR k in
  if Rlt_dec f (1 / 2) then k
  else if Rlt_dec (1 / 2) f then (k + 1)%Z
  else if Z.even k then k else (k + 1)%Z.

Definition two_digits (z : Z) : string :=
  (if (z <? 10)%Z then "0" else "") ++ str_int z.

Definition format_2f_R (r : R) : string :=
  let q := round_half_even (Rabs r * 100) in
  (if Rlt_dec r 0 then "-" else "")
  ++ str_int (q / 100) ++ "." ++ two_digits (q mod 100).

Definition Ris_zero (r : R) : bool :=
  if Req_dec_T r 0 then true else false.

#[export] Instance RealFloat : PyFloat R := {
  of_int := IZR;
  fadd := Rplus;
  fsub := Rminus;
  fmul := Rmult;
  fdiv := Rdiv;
  fis_zero := Ris_zero;
  log1p_lib := fun x => ln (1 + x);
  format_2f := format_2f_R
}.

(** ** Binary64: the floats of the machine

    [math.log1p] comes from the C library and is a parameter here.  An
    [int] is converted by rounding to nearest, ties to even; beyond the
    range of binary64 the conversion gives an infinity here, where Python
    raises [OverflowError]. *)

Definition float_of_int (z : Z) : float :=
  SF2Prim (binary_normalize prec emax z 0 false).

(** Nearest integer of [num / den], ties to even, for [den > 0]. *)
Definition div_half_even (num den : Z) : Z :=
  let k := (num / den)%Z in
  match (2 * (num mod den) ?= den)%Z with
  | Lt => k
  | Gt => (k + 1)%Z
  | Eq => if Z.even k then k else (k + 1)%Z
  end.

Definition format_2f_float (x : float) : string :=
  match Prim2SF x with
  | S754_zero s => (if s then "-" else "") ++ "0.00"
  | S754_infinity s => if s then "-inf" else "inf"
  | S754_nan => "nan"
  | S754_finite s m e =>
      let q := if (0 <=? e)%Z
               then (Zpos m * 2 ^ e * 100)%Z
               else div_half_even (Zpos m * 100) (2 ^ (- e)) in
      (if s then "-" else "")
      ++ str_int (q / 100) ++ "." ++ two_digits (q mod 100)
  end.

Definition Float64 (log1p : float -> float) : PyFloat float := {|
  of_int := float_of_int;
  fadd := PrimFloat.add;
  fsub := PrimFloat.sub;
  fmul := PrimFloat.mul;
  fdiv := PrimFloat.div;
  fis_zero := PrimFloat.is_zero;
  log1p_lib := log1p;
  format_2f := format_2f_float
|}.

(** The integers [lo], [lo + 1], ..., [lo + n - 1]. *)
Definition zrange (lo : Z) (n : nat) : list Z :=
  map (fun k => (lo + Z.of_nat k)%Z) (seq 0 n).

(** On binary64, the normalised value of [c1] is below that of [c2]. *)
Definition norm_ltb (log1p : float -> float) (m c1 c2 : Z) : bool :=
  match norm_for_count (H := Float64 log1p) m c1,
        norm_for_count (H := Float64 log1p) m c2 with
  | Ok a, Ok b => PrimFloat.ltb a b
  | _, _ => false
  end.

(** [norm_ltb] on every pair of counts [0 <= c1 < c2 <= m], for every
    maximum [m] from 1 to 20. *)
Definition linear_range_check (log1p : float -> float) : bool :=
  forallb (fun m =>
    forallb (fun c1 =>
      forallb (fun c2 => norm_ltb log1p m c1 c2)
              (zrange (c1 + 1) (Z.to_nat (m - c1))))
            (zrange 0 (Z.to_nat m)))
          (zrange 1 20).

(** ** The design document's wording of the scaler *)

(** [m] is the maximum of [l]. *)
Definition is_max (m : Z) (l : list Z) : Prop :=
  In m l /\ Forall (fun c => (c <= m)%Z) l.

(** The normalised value of count [c] in a series of maximum [maxCount]. *)
Inductive spec_norm (maxCount c : Z) : R -> Prop :=
| spec_norm_log :
    (20 < maxCount)%Z ->
    spec_norm maxCount c (ln (1 + IZR c) / ln (1 + IZR maxCount))
| spec_norm_linear :
    (0 < maxCount <= 20)%Z ->
    spec_norm maxCount c (IZR c / IZR maxCount)
| spec_norm_zero :
    maxCount = 0%Z ->
    spec_norm maxCount c 0.

(** [y = padding + (1 - norm) * innerHeight] *)
Definition spec_y (cfg : ChartConfig) (maxCount c : Z) (y : R) : Prop :=
  exists norm,
    spec_norm maxCount c norm /\
    y = IZR (padding cfg)
        + (1 - norm) * IZR (height cfg - 2 * padding cfg).

(** Counts are never negative: the invariant of the data model. *)
Definition nonneg_counts (days : list Sample) : Prop :=
  Forall (fun d => (0 <= count d)%Z) days.

(** [x = padding + (i / (n - 1)) * innerWidth] for sample [i] of [n]. *)
Definition spec_x (cfg : ChartConfig) (n i : nat) : R :=
  IZR (padding cfg)
  + (INR i / (INR n - 1)) * IZR (width cfg - 2 * padding cfg).

(** [l] is strictly increasing. *)
Definition strictly_increasing (l : list R) : Prop :=
  forall i j a b,
    (i < j)%nat -> nth_error l i = Some a -> nth_error l j = Some b -> a < b.

(** ** Concrete series *)

Definition mk_sample (d : string) (c : Z) : Sample := {| date := d; count := c |}.

(** The example series of the design document: counts 5, 10 and 20. *)
Definition linear_days : list Sample :=
  [ mk_sample "2024-01-01" 5; mk_sample "2024-01-02" 10;
    mk_sample "2024-01-03" 20 ].

(** A series with a spike above the linear range. *)
Definition spike_days : list Sample :=
  [ mk_sample "2024-01-01" 0; mk_sample "2024-01-02" 100;
    mk_sample "2024-01-03" 7 ].

Definition single_day : list Sample := [ mk_sample "2024-01-01" 3 ].

Definition two_days : list Sample :=
  [ mk_sample "2024-01-01" 0; mk_sample "2024-01-02" 5 ].

(** [build_svg(days, width=100, padding=50)]: no room between the paddings. *)
Definition narrow_config : ChartConfig :=
  {| width := 100; height := 360; padding := 50;
     bg := BG; stroke := STROKE; text := TEXT |}.

(** [build_svg(days, height=100)]: the paddings overlap vertically. *)
Definition short_config : ChartConfig :=
  {| width := 1200; height := 100; padding := 52;
     bg := BG; stroke := STROKE; text := TEXT |}.

(** A store with the example series at location 3 and an empty series at
    location 4, and calls on both. *)
Definition example_store : store :=
  [ ODay "2024-01-01" 5; ODay "2024-01-02" 10; ODay "2024-01-03" 20;
    OList [VRef 0%nat; VRef 1%nat; VRef 2%nat]; OList [] ].

Definition example_events : list event :=
  [ Call 3%nat default_config; Call 4%nat default_config;
    SetLocale pt_locale;
    Call 3%nat narrow_config; Call 3%nat default_config ].

(** The same call before and after a change of the locale. *)
Definition locale_change : list event :=
  [ Call 3%nat default_config; SetLocale pt_locale;
    Call 3%nat default_config ].

(** The English short names of the four quarter-start months. *)
Definition quarter_name (m : Z) (name : string) : Prop :=
  (m = 1%Z /\ name = "Jan") \/ (m = 4%Z /\ name = "Apr") \/
  (m = 7%Z /\ name = "Jul") \/ (m = 10%Z /\ name = "Oct").

(** The integers that a float holds exactly whatever their value: up to
    2^53 in size.  Far above, at 2^1024, the conversion of an [int] to a
    [float] raises [OverflowError], which [exn] leaves out. *)
Definition float_exact (z : Z) : Prop := (Z.abs z <= 2 ^ 53)%Z.

Definition float_exact_input (days : list Sample) (cfg : ChartConfig) : Prop :=
  Forall (fun d => float_exact (count d)) days /\
  float_exact (width cfg) /\ float_exact (height cfg) /\
  float_exact (padding cfg).

(** ** The design document's wording of the label selection *)

(** The first day of January, April, July or October. *)
Definition quarter_start (d : pydate) : Prop :=
  day d = 1%Z /\
  (month d = 1%Z \/ month d = 4%Z \/ month d = 7%Z \/ month d = 10%Z).

(** The samples [days] carry the calendar dates [dates], one by one. *)
Definition parsed_dates (days : list Sample) (dates : list pydate) : Prop :=
  Forall2 (fun d dt => fromisoformat (date d) = Ok dt) days dates.

(** The pairs (index, short month name) of the quarter starts among
    [dates], in sample order, the first sample having index [i]. *)
Fixpoint anchors_from {lc : Locale} (i : nat) (dates : list pydate)
  : list (nat * string) :=
  match dates with
  | [] => []
  | dt :: dates' =>
      if is_anchor dt
      then (i, strftime_b dt) :: anchors_from (S i) dates'
      else anchors_from (S i) dates'
  end.

(** The days of month [m] of year [y], and of the whole year [y], in
    calendar order. *)
Definition dates_of_month (y m : Z) : list pydate :=
  map (fun d => {| year := y; month := m; day := Z.of_nat d |})
      (seq 1 (Z.to_nat (days_in_month y m))).

Definition dates_of_year (y : Z) : list pydate :=
  flat_map (fun m => dates_of_month y (Z.of_nat m)) (seq 1 12).

(** [date_obj.isoformat()]: the form [YYYY-MM-DD]. *)
Definition digit_char (z : Z) : ascii := ascii_of_nat (Z.to_nat (48 + z)).

Definition isoformat (d : pydate) : string :=
  let dc (z : Z) := digit_char (z mod 10) in
  String (dc (year d / 1000)%Z) (String (dc (year d / 100)%Z)
    (String (dc (year d / 10)%Z) (String (dc (year d))
      (String "-" (String (dc (month d / 10)%Z) (String (dc (month d))
        (String "-" (String (dc (day d / 10)%Z) (String (dc (day d))
          EmptyString))))))))).

(** A series with one sample for every day of year [y], all counts [c]. *)
Definition year_days (y c : Z) : list Sample :=
  map (fun dt => mk_sample (isoformat dt) c) (dates_of_year y).

(** The samples [days] carry the dates [dates], written as [YYYY-MM-DD]. *)
Definition calendar_dates (days : list Sample) (dates : list pydate) : Prop :=
  Forall2 (fun d dt => valid_date dt = true /\ date d = isoformat dt)
          days dates.

(** ** Reading the store and the document in the proofs *)

(** The declarations of the root element. *)
Definition width_decl (cfg : ChartConfig) : string :=
  dq " width='" ++ str_int (width cfg) ++ dq "'".

Definition height_decl (cfg : ChartConfig) : string :=
  dq " height='" ++ str_int (height cfg) ++ dq "'".

Definition viewBox_decl (cfg : ChartConfig) : string :=
  dq " viewBox='0 0 " ++ str_int (width cfg) ++ " " ++ str_int (height cfg)
  ++ dq "'".

Definition aria_label_decl : string :=
  dq " aria-label='GitHub contributions line chart'".

(** The values a loop appends: those of the iterations that append. *)
Fixpoint somes {A : Type} (l : list (option A)) : list A :=
  match l with
  | [] => []
  | Some a :: l' => a :: somes l'
  | None :: l' => somes l'
  end.

(** The tuple [(i, name)] as a value of the store. *)
Definition label_val (p : nat * string) : val := VLabel (fst p) (snd p).

(** What one iteration of the loop appends, read from the store [h]. *)
Definition month_step {lc : Locale} (h : store) (p : nat * val)
  : result (option val) :=
  match day_at h (snd p) with
  | Some d =>
      date_obj <- fromisoformat (date d) ;;
      Ok (if is_anchor date_obj
          then Some (VLabel (fst p) (strftime_b date_obj))
          else None)
  | None => Raise TypeError
  end.

(** What the loop over the labels appends for one of them. *)
Definition label_step {F : Type} `{PyFloat F} (cfg : ChartConfig) (xs_ : list F)
    (l : val) : result (option val) :=
  match l with
  | VLabel idx label =>
      t <- label_text cfg xs_ (idx, label) ;;
      Ok (Some (VStr t))
  | _ => Raise TypeError
  end.

(** ** Reading the parts of the document *)

(** The characters of a number in decimal: digits, sign and point. *)
Definition numeric_char (c : ascii) : bool :=
  let n := nat_of_ascii c in
  ((48 <=? n)%nat && (n <=? 57)%nat) || Ascii.eqb c "-" || Ascii.eqb c ".".

Fixpoint numeric (s : string) : bool :=
  match s with
  | EmptyString => true
  | String c s' => numeric_char c && numeric s'
  end.

(** How often the character [c] occurs in [s]. *)
Fixpoint count_char (c : ascii) (s : string) : nat :=
  match s with
  | EmptyString => O
  | String a s' => ((if Ascii.eqb a c then 1 else 0) + count_char c s')%nat
  end.

(** In front of any text, [s] contributes the elements [tags] and no
    more. *)
Definition emits (tags : list string) (s : string) : Prop :=
  forall rest, elements (s ++ rest) = (tags ++ elements rest)%list.

(** The elements in front of the grid lines: root, background, the glow
    filter, title and subtitle. *)
Definition head_elements : list string :=
  [ "svg"; "rect"; "defs"; "filter"; "feGaussianBlur"; "feMerge";
    "feMergeNode"; "feMergeNode"; "text"; "text" ].



(** A series without contributions. *)
Definition zero_days : list Sample :=
  [ mk_sample "2024-01-01" 0; mk_sample "2024-01-02" 0;
    mk_sample "2024-01-03" 0 ].

(** The four quarter starts of year [y]. *)
Definition quarter_dates (y : Z) : list pydate :=
  [ {| year := y; month := 1; day := 1 |};
    {| year := y; month := 4; day := 1 |};
    {| year := y; month := 7; day := 1 |};
    {| year := y; month := 10; day := 1 |} ].


(** ** The command line tool around the chart builder

    [_github_token], [_request_graphql], [fetch_contributions] and [main]
    read the environment, talk to the network and write a file.  The state
    they act on is a [World]; what the libraries do ([json], [urllib],
    [os]) is the interface [Platform]. *)

(** Exceptions of the tool: those of the chart builder, and more. *)
Inductive pyexn : Type :=
| Builtin (e : exn)
| RuntimeError (msg : string)
| KeyError (key : string)
| LibraryError (name : string)   (* raised inside json, urllib or os *)
| OutsideModel.                  (* not an exception: a date that is not a
                                    string or a count that is not an int *)

Inductive outcome (A : Type) : Type :=
| Done (a : A)
| Fail (e : pyexn).

Arguments Done {A} a.
Arguments Fail {A} e.

(** The objects that [json.loads] returns; the keys of a dict are distinct. *)
#[warnings="-register-all"]
Inductive json : Type :=
| JNull
| JBool (b : bool)
| JInt (z : Z)
| JFloat (x : float)
| JStr (s : string)
| JList (l : list json)
| JDict (d : list (string * json)).

(** [urllib.request.Request] with its headers, and what comes back. *)
Record Request : Type := {
  url : string;
  method : string;
  headers : list (string * string);
  data : string;
  timeout : Z
}.

Record Response : Type := {
  status : Z;
  body : string        (* [res.read().decode("utf-8")] *)
}.

Class Platform : Type := {
  FS : Type;                                   (* the file system *)
  json_dumps : json -> string;
  json_loads : string -> outcome json;
  (* the answer to a request, given the requests sent before *)
  urlopen : list Request -> Request -> outcome Response;
  (* [os.makedirs(d, exist_ok=True)], and opening a file for writing,
     writing the text and closing the file: how the call ends, and the file
     system it leaves, which a call that fails may have changed *)
  makedirs_exist_ok : string -> FS -> outcome unit * FS;
  write_text : string -> string -> FS -> outcome unit * FS
}.

Section Tool.

Context `{Platform}.

Record World : Type := {
  environ : string -> option string;   (* [os.getenv] *)
  lc_time : Locale;                    (* the locale of the process *)
  sent : list Request;                 (* the requests sent so far *)
  disk : FS
}.

Definition IO (A : Type) : Type := World -> outcome A * World.

Definition io_ret {A : Type} (a : A) : IO A := fun w => (Done a, w).

Definition io_raise {A : Type} (e : pyexn) : IO A := fun w => (Fail e, w).

Definition io_bind {A B : Type} (m : IO A) (k : A -> IO B) : IO B :=
  fun w =>
    match m w with
    | (Done a, w') => k a w'
    | (Fail e, w') => (Fail e, w')
    end.

Definition io_lift {A : Type} (o : outcome A) : IO A := fun w => (o, w).

Notation "x <== m ;; k" := (io_bind m (fun x => k))
  (at level 61, m at next level, right associativity).

Definition GITHUB_API : string := "https://api.github.com/graphql".

(** [x or y] on the results of [os.getenv]: [x] unless it is [None] or
    empty. *)
Definition or_else (x y : option string) : option string :=
  match x with
  | Some (String _ _) => x
  | _ => y
  end.

Definition _github_token : IO string :=
  fun w =>
    match or_else (environ w "GITHUB_TOKEN") (environ w "GH_PAT") with
    | Some (String c t) => (Done (String c t), w)
    | _ =>
        (Fail (RuntimeError "Missing GitHub token. Set GITHUB_TOKEN or GH_PAT."),
         w)
    end.

(** [urllib.request.urlopen(req, timeout=20)] and the reading of the
    answer: the request goes out, then the answer is there or an exception
    is. *)
Definition send (req : Request) : IO Response :=
  fun w =>
    (urlopen (sent w) req,
     {| environ := environ w; lc_time := lc_time w;
        sent := (sent w ++ [req])%list; disk := disk w |}).

(** The request that [_request_graphql] builds: a POST of [payload] to
    [GITHUB_API] with the two headers. *)
Definition graphql_request (token payload : string) : Request :=
  {| url := GITHUB_API; method := "POST";
     headers := [ ("Authorization", "bearer " ++ token);
                  ("Content-Type", "application/json") ];
     data := payload; timeout := 20 |}.

Definition _request_graphql (query : string) (variables : json) : IO json :=
  let payload :=
    json_dumps (JDict [("query", JStr query); ("variables", variables)]) in
  token <== _github_token ;;
  res <== send (graphql_request token payload) ;;
  if negb (status res =? 200)%Z then
    io_raise (RuntimeError ("GitHub API error: " ++ str_int (status res)
                            ++ " " ++ body res))
  else io_lift (json_loads (body res)).

(** [key in obj] for a [str] key. *)
Definition py_in (key : string) (obj : json) : outcome bool :=
  match obj with
  | JDict d => Done (existsb (fun kv => String.eqb (fst kv) key) d)
  | JList l =>
      Done (existsb (fun v => match v with
                              | JStr s => String.eqb s key
                              | _ => false
                              end) l)
  | JStr s => Done (contains key s)
  | _ => Fail (Builtin TypeError)
  end.

(** [obj[key]] for a [str] key. *)
Definition py_getitem (obj : json) (key : string) : outcome json :=
  match obj with
  | JDict d =>
      match find (fun kv => String.eqb (fst kv) key) d with
      | Some kv => Done (snd kv)
      | None => Fail (KeyError key)
      end
  | _ => Fail (Builtin TypeError)
  end.

Definition o_bind {A B : Type} (o : outcome A) (k : A -> outcome B) : outcome B :=
  match o with
  | Done a => k a
  | Fail e => Fail e
  end.

Notation "x <=- o ;; k" := (o_bind o (fun x => k))
  (at level 61, o at next level, right associativity).

Fixpoint o_mapM {A B : Type} (f : A -> outcome B) (l : list A)
  : outcome (list B) :=
  match l with
  | [] => Done []
  | a :: l' =>
      b <=- f a ;;
      bs <=- o_mapM f l' ;;
      Done (b :: bs)
  end.

(** The items a [for] loop runs over. *)
Definition py_iter (obj : json) : outcome (list json) :=
  match obj with
  | JList l => Done l
  | JDict d => Done (map (fun kv => JStr (fst kv)) d)
  | JStr s =>
      Done (map (fun c => JStr (String c EmptyString)) (list_ascii_of_string s))
  | _ => Fail (Builtin TypeError)
  end.

(** [{"date": d["date"], "count": d["contributionCount"]}]: the dict of one
    day, for a date that is a string and a count that is an int. *)
Definition day_entry (d : json) : outcome Sample :=
  date_ <=- py_getitem d "date" ;;
  count_ <=- py_getitem d "contributionCount" ;;
  match date_, count_ with
  | JStr s, JInt c => Done {| date := s; count := c |}
  | _, _ => Fail OutsideModel
  end.

(** The two nested loops over the weeks and their days. *)
Definition week_days (w : json) : outcome (list Sample) :=
  ds <=- py_getitem w "contributionDays" ;;
  items <=- py_iter ds ;;
  o_mapM day_entry items.

Definition all_days (weeks : json) : outcome (list Sample) :=
  ws <=- py_iter weeks ;;
  per_week <=- o_mapM week_days ws ;;
  Done (List.concat per_week).

(** [days.sort(key=lambda x: x["date"])]: the sort is stable, and on
    string keys its result is the one sorted list that keeps samples of
    equal date in their order.  It is computed here by insertion. *)
Fixpoint insert_day (d : Sample) (l : list Sample) : list Sample :=
  match l with
  | [] => [d]
  | d' :: l' =>
      if String.leb (date d) (date d') then d :: l
      else d' :: insert_day d l'
  end.

Definition sort_days (l : list Sample) : list Sample :=
  fold_right insert_day [] l.

Definition contributions_query : string :=
  join_nl
  [ "";
    "    query($login: String!, $from: DateTime!, $to: DateTime!) {";
    "      user(login: $login) {";
    "        contributionsCollection(from: $from, to: $to) {";
    "          contributionCalendar {";
    "            totalContributions";
    "            weeks {";
    "              contributionDays {";
    "                date";
    "                contributionCount";
    "              }";
    "            }";
    "          }";
    "        }";
    "      }";
    "    }";
    "    " ].

(** What [fetch_contributions] does with the answer of the data source. *)
Definition days_of_payload (payload : json) : outcome (list Sample) :=
  has_errors <=- py_in "errors" payload ;;
  if has_errors then
    errors <=- py_getitem payload "errors" ;;
    Fail (RuntimeError (json_dumps errors))
  else
    data_ <=- py_getitem payload "data" ;;
    user <=- py_getitem data_ "user" ;;
    collection <=- py_getitem user "contributionsCollection" ;;
    calendar <=- py_getitem collection "contributionCalendar" ;;
    weeks <=- py_getitem calendar "weeks" ;;
    days <=- all_days weeks ;;
    Done (sort_days days).

(** [{"login": username, "from": start, "to": end}] *)
Definition fetch_variables (username : string) (year_ : Z) : json :=
  let start := str_int year_ ++ "-01-01T00:00:00Z" in
  let end_ := str_int year_ ++ "-12-31T23:59:59Z" in
  JDict [("login", JStr username); ("from", JStr start); ("to", JStr end_)].

Definition fetch_contributions (username : string) (year_ : Z)
  : IO (list Sample) :=
  payload <== _request_graphql contributions_query
                (fetch_variables username year_) ;;
  io_lift (days_of_payload payload).

(** [os.path.dirname] on POSIX. *)
Fixpoint has_slash (s : string) : bool :=
  match s with
  | EmptyString => false
  | String c s' => Ascii.eqb c "/" || has_slash s'
  end.

Fixpoint upto_last_slash (s : string) : string :=
  match s with
  | EmptyString => EmptyString
  | String c s' =>
      if has_slash s' then String c (upto_last_slash s')
      else if Ascii.eqb c "/" then String c EmptyString
      else EmptyString
  end.

Fixpoint all_slashes (s : string) : bool :=
  match s with
  | EmptyString => true
  | String c s' => Ascii.eqb c "/" && all_slashes s'
  end.

Fixpoint rstrip_slashes (s : string) : string :=
  match s with
  | EmptyString => EmptyString
  | String c s' =>
      if all_slashes (String c s') then EmptyString
      else String c (rstrip_slashes s')
  end.

Definition dirname (p : string) : string :=
  let head := upto_last_slash p in
  if negb (String.eqb head "") && negb (all_slashes head)
  then rstrip_slashes head
  else head.

(** The parsed command line. *)
Record Args : Type := {
  user : string;
  year_arg : Z;
  out : string
}.

Definition io_disk (f : FS -> outcome unit * FS) : IO unit :=
  fun w =>
    let (o, fs') := f (disk w) in
    (o, {| environ := environ w; lc_time := lc_time w; sent := sent w;
           disk := fs' |}).

(** The locale that [strftime] finds. *)
Definition io_locale : IO Locale := fun w => (Done (lc_time w), w).

Section Main.

Context {F : Type} `{PyFloat F}.

Definition main (args : Args) : IO Z :=
  days <== fetch_contributions (user args) (year_arg args) ;;
  lc <== io_locale ;;
  svg <== io_lift (match build_svg (lc := lc) days default_config with
                   | Ok s => Done s
                   | Raise e => Fail (Builtin e)
                   end) ;;
  _ <== io_disk (makedirs_exist_ok (dirname (out args))) ;;
  _ <== io_disk (write_text (out args) svg) ;;
  io_ret 0%Z.

End Main.

End Tool.

(** ** The order of the fetched series *)

(** [a] is not dated after [b], by the order of the date strings. *)
Definition date_le (a b : Sample) : Prop :=
  String.leb (date a) (date b) = true.

(** The samples of date [s]. *)
Definition on_date (s : string) (l : list Sample) : list Sample :=
  filter (fun x => String.eqb (date x) s) l.

(** [d1 <= d2] on dates: the order of the calendar. *)
Definition chrono_leb (d1 d2 : pydate) : bool :=
  match (year d1 ?= year d2)%Z with
  | Lt => true
  | Gt => false
  | Eq =>
      match (month d1 ?= month d2)%Z with
      | Lt => true
      | Gt => false
      | Eq => (day d1 <=? day d2)%Z
      end
  end.


(** [os.getenv] gave nothing to use: no value, or the empty one. *)
Definition unset (v : option string) : Prop := v = None \/ v = Some "".

Definition missing_token : pyexn :=
  RuntimeError "Missing GitHub token. Set GITHUB_TOKEN or GH_PAT.".

(** The object bound to [key] in a dict whose keys are distinct. *)
Definition binds (d : list (string * json)) (key : string) (v : json) : Prop :=
  NoDup (map fst d) /\ In (key, v) d.

Definition no_key (d : list (string * json)) (key : string) : Prop :=
  forall v, ~ In (key, v) d.

Definition chrono_le (d1 d2 : pydate) : Prop := chrono_leb d1 d2 = true.

(** ** A platform to run the tool on

    The data source always gives [answer], [json.loads] reads every body
    as [parsed], and the file system is the list of the files written,
    the last one first; as on POSIX, no directory has the empty name. *)
Definition canned_platform (answer : outcome Response) (parsed : outcome json)
  : Platform :=
  {| FS := list (string * string);
     json_dumps := fun _ => "{}";
     json_loads := fun _ => parsed;
     urlopen := fun _ _ => answer;
     makedirs_exist_ok := fun d fs =>
       if String.eqb d "" then (Fail (LibraryError "FileNotFoundError"), fs)
       else (Done tt, fs);
     write_text := fun p s fs => (Done tt, ((p, s) :: fs)%list) |}.

Definition day_json (d : string) (c : Z) : json :=
  JDict [("date", JStr d); ("contributionCount", JInt c)].

Definition week_json (ds : list json) : json :=
  JDict [("contributionDays", JList ds)].

(** The answer of the data source around the weeks of the calendar. *)
Definition calendar_payload (weeks : list json) : json :=
  JDict [("data",
    JDict [("user",
      JDict [("contributionsCollection",
        JDict [("contributionCalendar",
          JDict [("totalContributions", JInt 3);
                 ("weeks", JList weeks)])])])])].

(** Two weeks, the days of the first one out of order. *)
Definition two_weeks : list json :=
  [ week_json [day_json "2024-01-08" 2; day_json "2024-01-07" 1];
    week_json [day_json "2024-01-09" 0] ].

Definition one_day_week : list json :=
  [ week_json [day_json "2024-01-01" 4] ].

Definition ok_answer : outcome Response :=
  Done {| status := 200; body := "{}" |}.

Definition gh_pat_env (k : string) : option string :=
  if String.eqb k "GH_PAT" then Some "t0k3n" else None.

Definition no_env (k : string) : option string := None.

(** A world in the C locale, with nothing sent. *)
Definition fresh_world (P : Platform) (env : string -> option string)
    (fs : @FS P) : @World P :=
  {| environ := env; lc_time := c_locale; sent := []; disk := fs |}.

(** The platform of a good day, and one whose data source is down. *)
Definition demo_platform : Platform :=
  canned_platform ok_answer (Done (calendar_payload two_weeks)).

Definition down_platform : Platform :=
  canned_platform (Done {| status := 503; body := "down" |}) (Done JNull).

Definition one_day_platform : Platform :=
  canned_platform ok_answer (Done (calendar_payload one_day_week)).

(** The data source answers with errors beside the data, or does not know
    the user. *)
Definition errors_payload : json :=
  JDict [("data", JNull); ("errors", JList [JStr "rate limited"])].

Definition errors_platform : Platform :=
  canned_platform ok_answer (Done errors_payload).

Definition null_user_payload : json :=
  JDict [("data", JDict [("user", JNull)])].

Definition null_user_platform : Platform :=
  canned_platform ok_answer (Done null_user_payload).

(** A year without weeks. *)
Definition empty_platform : Platform :=
  canned_platform ok_answer (Done (calendar_payload [])).

Definition default_args : Args :=
  {| user := "octocat"; year_arg := 2024; out := "assets/contributions.svg" |}.

Definition bare_args : Args :=
  {| user := "octocat"; year_arg := 2024; out := "chart.svg" |}.

(** Statements that name no locale are about the C locale, in which
    Python starts. *)
#[export] Existing Instance c_locale.

(** ** General lemmas *)

Lemma bind_Ok {A B} (r : result A) (k : A -> result B) (b : B) :
  bind r k = Ok b -> exists a, r = Ok a /\ k a = Ok b.
Proof.
  destruct r as [a|e]; simpl; intros E; [eauto | discriminate].
Qed.

Lemma mapM_Forall2 {A B} (f : A -> result B) (Q : A -> B -> Prop) (l : list A) :
  Forall (fun a => exists b, f a = Ok b /\ Q a b) l ->
  exists bs, mapM f l = Ok bs /\ Forall2 Q l bs.
Proof.
  induction 1 as [|a l [b [Eb Qb]] _ [bs [Ebs Qbs]]]; simpl.
  - exists []. split; [reflexivity | constructor].
  - exists (b :: bs). rewrite Eb, Ebs. simpl. split; [reflexivity | now constructor].
Qed.

Lemma Forall2_map_left {A B C} (g : A -> B) (Q : B -> C -> Prop)
    (l : list A) (l' : list C) :
  Forall2 Q (map g l) l' -> Forall2 (fun a c => Q (g a) c) l l'.
Proof.
  revert l'. induction l as [|a l IH]; intros l' HF; inversion HF; subst.
  - constructor.
  - constructor; auto.
Qed.

Lemma mapM_Ok_map {A B} (f : A -> result B) (g : A -> B) (l : list A) :
  (forall a, In a l -> f a = Ok (g a)) ->
  mapM f l = Ok (map g l).
Proof.
  induction l as [|a l IH]; simpl; intros Hf; [reflexivity|].
  rewrite (Hf a) by now left. simpl.
  rewrite IH by (intros; apply Hf; now right). reflexivity.
Qed.

Lemma fold_max_ge (l : list Z) (a : Z) : (a <= fold_left Z.max l a)%Z.
Proof.
  revert a. induction l as [|b l IH]; simpl; intros a; [lia|].
  specialize (IH (Z.max a b)). lia.
Qed.

Lemma fold_max_upper (l : list Z) (a : Z) :
  Forall (fun c => (c <= fold_left Z.max l a)%Z) l.
Proof.
  revert a. induction l as [|b l IH]; simpl; intros a; constructor.
  - pose proof (fold_max_ge l (Z.max a b)). lia.
  - apply IH.
Qed.

Lemma fold_max_In (l : list Z) (a : Z) :
  fold_left Z.max l a = a \/ In (fold_left Z.max l a) l.
Proof.
  revert a. induction l as [|b l IH]; simpl; intros a; [now left|].
  destruct (IH (Z.max a b)) as [E|E].
  - rewrite E. destruct (Z.max_spec a b) as [[_ ->]|[_ ->]]; auto.
  - auto.
Qed.

(** [max_c] is the maximum of a series that is not empty. *)
Lemma max_c_is_max (days : list Sample) :
  days <> [] -> is_max (max_c days) (counts days).
Proof.
  unfold max_c, counts. destruct days as [|d days]; [congruence|]. intros _.
  simpl. split.
  - destruct (fold_max_In (map count days) (count d)) as [->|E]; [now left | now right].
  - constructor; [apply fold_max_ge | apply fold_max_upper].
Qed.

Lemma is_max_unique (l : list Z) (m m' : Z) :
  is_max m l -> is_max m' l -> m = m'.
Proof.
  intros [Hin Hle] [Hin' Hle']. rewrite Forall_forall in Hle, Hle'.
  apply Hle' in Hin. apply Hle in Hin'. lia.
Qed.

Lemma max_c_nonneg (days : list Sample) :
  days <> [] -> nonneg_counts days -> (0 <= max_c days)%Z.
Proof.
  intros Hne Hnn. destruct (max_c_is_max days Hne) as [Hin _].
  unfold counts in Hin. apply in_map_iff in Hin. destruct Hin as [d [<- Hd]].
  unfold nonneg_counts in Hnn. rewrite Forall_forall in Hnn. now apply Hnn.
Qed.

(** ** The scaler over the reals *)

Lemma ln_1p_pos (z : Z) : (0 < z)%Z -> 0 < ln (1 + IZR z).
Proof.
  intros Hz. rewrite <- ln_1. apply ln_increasing; [lra|].
  apply IZR_lt in Hz. lra.
Qed.

Lemma Ris_zero_false (r : R) : r <> 0 -> Ris_zero r = false.
Proof. unfold Ris_zero. destruct (Req_dec_T r 0); congruence. Qed.

Lemma norm_for_count_log (m c : Z) :
  (20 < m)%Z -> (0 <= c)%Z ->
  norm_for_count m c = Ok (ln (1 + IZR c) / ln (1 + IZR m)).
Proof.
  intros Hm Hc. unfold norm_for_count, math_log1p, float_truediv.
  apply Z.ltb_lt in Hm as Hm'. rewrite Hm'.
  replace (c <=? -1)%Z with false by (symmetry; apply Z.leb_gt; lia).
  replace (m <=? -1)%Z with false by (symmetry; apply Z.leb_gt; lia).
  simpl. rewrite Ris_zero_false; [reflexivity|].
  pose proof (ln_1p_pos m ltac:(lia)). lra.
Qed.

Lemma norm_for_count_linear (m c : Z) :
  (m <= 20)%Z -> m <> 0%Z ->
  norm_for_count m c = Ok (IZR c / IZR m).
Proof.
  intros Hm Hm0. unfold norm_for_count, int_truediv.
  replace (20 <? m)%Z with false by (symmetry; apply Z.ltb_ge; lia).
  replace (m =? 0)%Z with false by (symmetry; now apply Z.eqb_neq).
  reflexivity.
Qed.

Lemma norm_for_count_zero (c : Z) : norm_for_count 0 c = Ok 0.
Proof. reflexivity. Qed.

(** The scaler returns a value for every count that is not negative, and
    the value is the one the design document describes. *)
Lemma norm_for_count_spec (m c : Z) :
  (0 <= m)%Z -> (0 <= c)%Z ->
  exists norm, norm_for_count m c = Ok norm /\ spec_norm m c norm.
Proof.
  intros Hm Hc.
  destruct (Z_lt_le_dec 20 m) as [Hlog|Hlin].
  - eexists. split; [now apply norm_for_count_log | now constructor].
  - destruct (Z.eq_dec m 0) as [->|Hm0].
    + eexists. split; [apply norm_for_count_zero | now apply spec_norm_zero].
    + eexists. split; [now apply norm_for_count_linear|].
      apply spec_norm_linear. lia.
Qed.

(** The list of vertical positions is computed without an exception. *)
Lemma ys_Ok (days : list Sample) (cfg : ChartConfig) :
  days <> [] -> nonneg_counts days ->
  exists ys_ : list R, ys days cfg = Ok ys_.
Proof.
  intros Hne Hnn. pose proof (max_c_nonneg days Hne Hnn) as Hm.
  destruct (mapM_Forall2 (y_for_count cfg (max_c days)) (fun _ _ => True)
              (counts days)) as [ys_ [E _]]; [|now exists ys_].
  unfold counts. apply Forall_map. revert Hnn. apply Forall_impl. intros d Hd.
  destruct (norm_for_count_spec (max_c days) (count d) Hm Hd) as [norm [En _]].
  unfold y_for_count. rewrite En. simpl. eauto.
Qed.

(** C1: for a series that is not empty, with [maxCount] its maximum count,
    the vertical position computed for a sample of count [c] is
    [padding + (1 - norm) * innerHeight], where [norm] is
    [ln(1 + c) / ln(1 + maxCount)] for [maxCount > 20], [c / maxCount] for
    [0 < maxCount <= 20] and [0] for [maxCount = 0]. *)
Theorem ys_spec (days : list Sample) (cfg : ChartConfig) (maxCount : Z) :
  days <> [] ->
  nonneg_counts days ->
  is_max maxCount (counts days) ->
  exists ys_,
    ys days cfg = Ok ys_ /\
    Forall2 (fun d y => spec_y cfg maxCount (count d) y) days ys_.
Proof.
  intros Hne Hnn Hmax.
  rewrite (is_max_unique _ _ _ Hmax (max_c_is_max days Hne)).
  pose proof (max_c_nonneg days Hne Hnn) as Hm.
  unfold ys, counts.
  destruct (mapM_Forall2 (y_for_count cfg (max_c days))
              (fun c y => spec_y cfg (max_c days) c y) (map count days))
    as [ys_ [E HF]].
  - apply Forall_map. revert Hnn. apply Forall_impl. intros d Hd.
    destruct (norm_for_count_spec (max_c days) (count d) Hm Hd) as [norm [En Hs]].
    unfold y_for_count. rewrite En. simpl. eexists. split; [reflexivity|].
    exists norm. split; [assumption|]. unfold inner_h.
    rewrite (Z.mul_comm 2). reflexivity.
  - exists ys_. split; [assumption | now apply Forall2_map_left].
Qed.

Lemma ys_spec_witness :
  exists ys_,
    ys linear_days default_config = Ok ys_ /\
    Forall2 (fun d y => spec_y default_config 20 (count d) y) linear_days ys_.
Proof.
  apply (ys_spec linear_days default_config 20).
  - discriminate.
  - repeat constructor; simpl; lia.
  - split; [simpl; tauto | repeat constructor; simpl; lia].
Defined.

(** C6: in a series whose maximum count exceeds 20, the normalised value
    of the maximum count is exactly 1 and that of count 0 is exactly 0. *)
Theorem norm_log_endpoints (days : list Sample) (maxCount : Z) :
  is_max maxCount (counts days) ->
  (20 < maxCount)%Z ->
  norm_for_count (max_c days) maxCount = Ok 1 /\
  norm_for_count (max_c days) 0 = Ok 0.
Proof.
  intros Hmax Hm.
  assert (Hne : days <> []) by (destruct Hmax as [Hin _]; now destruct days).
  rewrite <- (is_max_unique _ _ _ Hmax (max_c_is_max days Hne)).
  pose proof (ln_1p_pos maxCount ltac:(lia)) as Hpos.
  split; rewrite norm_for_count_log by lia; f_equal.
  - field. lra.
  - rewrite Rplus_0_r, ln_1. field. lra.
Qed.

Lemma norm_log_endpoints_witness :
  norm_for_count (max_c spike_days) 100 = Ok 1 /\
  norm_for_count (max_c spike_days) 0 = Ok 0.
Proof.
  apply (norm_log_endpoints spike_days 100).
  - split; [simpl; tauto | repeat constructor; simpl; lia].
  - lia.
Defined.

(** C7: in a series whose maximum count lies in 1..20 the normalised value
    of a count [c] is [c / maxCount], and it is strictly monotonic in [c]. *)
Theorem norm_linear_monotonic (days : list Sample) (maxCount c1 c2 : Z) :
  is_max maxCount (counts days) ->
  (0 < maxCount <= 20)%Z ->
  (0 <= c1)%Z -> (c1 < c2)%Z -> (c2 <= maxCount)%Z ->
  exists norm1 norm2,
    norm_for_count (max_c days) c1 = Ok norm1 /\
    norm_for_count (max_c days) c2 = Ok norm2 /\
    norm1 = IZR c1 / IZR maxCount /\
    norm2 = IZR c2 / IZR maxCount /\
    norm1 < norm2.
Proof.
  intros Hmax Hm Hc1 Hlt Hc2.
  assert (Hne : days <> []) by (destruct Hmax as [Hin _]; now destruct days).
  rewrite <- (is_max_unique _ _ _ Hmax (max_c_is_max days Hne)).
  exists (IZR c1 / IZR maxCount), (IZR c2 / IZR maxCount).
  rewrite !norm_for_count_linear by lia.
  repeat split.
  assert (0 < IZR maxCount) by (apply IZR_lt; lia).
  apply Rmult_lt_compat_r; [now apply Rinv_0_lt_compat | now apply IZR_lt].
Qed.

Lemma norm_linear_monotonic_witness :
  exists norm1 norm2,
    norm_for_count (max_c linear_days) 5 = Ok norm1 /\
    norm_for_count (max_c linear_days) 10 = Ok norm2 /\
    norm1 = 5 / 20 /\ norm2 = 10 / 20 /\ norm1 < norm2.
Proof.
  apply (norm_linear_monotonic linear_days 20 5 10).
  - split; [simpl; tauto | repeat constructor; simpl; lia].
  - lia.
  - lia.
  - lia.
  - lia.
Defined.

(** ** Horizontal layout over the reals *)

Lemma nth_error_map_range {A} (g : nat -> A) (n i : nat) :
  (i < n)%nat -> nth_error (map g (range n)) i = Some (g i).
Proof.
  intros Hi. unfold range. rewrite nth_error_map, nth_error_seq.
  apply Nat.ltb_lt in Hi. rewrite Hi. reflexivity.
Qed.

Lemma nth_error_map_range_inv {A} (g : nat -> A) (n i : nat) (a : A) :
  nth_error (map g (range n)) i = Some a -> (i < n)%nat /\ a = g i.
Proof.
  intros E. assert (Hi : (i < n)%nat).
  { assert (Hs : nth_error (map g (range n)) i <> None) by congruence.
    apply nth_error_Some in Hs. unfold range in Hs.
    now rewrite length_map, length_seq in Hs. }
  split; [assumption|]. rewrite nth_error_map_range in E by assumption.
  congruence.
Qed.

Lemma xs_closed_form (days : list Sample) (cfg : ChartConfig) :
  (1 < List.length days)%nat ->
  xs days cfg = Ok (map (spec_x cfg (List.length days)) (range (List.length days))).
Proof.
  intros Hn. unfold xs. apply mapM_Ok_map. intros i _.
  unfold int_truediv.
  replace (Z.of_nat (List.length days) - 1 =? 0)%Z with false
    by (symmetry; apply Z.eqb_neq; lia).
  simpl. unfold spec_x, inner_w.
  rewrite minus_IZR, <- !INR_IZR_INZ, (Z.mul_comm 2). reflexivity.
Qed.

Lemma spec_x_first (cfg : ChartConfig) (n : nat) :
  (1 < n)%nat -> spec_x cfg n 0 = IZR (padding cfg).
Proof.
  intros Hn. unfold spec_x. simpl.
  assert (1 < INR n) by (apply (lt_INR 1); assumption).
  field. lra.
Qed.

Lemma spec_x_last (cfg : ChartConfig) (n : nat) :
  (1 < n)%nat -> spec_x cfg n (n - 1) = IZR (width cfg - padding cfg).
Proof.
  intros Hn. unfold spec_x.
  assert (1 < INR n) by (apply (lt_INR 1); assumption).
  rewrite minus_INR by lia. change (INR 1) with 1.
  rewrite !minus_IZR, mult_IZR. field. lra.
Qed.

Lemma spec_x_increasing (cfg : ChartConfig) (n i j : nat) :
  (1 < n)%nat -> (2 * padding cfg < width cfg)%Z -> (i < j)%nat ->
  spec_x cfg n i < spec_x cfg n j.
Proof.
  intros Hn Hw Hij. unfold spec_x.
  assert (1 < INR n) by (apply (lt_INR 1); assumption).
  assert (0 < IZR (width cfg - 2 * padding cfg)) by (apply IZR_lt; lia).
  apply lt_INR in Hij.
  apply Rplus_lt_compat_l, Rmult_lt_compat_r; [assumption|].
  apply Rmult_lt_compat_r; [apply Rinv_0_lt_compat; lra | assumption].
Qed.

(** C4, as the code has it: for a series of [n > 1] samples the x position
    of sample [i] is [padding + (i / (n - 1)) * innerWidth]; the first is
    [padding] and the last is [width - padding]; the positions are strictly
    increasing in the sample index when [width > 2 * padding]. *)
Theorem xs_spec (days : list Sample) (cfg : ChartConfig) :
  (1 < List.length days)%nat ->
  exists xs_,
    xs days cfg = Ok xs_ /\
    List.length xs_ = List.length days /\
    (forall i, (i < List.length days)%nat ->
       nth_error xs_ i = Some (spec_x cfg (List.length days) i)) /\
    nth_error xs_ 0 = Some (IZR (padding cfg)) /\
    nth_error xs_ (List.length days - 1) = Some (IZR (width cfg - padding cfg)) /\
    ((2 * padding cfg < width cfg)%Z -> strictly_increasing xs_).
Proof.
  intros Hn. eexists. split; [now apply xs_closed_form|].
  split; [unfold range; now rewrite length_map, length_seq|].
  split; [intros i Hi; now apply nth_error_map_range|].
  split; [rewrite nth_error_map_range by lia; f_equal; now apply spec_x_first|].
  split; [rewrite nth_error_map_range by lia; f_equal; now apply spec_x_last|].
  intros Hw i j a b Hij Ea Eb.
  apply nth_error_map_range_inv in Ea, Eb.
  destruct Ea as [_ ->], Eb as [_ ->]. now apply spec_x_increasing.
Qed.

Lemma xs_spec_witness :
  exists xs_,
    xs linear_days default_config = Ok xs_ /\
    List.length xs_ = 3%nat /\
    (forall i, (i < 3)%nat -> nth_error xs_ i = Some (spec_x default_config 3 i)) /\
    nth_error xs_ 0 = Some 52 /\
    nth_error xs_ 2 = Some 1148 /\
    ((2 * 52 < 1200)%Z -> strictly_increasing xs_).
Proof.
  apply (xs_spec linear_days default_config). simpl. lia.
Defined.

(** C4 as stated fails: with [width = 2 * padding] every sample gets the
    same x position. *)
Lemma xs_not_increasing :
  xs two_days narrow_config = Ok [50; 50] /\ ~ strictly_increasing [50; 50].
Proof.
  split.
  - unfold xs. simpl. change (inner_w narrow_config) with 0%Z.
    do 2 f_equal; [lra | f_equal; lra].
  - intros Hinc.
    specialize (Hinc 0%nat 1%nat _ _ (Nat.lt_0_1) eq_refl eq_refl). lra.
Qed.

(** ** The vertical extent *)

Lemma ln_1p_le (c m : Z) :
  (0 <= c <= m)%Z -> 0 <= ln (1 + IZR c) <= ln (1 + IZR m).
Proof.
  intros [Hc Hm]. apply IZR_le in Hc as Hc'. apply IZR_le in Hm as Hm'.
  split.
  - destruct (Z.eq_dec c 0) as [->|Hc0].
    + rewrite Rplus_0_r, ln_1. lra.
    + left. apply ln_1p_pos. lia.
  - destruct (Z.eq_dec c m) as [->|Hcm]; [lra|].
    left. apply ln_increasing; [lra|].
    assert (IZR c < IZR m) by (apply IZR_lt; lia). lra.
Qed.

(** The normalised value of a count between 0 and the maximum lies in [0, 1]. *)
Lemma norm_for_count_unit (m c : Z) :
  (0 <= c <= m)%Z ->
  exists norm, norm_for_count m c = Ok norm /\ 0 <= norm <= 1.
Proof.
  intros Hc.
  destruct (Z_lt_le_dec 20 m) as [Hlog|Hlin].
  - eexists. split; [apply norm_for_count_log; lia|].
    pose proof (ln_1p_pos m ltac:(lia)) as Hpos.
    pose proof (ln_1p_le c m Hc) as [H0 H1].
    split.
    + apply Rmult_le_pos; [assumption | left; now apply Rinv_0_lt_compat].
    + apply (Rmult_le_reg_r (ln (1 + IZR m))); [assumption|].
      unfold Rdiv. rewrite Rmult_assoc, Rinv_l by lra. lra.
  - destruct (Z.eq_dec m 0) as [->|Hm0].
    + eexists. split; [apply norm_for_count_zero | lra].
    + eexists. split; [now apply norm_for_count_linear|].
      assert (0 < IZR m) by (apply IZR_lt; lia).
      destruct Hc as [Hc Hm]. apply IZR_le in Hc, Hm.
      split.
      * apply Rmult_le_pos; [assumption | left; now apply Rinv_0_lt_compat].
      * apply (Rmult_le_reg_r (IZR m)); [assumption|].
        unfold Rdiv. rewrite Rmult_assoc, Rinv_l by lra. lra.
Qed.

(** C10, as the code has it: for a series of counts that are not negative
    and is not empty, every normalised value lies in [0, 1], and every
    vertical position lies between [padding] and [height - padding] when
    [height >= 2 * padding]. *)
Theorem ys_within_rectangle (days : list Sample) (cfg : ChartConfig) :
  days <> [] ->
  nonneg_counts days ->
  exists ys_,
    ys days cfg = Ok ys_ /\
    Forall2 (fun d y =>
               exists norm,
                 norm_for_count (max_c days) (count d) = Ok norm /\
                 0 <= norm <= 1 /\
                 y = IZR (padding cfg) + (1 - norm) * IZR (inner_h cfg) /\
                 ((2 * padding cfg <= height cfg)%Z ->
                  IZR (padding cfg) <= y <= IZR (height cfg - padding cfg)))
            days ys_.
Proof.
  intros Hne Hnn. unfold ys, counts.
  destruct (max_c_is_max days Hne) as [_ Hle].
  unfold counts in Hle. rewrite Forall_map in Hle.
  match goal with |- exists ys_, _ /\ Forall2 ?Q _ _ =>
    destruct (mapM_Forall2 (y_for_count cfg (max_c days))
                (fun c y => Q {| date := ""; count := c |} y) (map count days))
      as [ys_ [E HF]]
  end.
  - apply Forall_map. unfold nonneg_counts in Hnn.
    rewrite Forall_forall in Hnn, Hle |- *. intros d Hd.
    destruct (norm_for_count_unit (max_c days) (count d)) as [norm [En Hu]];
      [split; [now apply Hnn | now apply Hle]|].
    unfold y_for_count. rewrite En. cbn [bind].
    exists (IZR (padding cfg) + (1 - norm) * IZR (inner_h cfg)).
    split; [reflexivity|].
    exists norm. split; [assumption|]. split; [assumption|].
    split; [reflexivity|]. intros Hh.
    assert (0 <= IZR (inner_h cfg)) by (apply IZR_le; unfold inner_h; lia).
    split; [nra|].
    replace (IZR (height cfg - padding cfg))
      with (IZR (padding cfg) + IZR (inner_h cfg))
      by (unfold inner_h; rewrite !minus_IZR, mult_IZR; lra).
    nra.
  - exists ys_. split; [assumption|].
    apply Forall2_map_left in HF. simpl in HF. exact HF.
Qed.

Lemma ys_within_rectangle_witness :
  exists ys_,
    ys spike_days default_config = Ok ys_ /\
    Forall2 (fun d y =>
               exists norm,
                 norm_for_count (max_c spike_days) (count d) = Ok norm /\
                 0 <= norm <= 1 /\
                 y = 52 + (1 - norm) * IZR (inner_h default_config) /\
                 ((2 * 52 <= 360)%Z -> 52 <= y <= IZR (360 - 52)))
            spike_days ys_.
Proof.
  apply (ys_within_rectangle spike_days default_config).
  - discriminate.
  - repeat constructor; simpl; lia.
Defined.

(** C10 as stated fails: with [height < 2 * padding] a count of 0 is drawn
    above the line at [padding]. *)
Lemma ys_outside_rectangle :
  ys two_days short_config = Ok [48; 52] /\
  ~ IZR (padding short_config) <= 48 <= IZR (height short_config - padding short_config).
Proof.
  split.
  - unfold ys, y_for_count. simpl.
    change (inner_h short_config) with (-4)%Z.
    change (max_c two_days) with 5%Z.
    do 2 f_equal; [lra | f_equal; lra].
  - simpl. lra.
Qed.

(** ** Degenerate series *)

Section Degenerate.

Context {F : Type} `{PyFloat F}.

(** C2: on every series of one sample, whatever the sample and the
    configuration, the list of x positions is not computed: the division
    by [n - 1] raises [ZeroDivisionError], and so does [build_svg]. *)
Theorem build_svg_single_raises {lc : Locale} (d : Sample) (cfg : ChartConfig) :
  xs [d] cfg = Raise ZeroDivisionError /\
  build_svg [d] cfg = Raise ZeroDivisionError.
Proof.
  assert (Hxs : xs [d] cfg = Raise ZeroDivisionError).
  { unfold xs, range. simpl. unfold int_truediv.
    replace (Z.of_nat 1 - 1 =? 0)%Z with true by reflexivity.
    reflexivity. }
  split; [exact Hxs|].
  unfold build_svg. rewrite Hxs. reflexivity.
Qed.

Example single_day_raises :
  build_svg single_day default_config = Raise ZeroDivisionError.
Proof. reflexivity. Qed.

Lemma markup_free_app (s t : string) :
  markup_free (s ++ t) = markup_free s && markup_free t.
Proof.
  induction s as [|c s IH]; simpl; [reflexivity|].
  now rewrite IH, andb_assoc.
Qed.

Lemma markup_free_uint (d : Decimal.uint) :
  markup_free (NilEmpty.string_of_uint d) = true.
Proof. induction d; simpl; auto. Qed.

Lemma markup_free_str_int (z : Z) : markup_free (str_int z) = true.
Proof.
  unfold str_int, NilZero.string_of_int, NilZero.string_of_uint.
  destruct (Z.to_int z) as [d|d]; destruct d; simpl;
    auto using markup_free_uint.
Qed.

(** Text without a tag opener in front of a document adds no element. *)
Lemma elements_skip (s t : string) :
  markup_free s = true -> elements (s ++ t) = elements t.
Proof.
  induction s as [|c s IH]; simpl; [reflexivity|].
  destruct (Ascii.eqb c "<"); simpl; [discriminate | exact IH].
Qed.


End Degenerate.


(** ** Month labels *)

Lemma is_anchor_spec (d : pydate) : is_anchor d = true <-> quarter_start d.
Proof.
  unfold is_anchor, quarter_start.
  rewrite andb_true_iff, !orb_true_iff, !Z.eqb_eq. tauto.
Qed.

(** On samples whose dates parse, the loop returns the selection. *)
Lemma month_labels_from_parsed {lc : Locale} (days : list Sample) (dates : list pydate) (i : nat) :
  parsed_dates days dates ->
  month_labels_from i days = Ok (anchors_from i dates).
Proof.
  intros HP. revert i. induction HP as [|d dt days dates E _ IH]; intros i; simpl.
  - reflexivity.
  - rewrite E. simpl. rewrite IH. simpl. now destruct (is_anchor dt).
Qed.

Lemma anchors_from_In {lc : Locale} (dates : list pydate) (i k : nat) (name : string) :
  In (k, name) (anchors_from i dates) <->
  exists dt,
    (i <= k)%nat /\ nth_error dates (k - i) = Some dt /\
    quarter_start dt /\ name = strftime_b dt.
Proof.
  revert i. induction dates as [|dt dates IH]; intros i; simpl.
  - split; [tauto|]. intros [d [_ [E _]]]. now destruct (k - i)%nat.
  - assert (Hrest :
      In (k, name) (anchors_from (S i) dates) <->
      exists d, (i < k)%nat /\ nth_error (dt :: dates) (k - i) = Some d /\
                quarter_start d /\ name = strftime_b d).
    { rewrite IH. split; intros [d [Hk [E Hd]]]; exists d.
      - replace (k - i)%nat with (S (k - S i)) by lia. simpl. tauto.
      - replace (k - i)%nat with (S (k - S i)) in E by lia. simpl in E. tauto. }
    destruct (is_anchor dt) eqn:Ha.
    + simpl. rewrite Hrest. split.
      * intros [E|[d [Hk Hd]]].
        -- injection E as <- <-. exists dt. rewrite Nat.sub_diag. simpl.
           apply is_anchor_spec in Ha. auto.
        -- exists d. split; [lia | exact Hd].
      * intros [d [Hk [E [Hq Hn]]]].
        destruct (Nat.eq_dec i k) as [<-|Hne].
        -- left. rewrite Nat.sub_diag in E. simpl in E. congruence.
        -- right. exists d. split; [lia | auto].
    + rewrite Hrest. split.
      * intros [d [Hk Hd]]. exists d. split; [lia | exact Hd].
      * intros [d [Hk [E [Hq Hn]]]].
        destruct (Nat.eq_dec i k) as [<-|Hne].
        -- rewrite Nat.sub_diag in E. simpl in E. injection E as <-.
           apply is_anchor_spec in Hq. congruence.
        -- exists d. split; [lia | auto].
Qed.

Lemma anchors_from_lower {lc : Locale} (dates : list pydate) (i : nat) :
  Forall (fun k => (i <= k)%nat) (map fst (anchors_from i dates)).
Proof.
  revert i. induction dates as [|dt dates IH]; intros i; simpl; [constructor|].
  assert (Hrest : Forall (fun k => (i <= k)%nat) (map fst (anchors_from (S i) dates))).
  { eapply Forall_impl; [|apply IH]. simpl. intros; lia. }
  destruct (is_anchor dt); simpl; [constructor; [lia | assumption] | assumption].
Qed.

Lemma anchors_from_sorted {lc : Locale} (dates : list pydate) (i : nat) :
  StronglySorted lt (map fst (anchors_from i dates)).
Proof.
  revert i. induction dates as [|dt dates IH]; intros i; simpl; [constructor|].
  destruct (is_anchor dt); simpl; [|apply IH].
  constructor; [apply IH|].
  eapply Forall_impl; [|apply anchors_from_lower]. simpl. intros; lia.
Qed.

(** A whole year has its four quarter starts, whatever the year. *)
Lemma anchors_of_year (y : Z) :
  anchors_from 0 (dates_of_year y) =
  if is_leap y
  then [(0, "Jan"); (91, "Apr"); (182, "Jul"); (274, "Oct")]%nat
  else [(0, "Jan"); (90, "Apr"); (181, "Jul"); (273, "Oct")]%nat.
Proof.
  unfold dates_of_year, dates_of_month, days_in_month.
  destruct (is_leap y); vm_compute; reflexivity.
Qed.

(** The indexes of the selection do not depend on the locale. *)
Lemma anchors_from_indexes (lc1 lc2 : Locale) (dates : list pydate) (i : nat) :
  map fst (anchors_from (lc := lc1) i dates)
  = map fst (anchors_from (lc := lc2) i dates).
Proof.
  revert i. induction dates as [|dt dates IH]; intros i; simpl; [reflexivity|].
  destruct (is_anchor dt); simpl; now rewrite IH.
Qed.

Lemma quarter_name_C (dt : pydate) (name : string) :
  quarter_start dt /\ name = abmon (Locale := c_locale) (month dt) <->
  day dt = 1%Z /\ quarter_name (month dt) name.
Proof.
  unfold quarter_start, quarter_name. split.
  - intros [[Hd [Hm|[Hm|[Hm|Hm]]]] ->]; rewrite Hm; simpl; tauto.
  - intros [Hd [[Hm ->]|[[Hm ->]|[[Hm ->]|[Hm ->]]]]]; rewrite Hm; simpl; tauto.
Qed.

(** C5: a sample is selected as a month-label anchor exactly when its date
    is the first day of January, April, July or October; the labels are
    pairs of sample index and short month name in sample order, the name
    being the abbreviated month name of the locale, which in the C locale
    is Jan, Apr, Jul or Oct; the days of a whole calendar year give exactly
    four labels. *)
Theorem month_labels_spec {lc : Locale} (days : list Sample)
    (dates : list pydate) :
  parsed_dates days dates ->
  exists labels,
    _month_labels days = Ok labels /\
    (forall i name,
       In (i, name) labels <->
       exists dt, nth_error dates i = Some dt /\
                  quarter_start dt /\ name = abmon (month dt)) /\
    (lc = c_locale ->
     forall i name,
       In (i, name) labels <->
       exists dt, nth_error dates i = Some dt /\
                  day dt = 1%Z /\ quarter_name (month dt) name) /\
    StronglySorted lt (map fst labels) /\
    (forall y, dates = dates_of_year y -> List.length labels = 4%nat).
Proof.
  intros HP. exists (anchors_from 0 dates).
  split; [now apply month_labels_from_parsed|].
  assert (Hin : forall i name,
            In (i, name) (anchors_from 0 dates) <->
            exists dt, nth_error dates i = Some dt /\
                       quarter_start dt /\ name = abmon (month dt)).
  { intros i name. rewrite anchors_from_In, Nat.sub_0_r.
    split; intros [dt Hdt]; exists dt; [tauto|].
    split; [lia | tauto]. }
  split; [exact Hin|]. split; [|split].
  - intros -> i name. rewrite Hin.
    split; intros [dt [E Hdt]]; exists dt; (split; [exact E|]);
      now apply quarter_name_C.
  - apply anchors_from_sorted.
  - intros y ->. rewrite <- (length_map fst).
    rewrite (anchors_from_indexes lc c_locale), anchors_of_year.
    now destruct (is_leap y).
Qed.

(** *** Reading back a written date *)

Lemma digit_of_digit_char (z : Z) :
  (0 <= z <= 9)%Z -> digit_of (digit_char z) = Some z.
Proof.
  intros Hz.
  assert (Hcases : z = 0%Z \/ z = 1%Z \/ z = 2%Z \/ z = 3%Z \/ z = 4%Z \/
                   z = 5%Z \/ z = 6%Z \/ z = 7%Z \/ z = 8%Z \/ z = 9%Z) by lia.
  repeat (destruct Hcases as [->|Hcases]; [reflexivity|]).
  subst. reflexivity.
Qed.

Lemma digit_of_mod (z : Z) : digit_of (digit_char (z mod 10)) = Some (z mod 10)%Z.
Proof. apply digit_of_digit_char. pose proof (Z.mod_pos_bound z 10). lia. Qed.

Lemma decimal_4 (y : Z) :
  (0 <= y <= 9999)%Z ->
  (1000 * ((y / 1000) mod 10) + 100 * ((y / 100) mod 10)
   + 10 * ((y / 10) mod 10) + y mod 10 = y)%Z.
Proof. intros Hy. Z.div_mod_to_equations. lia. Qed.

Lemma decimal_2 (m : Z) :
  (0 <= m <= 99)%Z -> (10 * ((m / 10) mod 10) + m mod 10 = m)%Z.
Proof. intros Hm. Z.div_mod_to_equations. lia. Qed.

Lemma valid_date_bounds (d : pydate) :
  valid_date d = true ->
  (1 <= year d <= 9999 /\ 1 <= month d <= 12 /\ 1 <= day d <= 31)%Z.
Proof.
  unfold valid_date, days_in_month. rewrite !andb_true_iff, !Z.leb_le.
  intros [[[[[? ?] ?] ?] ?] Hd].
  destruct (month d =? 2)%Z; [destruct (is_leap (year d))|];
    [| |destruct (_ || _)]; lia.
Qed.

Lemma digit_char_not_W (z : Z) :
  Ascii.eqb (digit_char (z mod 10)) "W" = false.
Proof.
  pose proof (Z.mod_pos_bound z 10 ltac:(lia)) as Hz.
  assert (Hcases : (z mod 10 = 0 \/ z mod 10 = 1 \/ z mod 10 = 2 \/
                    z mod 10 = 3 \/ z mod 10 = 4 \/ z mod 10 = 5 \/
                    z mod 10 = 6 \/ z mod 10 = 7 \/ z mod 10 = 8 \/
                    z mod 10 = 9)%Z) by lia.
  repeat (destruct Hcases as [->|Hcases]; [reflexivity|]).
  rewrite Hcases. reflexivity.
Qed.

(** A valid date written as [YYYY-MM-DD] is read back as itself. *)
Lemma fromisoformat_isoformat (d : pydate) :
  valid_date d = true -> fromisoformat (isoformat d) = Ok d.
Proof.
  intros Hv. pose proof (valid_date_bounds d Hv) as [Hy [Hm Hd]].
  unfold fromisoformat, isoformat. cbv zeta.
  cbn [String.length Nat.eqb orb].
  unfold parse_isoformat_date.
  do 4 (cbn [parse_digits starts_with skip_one andb negb];
        rewrite ?digit_of_mod, ?digit_char_not_W;
        change (Ascii.eqb "-" "-") with true; cbv iota).
  assert (Ed : {| year := 10 * (10 * (10 * (10 * 0 + (year d / 1000) mod 10)
                                      + (year d / 100) mod 10)
                                + (year d / 10) mod 10) + year d mod 10;
                  month := 10 * (10 * 0 + (month d / 10) mod 10) + month d mod 10;
                  day := 10 * (10 * 0 + (day d / 10) mod 10) + day d mod 10 |}%Z
               = d).
  { destruct d as [y m dd]. cbn [year month day] in *.
    f_equal; Z.div_mod_to_equations; lia. }
  cbn [negb]. cbv iota. rewrite Ed, Hv. reflexivity.
Qed.

(** The forms of a date that [fromisoformat] reads, and some that it
    does not. *)
Example fromisoformat_forms :
  map fromisoformat
    [ "2024-04-01"; "20240401"; "2024-W14-1"; "2024W141"; "2024-W14";
      "2024W14"; "20240401xx" ]
  = repeat (Ok {| year := 2024; month := 4; day := 1 |}) 7 /\
  map fromisoformat [ "2020-W53-1"; "2026-W53-7"; "9999-W52-5"; "0001-W01-1" ]
  = [ Ok {| year := 2020; month := 12; day := 28 |};
      Ok {| year := 2027; month := 1; day := 3 |};
      Ok {| year := 9999; month := 12; day := 31 |};
      Ok {| year := 1; month := 1; day := 1 |} ] /\
  map fromisoformat
    [ "2024-W53-1"; "9999-W52-6"; "0000-W01-1"; "2024-04-1"; "2024/04/01";
      "2024-02-30"; "2023-02-29"; "2024W01-1x"; "2024-0401x"; "2024-W01-8";
      "" ]
  = repeat (Raise ValueError) 11.
Proof. repeat split. Qed.

(** Dates in the compact form and as week dates get their labels too. *)
Example month_labels_other_forms :
  _month_labels [ mk_sample "20240401" 0; mk_sample "2024-W27-1" 2 ]
  = Ok [ (0%nat, "Apr"); (1%nat, "Jul") ].
Proof. reflexivity. Qed.

Lemma dates_of_year_valid (y : Z) :
  (1 <= y <= 9999)%Z -> Forall (fun d => valid_date d = true) (dates_of_year y).
Proof.
  intros Hy. apply Forall_forall. intros d Hd.
  unfold dates_of_year in Hd. apply in_flat_map in Hd. destruct Hd as [m [Hm Hd]].
  unfold dates_of_month in Hd. apply in_map_iff in Hd. destruct Hd as [k [<- Hk]].
  apply in_seq in Hm, Hk.
  unfold valid_date. simpl. rewrite !andb_true_iff, !Z.leb_le.
  assert (0 < days_in_month y (Z.of_nat m))%Z
    by (unfold days_in_month;
        destruct (_ =? 2)%Z; [destruct (is_leap y)|destruct (_ || _)]; lia).
  lia.
Qed.

(** The series of a whole year carries the days of that year. *)
Lemma year_days_parsed (y c : Z) :
  (1 <= y <= 9999)%Z -> parsed_dates (year_days y c) (dates_of_year y).
Proof.
  intros Hy. unfold parsed_dates, year_days.
  pose proof (dates_of_year_valid y Hy) as Hv.
  induction Hv as [|d l Hd _ IH]; simpl; constructor; [|exact IH].
  simpl. now apply fromisoformat_isoformat.
Qed.

Lemma month_labels_spec_witness :
  exists labels,
    _month_labels (year_days 2024 0) = Ok labels /\
    (forall i name,
       In (i, name) labels <->
       exists dt, nth_error (dates_of_year 2024) i = Some dt /\
                  quarter_start dt /\ name = abmon (month dt)) /\
    (c_locale = c_locale ->
     forall i name,
       In (i, name) labels <->
       exists dt, nth_error (dates_of_year 2024) i = Some dt /\
                  day dt = 1%Z /\ quarter_name (month dt) name) /\
    StronglySorted lt (map fst labels) /\
    (forall y, dates_of_year 2024 = dates_of_year y -> List.length labels = 4%nat).
Proof.
  apply (month_labels_spec (lc := c_locale) (year_days 2024 0)
           (dates_of_year 2024)).
  apply year_days_parsed. lia.
Defined.

(** ** The document as a whole *)

Lemma append_assoc (s t u : string) : ((s ++ t) ++ u = s ++ (t ++ u))%string.
Proof. induction s as [|c s IH]; simpl; [reflexivity | now rewrite IH]. Qed.

Lemma prefix_append (s t : string) : prefix s (s ++ t) = true.
Proof.
  induction s as [|c s IH]; simpl; [now destruct t|].
  destruct (ascii_dec c c); [exact IH | congruence].
Qed.

Lemma contains_unfold (sub s : string) :
  contains sub s =
  prefix sub s || match s with
                  | EmptyString => false
                  | String _ s' => contains sub s'
                  end.
Proof. destruct s; reflexivity. Qed.

Lemma contains_append (pre sub post : string) :
  contains sub (pre ++ (sub ++ post)) = true.
Proof.
  induction pre as [|c pre IH].
  - rewrite contains_unfold. simpl append. now rewrite prefix_append.
  - rewrite contains_unfold. simpl. rewrite IH. apply orb_true_r.
Qed.

Lemma prefix_true (sub s : string) :
  prefix sub s = true -> exists post, s = (sub ++ post)%string.
Proof.
  revert sub. induction s as [|c s IH]; intros [|a sub]; simpl.
  - exists EmptyString. reflexivity.
  - discriminate.
  - exists (String c s). reflexivity.
  - destruct (ascii_dec a c) as [->|]; [|discriminate].
    intros Hp. destruct (IH sub Hp) as [post ->]. now exists post.
Qed.

Lemma contains_true (sub s : string) :
  contains sub s = true -> exists pre post, s = (pre ++ (sub ++ post))%string.
Proof.
  induction s as [|c s IH]; rewrite contains_unfold; intros Hc;
    apply orb_true_iff in Hc; destruct Hc as [Hp|Hc]; try discriminate.
  - destruct (prefix_true _ _ Hp) as [post E]. now exists EmptyString, post.
  - destruct (prefix_true _ _ Hp) as [post E]. now exists EmptyString, post.
  - destruct (IH Hc) as [pre [post ->]]. now exists (String c pre), post.
Qed.

Lemma contains_append_l (sub s t : string) :
  contains sub s = true -> contains sub (s ++ t) = true.
Proof.
  intros Hc. destruct (contains_true _ _ Hc) as [pre [post ->]].
  rewrite !append_assoc. apply contains_append.
Qed.

Lemma contains_between (pre sub post s : string) :
  s = (pre ++ (sub ++ post))%string -> contains sub s = true.
Proof. intros ->. apply contains_append. Qed.

Ltac same_text :=
  rewrite ?append_assoc; cbn -[str_int]; rewrite ?append_assoc; reflexivity.

Lemma svg_open_declarations (cfg : ChartConfig) :
  contains (width_decl cfg) (svg_open cfg) = true /\
  contains (height_decl cfg) (svg_open cfg) = true /\
  contains (viewBox_decl cfg) (svg_open cfg) = true /\
  contains aria_label_decl (svg_open cfg) = true.
Proof.
  unfold svg_open, width_decl, height_decl, viewBox_decl, aria_label_decl.
  repeat split.
  - apply (contains_between
             (dq "<svg xmlns='http://www.w3.org/2000/svg'")
             _
             (dq " height='" ++ str_int (height cfg) ++ dq "' viewBox='0 0 "
              ++ str_int (width cfg) ++ " " ++ str_int (height cfg)
              ++ dq "' role='img' aria-label='GitHub contributions line chart'>")).
    same_text.
  - apply (contains_between
             (dq "<svg xmlns='http://www.w3.org/2000/svg' width='"
              ++ str_int (width cfg) ++ dq "'")
             _
             (dq " viewBox='0 0 "
              ++ str_int (width cfg) ++ " " ++ str_int (height cfg)
              ++ dq "' role='img' aria-label='GitHub contributions line chart'>")).
    same_text.
  - apply (contains_between
             (dq "<svg xmlns='http://www.w3.org/2000/svg' width='"
              ++ str_int (width cfg) ++ dq "' height='"
              ++ str_int (height cfg) ++ dq "'")
             _
             (dq " role='img' aria-label='GitHub contributions line chart'>")).
    same_text.
  - apply (contains_between
             (dq "<svg xmlns='http://www.w3.org/2000/svg' width='"
              ++ str_int (width cfg) ++ dq "' height='"
              ++ str_int (height cfg) ++ dq "' viewBox='0 0 "
              ++ str_int (width cfg) ++ " " ++ str_int (height cfg)
              ++ dq "' role='img'")
             _
             ">").
    same_text.
Qed.

Lemma empty_svg_declarations (cfg : ChartConfig) :
  contains (width_decl cfg) (empty_svg cfg) = true /\
  contains (height_decl cfg) (empty_svg cfg) = true.
Proof.
  unfold empty_svg, width_decl, height_decl. split.
  - apply (contains_between
             (dq "<svg xmlns='http://www.w3.org/2000/svg'")
             _
             (dq " height='" ++ str_int (height cfg)
              ++ dq "'><rect width='100%' height='100%' fill='" ++ bg cfg
              ++ dq "'/></svg>")).
    same_text.
  - apply (contains_between
             (dq "<svg xmlns='http://www.w3.org/2000/svg' width='"
              ++ str_int (width cfg) ++ dq "'")
             _
             (dq "><rect width='100%' height='100%' fill='" ++ bg cfg
              ++ dq "'/></svg>")).
    same_text.
Qed.

(** *** The builder returns a document *)

Lemma grid_Ok (cfg : ChartConfig) :
  exists grid_ : list string, grid (F := R) cfg = Ok grid_.
Proof. eexists. reflexivity. Qed.

Lemma label_texts_Ok (cfg : ChartConfig) (xs_ : list R) (labels : list (nat * string)) :
  Forall (fun l => (fst l < List.length xs_)%nat) labels ->
  exists texts, mapM (label_text cfg xs_) labels = Ok texts.
Proof.
  induction 1 as [|l labels Hl _ [texts E]]; simpl.
  - now exists [].
  - unfold label_text at 1.
    destruct (nth_error xs_ (fst l)) as [x|] eqn:Ex.
    + simpl. rewrite E. simpl. eauto.
    + apply nth_error_None in Ex. lia.
Qed.

Lemma anchors_from_bound {lc : Locale} (dates : list pydate) :
  Forall (fun l => (fst l < List.length dates)%nat) (anchors_from 0 dates).
Proof.
  apply Forall_forall. intros [k name] Hin. simpl.
  apply anchors_from_In in Hin. destruct Hin as [dt [_ [E _]]].
  rewrite Nat.sub_0_r in E. apply nth_error_Some. congruence.
Qed.

(** On two samples or more, with counts that are not negative and dates
    that parse, the builder returns a document that begins with the opening
    tag of the root element. *)
Lemma build_svg_Ok {lc : Locale} (days : list Sample) (cfg : ChartConfig) (dates : list pydate) :
  (1 < List.length days)%nat ->
  nonneg_counts days ->
  parsed_dates days dates ->
  exists rest,
    build_svg (F := R) days cfg = Ok (svg_open cfg ++ String "010" rest).
Proof.
  intros Hn Hnn HP.
  assert (Hne : days <> []) by (destruct days; [simpl in Hn; lia | discriminate]).
  destruct (ys_Ok days cfg Hne Hnn) as [ys_ Eys].
  destruct (grid_Ok cfg) as [grid_ Egrid].
  destruct (label_texts_Ok cfg
              (map (spec_x cfg (List.length days)) (range (List.length days)))
              (anchors_from 0 dates)) as [texts Etexts].
  { unfold range. rewrite length_map, length_seq.
    rewrite (Forall2_length HP). apply anchors_from_bound. }
  unfold build_svg. destruct days as [|d days']; [congruence|].
  rewrite xs_closed_form by assumption. cbn [bind].
  rewrite Eys. cbn [bind].
  unfold _month_labels. rewrite (month_labels_from_parsed _ _ _ HP). cbn [bind].
  rewrite Egrid. cbn [bind]. rewrite Etexts. cbn [bind].
  eexists. unfold svg_head. cbn [app join_nl]. reflexivity.
Qed.

(** C8, as the code has it: the document built for a series declares the
    width and the height of the configuration; for a series that is not
    empty it also declares the view box of the configuration and a label
    that describes the chart. *)
Theorem build_svg_declarations {lc : Locale}
    (days : list Sample) (cfg : ChartConfig) (dates : list pydate) :
  List.length days <> 1%nat ->
  nonneg_counts days ->
  parsed_dates days dates ->
  exists doc,
    build_svg (F := R) days cfg = Ok doc /\
    contains (width_decl cfg) doc = true /\
    contains (height_decl cfg) doc = true /\
    (days <> [] ->
     contains (viewBox_decl cfg) doc = true /\
     contains aria_label_decl doc = true).
Proof.
  intros Hn Hnn HP. destruct days as [|d days'] eqn:Edays.
  - exists (empty_svg cfg). split; [reflexivity|].
    destruct (empty_svg_declarations cfg) as [Hw Hh].
    repeat split; [assumption | assumption | congruence | congruence].
  - rewrite <- Edays in *.
    destruct (build_svg_Ok days cfg dates) as [rest E];
      [subst days; simpl in *; lia | assumption | assumption |].
    exists (svg_open cfg ++ String "010" rest). split; [exact E|].
    destruct (svg_open_declarations cfg) as [Hw [Hh [Hv Ha]]].
    repeat split; now apply contains_append_l.
Qed.

Lemma build_svg_declarations_witness :
  exists doc,
    build_svg (F := R) linear_days default_config = Ok doc /\
    contains (width_decl default_config) doc = true /\
    contains (height_decl default_config) doc = true /\
    (linear_days <> [] ->
     contains (viewBox_decl default_config) doc = true /\
     contains aria_label_decl doc = true).
Proof.
  apply (build_svg_declarations linear_days default_config
           [ {| year := 2024; month := 1; day := 1 |};
             {| year := 2024; month := 1; day := 2 |};
             {| year := 2024; month := 1; day := 3 |} ]).
  - simpl. lia.
  - repeat constructor; simpl; lia.
  - repeat constructor.
Defined.

(** C8 as stated fails on the empty series: its document has neither a
    view box nor a describing label. *)
Lemma empty_svg_lacks_declarations :
  build_svg (F := R) [] default_config = Ok (empty_svg default_config) /\
  contains (viewBox_decl default_config) (empty_svg default_config) = false /\
  contains aria_label_decl (empty_svg default_config) = false /\
  contains "viewBox" (empty_svg default_config) = false /\
  contains "aria-label" (empty_svg default_config) = false.
Proof. repeat split; vm_compute; reflexivity. Qed.

(** ** The store: what a call reads and what it writes *)

Local Open Scope list_scope.

Lemma nth_error_ext {A} (h ext : list A) (l : nat) (o : A) :
  nth_error h l = Some o -> nth_error (h ++ ext) l = Some o.
Proof.
  intros E. rewrite nth_error_app1; [assumption|].
  apply nth_error_Some. congruence.
Qed.

Lemma list_at_ext (h ext : store) (l : loc) (items : list val) :
  list_at h l = Some items -> list_at (h ++ ext) l = Some items.
Proof.
  unfold list_at. destruct (nth_error h l) as [o|] eqn:E; [|discriminate].
  now rewrite (nth_error_ext _ ext _ _ E).
Qed.

Lemma day_at_ext (h ext : store) (v : val) (d : Sample) :
  day_at h v = Some d -> day_at (h ++ ext) v = Some d.
Proof.
  destruct v as [l| |]; simpl; try discriminate.
  destruct (nth_error h l) as [o|] eqn:E; [|discriminate].
  now rewrite (nth_error_ext _ ext _ _ E).
Qed.

Lemma all_some_day_at_ext (h ext : store) (items : list val) (ds : list Sample) :
  all_some (map (day_at h) items) = Some ds ->
  all_some (map (day_at (h ++ ext)) items) = Some ds.
Proof.
  revert ds. induction items as [|v items IH]; intros ds; simpl; [trivial|].
  destruct (day_at h v) as [d|] eqn:Ed; [|discriminate].
  rewrite (day_at_ext _ ext _ _ Ed).
  destruct (all_some (map (day_at h) items)) as [r|]; [|discriminate].
  now rewrite (IH r eq_refl).
Qed.

(** A series of the store stays what it is when objects are added. *)
Lemma days_at_ext (h ext : store) (l : loc) (ds : list Sample) :
  days_at h l = Some ds -> days_at (h ++ ext) l = Some ds.
Proof.
  unfold days_at. destruct (list_at h l) as [items|] eqn:E; [|discriminate].
  rewrite (list_at_ext _ ext _ _ E). apply all_some_day_at_ext.
Qed.

Lemma list_at_last (h : store) (items : list val) :
  list_at (h ++ [OList items]) (List.length h) = Some items.
Proof.
  unfold list_at. rewrite nth_error_app2, Nat.sub_diag by lia. reflexivity.
Qed.

Lemma set_nth_last (h : store) (o o' : obj) :
  set_nth (h ++ [o]) (List.length h) o' = (h ++ [o'])%list.
Proof. induction h as [|a h IH]; simpl; [reflexivity | now rewrite IH]. Qed.

(** Appending to the list object created last rewrites that object only. *)
Lemma list_append_last (h : store) (items : list val) (v : val) :
  list_append (List.length h) v (h ++ [OList items])
  = (Ok tt, (h ++ [OList (items ++ [v])])%list).
Proof. unfold list_append. now rewrite list_at_last, set_nth_last. Qed.

(** A loop whose body at most appends one value to the list object created
    last: the object grows by the values of the iterations, in order, and
    the rest of the store is left alone. *)
Lemma for_each_append {A} (f : A -> result (option val)) (body : A -> M unit)
    (h : store) (l : list A) :
  (forall a acc,
     In a l ->
     body a (h ++ [OList acc]) =
     match f a with
     | Ok (Some v) => (Ok tt, h ++ [OList (acc ++ [v])])
     | Ok None => (Ok tt, h ++ [OList acc])
     | Raise e => (Raise e, h ++ [OList acc])
     end) ->
  forall acc,
  exists acc',
    for_each l body (h ++ [OList acc])
    = (match mapM f l with
       | Ok _ => Ok tt
       | Raise e => Raise e
       end, h ++ [OList acc']) /\
    (forall vs, mapM f l = Ok vs -> acc' = acc ++ somes vs).
Proof.
  induction l as [|a l IH]; intros Hbody acc; simpl.
  - exists acc. split; [reflexivity|]. intros vs [= <-]. simpl. now rewrite app_nil_r.
  - assert (Hl : forall a0 acc0, In a0 l ->
              body a0 (h ++ [OList acc0]) =
              match f a0 with
              | Ok (Some v) => (Ok tt, h ++ [OList (acc0 ++ [v])])
              | Ok None => (Ok tt, h ++ [OList acc0])
              | Raise e => (Raise e, h ++ [OList acc0])
              end) by (intros; apply Hbody; now right).
    unfold bindM. rewrite Hbody by now left.
    destruct (f a) as [[v|]|e]; simpl.
    + destruct (IH Hl (acc ++ [v])) as [acc' [E Hacc]]. exists acc'.
      rewrite E. destruct (mapM f l) as [vs|e]; simpl; split; try reflexivity.
      * intros ? [= <-]. simpl. rewrite (Hacc vs eq_refl), <- app_assoc. reflexivity.
      * discriminate.
    + destruct (IH Hl acc) as [acc' [E Hacc]]. exists acc'.
      rewrite E. destruct (mapM f l) as [vs|e]; simpl; split; try reflexivity.
      * intros ? [= <-]. simpl. now apply Hacc.
      * discriminate.
    + exists acc. split; [reflexivity | discriminate].
Qed.

(** *** The loop of [_month_labels] *)

Lemma month_step_values {lc : Locale} (h : store) (items : list val) (ds : list Sample) (i : nat) :
  all_some (map (day_at h) items) = Some ds ->
  match month_labels_from i ds with
  | Ok labels =>
      exists vs,
        mapM (month_step h) (combine (seq i (List.length items)) items) = Ok vs /\
        somes vs = map label_val labels
  | Raise e =>
      mapM (month_step h) (combine (seq i (List.length items)) items) = Raise e
  end.
Proof.
  revert ds i. induction items as [|v items IH]; intros ds i; simpl.
  - intros [= <-]. simpl. now exists [].
  - destruct (day_at h v) as [d|] eqn:Ed; [|discriminate].
    destruct (all_some (map (day_at h) items)) as [r|] eqn:Er; [|discriminate].
    intros [= <-]. simpl. unfold month_step at 1 3. simpl. rewrite Ed.
    destruct (fromisoformat (date d)) as [date_obj|e]; simpl; [|reflexivity].
    specialize (IH r (S i) eq_refl).
    destruct (month_labels_from (S i) r) as [labels|e]; simpl.
    + destruct IH as [vs [E Hvs]]. rewrite E. simpl.
      eexists. split; [reflexivity|].
      destruct (is_anchor date_obj); simpl; now rewrite Hvs.
    + now rewrite IH.
Qed.

Lemma all_some_In {A} (l : list (option A)) (r : list A) (o : option A) :
  all_some l = Some r -> In o l -> exists a, o = Some a.
Proof.
  revert r. induction l as [|[a|] l IH]; intros r; simpl; try discriminate.
  - intros _ [].
  - destruct (all_some l) as [r'|]; [|discriminate].
    intros _ [<-|Hin]; [eauto | now apply (IH r')].
Qed.

(** [_month_labels] on the store: it creates one list object, which holds
    the labels when it returns, and writes to nothing else. *)
Lemma month_labels_st_spec {lc : Locale} (h : store) (days : loc) (ds : list Sample) :
  days_at h days = Some ds ->
  exists o,
    month_labels_st days h
    = (match _month_labels ds with
       | Ok _ => Ok (List.length h)
       | Raise e => Raise e
       end, h ++ [o]) /\
    (forall labels, _month_labels ds = Ok labels -> o = OList (map label_val labels)).
Proof.
  unfold days_at. destruct (list_at h days) as [items|] eqn:Eitems; [|discriminate].
  intros Hds.
  unfold month_labels_st, bindM, new_list, get_list, from_option.
  rewrite (list_at_ext _ [OList []] _ _ Eitems).
  match goal with |- context [for_each _ ?b _] => set (body := b) end.
  destruct (for_each_append (month_step h) body h (enumerate items)) with (acc := @nil val)
    as [acc' [E Hacc]].
  { intros [i v] acc Hin. unfold body, month_step, bindM, get_day, from_option, lift.
    simpl. apply in_combine_r in Hin.
    destruct (all_some_In _ _ (day_at h v) Hds) as [d Ed];
      [now apply in_map|].
    rewrite Ed, (day_at_ext _ _ _ _ Ed).
    destruct (fromisoformat (date d)) as [date_obj|e]; simpl; [|reflexivity].
    destruct (is_anchor date_obj); [apply list_append_last | reflexivity]. }
  rewrite E. pose proof (month_step_values h items ds 0%nat Hds) as Hv.
  unfold _month_labels, enumerate in *.
  destruct (month_labels_from 0 ds) as [labels|e].
  - destruct Hv as [vs [Evs Hvs]]. rewrite Evs in *. simpl.
    exists (OList acc'). split; [reflexivity|].
    intros ? [= <-]. rewrite (Hacc vs eq_refl). simpl. now rewrite Hvs.
  - rewrite Hv. exists (OList acc'). split; [reflexivity | discriminate].
Qed.

(** *** The loops of [build_svg] *)

Lemma mapM_appended {A B} (g : A -> result B) (inj : B -> val) (l : list A) :
  match mapM g l with
  | Ok bs =>
      exists vs,
        mapM (fun a => b <- g a ;; Ok (Some (inj b))) l = Ok vs /\
        somes vs = map inj bs
  | Raise e => mapM (fun a => b <- g a ;; Ok (Some (inj b))) l = Raise e
  end.
Proof.
  induction l as [|a l IH]; simpl.
  - now exists [].
  - destruct (g a) as [b|e]; simpl; [|reflexivity].
    destruct (mapM g l) as [bs|e]; simpl.
    + destruct IH as [vs [E Hvs]]. rewrite E. simpl.
      eexists. split; [reflexivity|]. simpl. now rewrite Hvs.
    + now rewrite IH.
Qed.

Lemma mapM_str_of (l : list string) : mapM str_of (map VStr l) = Ok l.
Proof. induction l as [|s l IH]; simpl; [reflexivity | now rewrite IH]. Qed.

Lemma list_at_created (h ext : store) (items : list val) :
  list_at ((h ++ [OList items]) ++ ext) (List.length h) = Some items.
Proof. apply list_at_ext, list_at_last. Qed.

Lemma label_step_values {F : Type} `{PyFloat F} (cfg : ChartConfig) (xs_ : list F)
    (labels : list (nat * string)) :
  match mapM (label_text cfg xs_) labels with
  | Ok texts =>
      exists vs,
        mapM (label_step cfg xs_) (map label_val labels) = Ok vs /\
        somes vs = map VStr texts
  | Raise e => mapM (label_step cfg xs_) (map label_val labels) = Raise e
  end.
Proof.
  induction labels as [|[idx label] labels IH]; simpl.
  - now exists [].
  - destruct (label_text cfg xs_ (idx, label)) as [t|e]; simpl; [|reflexivity].
    destruct (mapM (label_text cfg xs_) labels) as [texts|e]; simpl.
    + destruct IH as [vs [E Hvs]]. rewrite E. simpl.
      eexists. split; [reflexivity|]. simpl. now rewrite Hvs.
    + now rewrite IH.
Qed.

Lemma days_at_first (h : store) (days : loc) (v : val) (items : list val)
    (ds : list Sample) :
  list_at h days = Some (v :: items) ->
  days_at h days = Some ds ->
  exists d0 ds', ds = d0 :: ds' /\ day_at h v = Some d0.
Proof.
  unfold days_at. intros ->. simpl.
  destruct (day_at h v) as [d0|]; [|discriminate].
  destruct (all_some (map (day_at h) items)) as [r|]; [|discriminate].
  intros [= <-]. eauto.
Qed.

(** *** A call of [build_svg] *)

Section Calls.

Context {F : Type} `{PyFloat F}.

(** A call returns what the function of the series returns, and leaves
    every object of the store as it was: it only adds objects. *)
Lemma build_svg_st_spec {lc : Locale} (h : store) (days : loc) (cfg : ChartConfig) :
  exists ext, build_svg_st days cfg h = (build_svg_at h days cfg, h ++ ext).
Proof.
  unfold build_svg_st, build_svg_at, bindM at 1, get_list at 1, from_option.
  destruct (list_at h days) as [[|v items]|] eqn:Eitems.
  - exists []. unfold days_at. rewrite Eitems, app_nil_r. reflexivity.
  - unfold bindM at 1, get_days, from_option.
    destruct (days_at h days) as [ds|] eqn:Eds;
      [|exists []; now rewrite app_nil_r].
    destruct (days_at_first _ _ _ _ _ Eitems Eds) as [d0 [ds' [-> Ed0]]].
    unfold build_svg.
    unfold bindM at 1, lift at 1.
    destruct (xs (d0 :: ds') cfg) as [xs_|e]; cbn [bind];
      [|exists []; now rewrite app_nil_r].
    unfold bindM at 1, lift at 1.
    destruct (ys (d0 :: ds') cfg) as [ys_|e]; cbn [bind];
      [|exists []; now rewrite app_nil_r].
    unfold bindM at 1.
    destruct (month_labels_st_spec h days _ Eds) as [o [-> Ho]].
    destruct (_month_labels (d0 :: ds')) as [labels|e]; cbn [bind];
      [|now exists [o]].
    rewrite (Ho labels eq_refl). clear o Ho.
    set (h1 := h ++ [OList (map label_val labels)]).
    unfold bindM at 1, new_list at 1.
    unfold bindM at 1.
    match goal with |- context [for_each _ ?b _] => set (body := b) end.
    destruct (for_each_append
                (fun i => line <- grid_line cfg i ;; Ok (Some (VStr line)))
                body h1 (range (Z.to_nat (grid_lines + 1)))) with (acc := @nil val)
      as [gvals [-> Hgvals]].
    { intros i acc _. unfold body, bindM, lift.
      destruct (grid_line cfg i) as [line|e]; simpl; [|reflexivity].
      apply list_append_last. }
    clear body.
    pose proof (mapM_appended (grid_line cfg) VStr
                  (range (Z.to_nat (grid_lines + 1)))) as Hg.
    fold (grid cfg) in Hg.
    destruct (grid cfg) as [grid_|e]; cbn [bind].
    2:{ rewrite Hg. now exists ([OList (map label_val labels)] ++ [OList gvals]);
        unfold h1; rewrite <- app_assoc. }
    destruct Hg as [vs [Evs Hvs]]. rewrite Evs in *.
    rewrite (Hgvals vs eq_refl), Hvs. clear gvals Hgvals vs Evs Hvs. cbn [app].
    unfold bindM at 1, get_list at 1, from_option. rewrite list_at_last.
    set (h2 := h1 ++ [OList (map VStr grid_)]).
    unfold bindM at 1, get_first, bindM at 1, get_list at 1, from_option.
    assert (Eitems2 : list_at h2 days = Some (v :: items))
      by (unfold h2, h1; now do 2 apply list_at_ext).
    assert (Ed2 : day_at h2 v = Some d0)
      by (unfold h2, h1; now do 2 apply day_at_ext).
    rewrite Eitems2. unfold get_day, from_option. rewrite Ed2.
    unfold bindM at 1, new_list at 1.
    set (svg0 := map VStr (svg_head cfg (date d0) (total (d0 :: ds')))
                 ++ map VStr grid_
                 ++ map VStr (svg_paths cfg (path_of xs_ ys_))).
    unfold bindM at 1, get_list at 1, from_option.
    replace (list_at (h2 ++ [OList svg0]) (List.length h))
      with (Some (map label_val labels))
      by (symmetry; unfold h2, h1; apply list_at_ext, list_at_created).
    unfold bindM at 1.
    match goal with |- context [for_each _ ?b _] => set (body := b) end.
    destruct (for_each_append (label_step cfg xs_) body h2 (map label_val labels))
      with (acc := svg0) as [svals [-> Hsvals]].
    { intros [l|s|idx label] acc _; unfold body, label_step, bindM, lift;
        try reflexivity.
      destruct (label_text cfg xs_ (idx, label)) as [t|e]; simpl; [|reflexivity].
      apply list_append_last. }
    clear body.
    pose proof (label_step_values cfg xs_ labels) as Hl.
    destruct (mapM (label_text cfg xs_) labels) as [texts|e]; cbn [bind].
    2:{ rewrite Hl. exists ([OList (map label_val labels)]
                            ++ [OList (map VStr grid_)] ++ [OList svals]).
        unfold h2, h1. now rewrite <- !app_assoc. }
    destruct Hl as [vs [Evs Hvs]]. rewrite Evs in *.
    rewrite (Hsvals vs eq_refl), Hvs. clear svals Hsvals vs Evs Hvs.
    unfold bindM at 1. rewrite list_append_last.
    unfold bindM at 1. rewrite list_append_last.
    unfold bindM at 1, get_list at 1, from_option. rewrite list_at_last.
    unfold bindM, lift, ret. unfold svg0.
    change [VStr (max_text (d0 :: ds') cfg)]
      with (map VStr [max_text (d0 :: ds') cfg]).
    change [VStr "</svg>"] with (map VStr ["</svg>"]).
    rewrite <- !app_assoc, <- !map_app, mapM_str_of. cbn [app].
    eexists ([_] ++ [_] ++ [_]). unfold h2, h1. rewrite <- !app_assoc.
    reflexivity.
  - exists []. unfold days_at. rewrite Eitems, app_nil_r. reflexivity.
Qed.

Lemma run_events_spec (lc0 : Locale) (events : list event) (h0 ext0 : store) :
  calls_on_series h0 events ->
  exists ext,
    snd (run_events lc0 events (h0 ++ ext0)) = h0 ++ ext /\
    forall i,
      nth_error (fst (run_events lc0 events (h0 ++ ext0))) i
      = match nth_error events i with
        | Some (Call days cfg) =>
            Some (Some (build_svg_at (lc := locale_at lc0 events i) h0 days cfg))
        | Some (SetLocale _) => Some None
        | None => None
        end.
Proof.
  intros Hvalid. revert lc0 ext0.
  induction Hvalid as [|[days cfg|lc'] events Hc _ IH]; intros lc0 ext0.
  - exists ext0. split; [reflexivity|]. now intros [|i].
  - cbn [run_events].
    destruct (build_svg_st_spec (lc := lc0) (h0 ++ ext0) days cfg) as [ext1 ->].
    rewrite <- app_assoc. destruct (IH lc0 (ext0 ++ ext1)) as [ext [Es Hi]].
    destruct (run_events lc0 events (h0 ++ ext0 ++ ext1)) as [rs h2].
    cbn [fst snd] in *. exists ext. split; [exact Es|].
    intros [|i]; cbn [nth_error locale_at]; [|apply Hi].
    do 2 f_equal. unfold build_svg_at.
    destruct (days_at h0 days) as [ds|] eqn:Eds; [|congruence].
    now rewrite (days_at_ext _ ext0 _ _ Eds).
  - cbn [run_events]. destruct (IH lc' ext0) as [ext [Es Hi]].
    destruct (run_events lc' events (h0 ++ ext0)) as [rs h2].
    cbn [fst snd] in *. exists ext. split; [exact Es|].
    intros [|i]; cbn [nth_error locale_at]; [reflexivity | apply Hi].
Qed.

Lemma locale_at_unchanged (lc0 : Locale) (events : list event) (i : nat) :
  Forall (fun e => match e with
                   | SetLocale _ => False
                   | Call _ _ => True
                   end) events ->
  locale_at lc0 events i = lc0.
Proof.
  intros Hno. revert i. induction Hno as [|[days cfg|lc'] events He _ IH];
    intros [|i]; cbn [locale_at]; try reflexivity; [apply IH | destruct He].
Qed.

(** C9: in any run of calls and changes of the locale, of any length and in
    any order, each call returns the markup that the function [build_svg]
    gives for the series and the configuration it is called with under the
    locale then in force; so two calls with equal arguments under the same
    locale return identical markup, the calls leave every series as it
    was, and in a run that does not set the locale the locale in force is
    the first one throughout. *)
Theorem build_svg_calls_pure (lc0 : Locale) (h : store) (events : list event) :
  calls_on_series h events ->
  (forall i days cfg ds,
     nth_error events i = Some (Call days cfg) ->
     days_at h days = Some ds ->
     nth_error (fst (run_events lc0 events h)) i
     = Some (Some (build_svg (lc := locale_at lc0 events i) ds cfg))) /\
  (forall i j days1 days2 cfg,
     nth_error events i = Some (Call days1 cfg) ->
     nth_error events j = Some (Call days2 cfg) ->
     days_at h days1 = days_at h days2 ->
     locale_at lc0 events i = locale_at lc0 events j ->
     nth_error (fst (run_events lc0 events h)) i
     = nth_error (fst (run_events lc0 events h)) j) /\
  (forall days ds,
     days_at h days = Some ds ->
     days_at (snd (run_events lc0 events h)) days = Some ds) /\
  (Forall (fun e => match e with
                    | SetLocale _ => False
                    | Call _ _ => True
                    end) events ->
   forall i, locale_at lc0 events i = lc0).
Proof.
  intros Hvalid.
  destruct (run_events_spec lc0 events h [] Hvalid) as [ext [Es Hi]].
  rewrite app_nil_r in Es, Hi.
  split; [|split; [|split]].
  - intros i days cfg ds Hev Hds.
    rewrite Hi, Hev. unfold build_svg_at. now rewrite Hds.
  - intros i j days1 days2 cfg Hev1 Hev2 Hds Hlc.
    rewrite !Hi, Hev1, Hev2. unfold build_svg_at. now rewrite Hds, Hlc.
  - intros days ds Hds. rewrite Es. now apply days_at_ext.
  - intros Hno i. now apply locale_at_unchanged.
Qed.

End Calls.

Lemma build_svg_calls_pure_witness :
  (forall i days cfg ds,
     nth_error example_events i = Some (Call days cfg) ->
     days_at example_store days = Some ds ->
     nth_error (fst (run_events (F := R) c_locale example_events example_store)) i
     = Some (Some (build_svg (lc := locale_at c_locale example_events i) ds cfg))) /\
  (forall i j days1 days2 cfg,
     nth_error example_events i = Some (Call days1 cfg) ->
     nth_error example_events j = Some (Call days2 cfg) ->
     days_at example_store days1 = days_at example_store days2 ->
     locale_at c_locale example_events i = locale_at c_locale example_events j ->
     nth_error (fst (run_events (F := R) c_locale example_events example_store)) i
     = nth_error (fst (run_events (F := R) c_locale example_events example_store)) j) /\
  (forall days ds,
     days_at example_store days = Some ds ->
     days_at (snd (run_events (F := R) c_locale example_events example_store)) days
     = Some ds) /\
  (Forall (fun e => match e with
                    | SetLocale _ => False
                    | Call _ _ => True
                    end) example_events ->
   forall i, locale_at c_locale example_events i = c_locale).
Proof.
  apply (build_svg_calls_pure c_locale example_store example_events).
  repeat constructor; discriminate.
Defined.

(** ** The example of the design document on binary64 *)

Section Binary64.

Variable log1p : float -> float.

Example linear_norms :
  mapM (norm_for_count (H := Float64 log1p) (max_c linear_days)) (counts linear_days)
  = Ok [0.25%float; 0.5%float; 1%float].
Proof. vm_compute. reflexivity. Qed.

Example linear_xs :
  xs (H := Float64 log1p) linear_days default_config
  = Ok [52%float; 600%float; 1148%float].
Proof. vm_compute. reflexivity. Qed.

Example linear_ys :
  ys (H := Float64 log1p) linear_days default_config
  = Ok [244%float; 180%float; 52%float].
Proof. vm_compute. reflexivity. Qed.

(** The degenerate configurations give the same positions on binary64 as
    over the reals. *)
Example narrow_xs :
  xs (H := Float64 log1p) two_days narrow_config = Ok [50%float; 50%float].
Proof. vm_compute. reflexivity. Qed.

Example short_ys :
  ys (H := Float64 log1p) two_days short_config = Ok [48%float; 52%float].
Proof. vm_compute. reflexivity. Qed.

Example linear_path :
  path_of (H := Float64 log1p) [52%float; 600%float; 1148%float]
                     [244%float; 180%float; 52%float]
  = "M52.00,244.00L600.00,180.00L1148.00,52.00".
Proof. vm_compute. reflexivity. Qed.

Example linear_elements :
  match build_svg (H := Float64 log1p) linear_days default_config with
  | Ok doc => elements doc
  | Raise _ => []
  end
  = [ "svg"; "rect"; "defs"; "filter"; "feGaussianBlur"; "feMerge";
      "feMergeNode"; "feMergeNode"; "text"; "text";
      "line"; "line"; "line"; "line"; "line"; "line";
      "path"; "path"; "text"; "text" ].
Proof. vm_compute. reflexivity. Qed.

Lemma zrange_In (lo : Z) (n : nat) (z : Z) :
  (lo <= z < lo + Z.of_nat n)%Z -> In z (zrange lo n).
Proof.
  intros Hz. unfold zrange. apply in_map_iff.
  exists (Z.to_nat (z - lo)). split; [lia | apply in_seq; lia].
Qed.

(** The strict monotonicity of the linear scaler also holds for the
    rounded quotients of binary64: the counts that can occur are few, and
    all pairs of them are compared. *)
Lemma norm_linear_monotonic_binary64 (m c1 c2 : Z) :
  (0 < m <= 20)%Z -> (0 <= c1)%Z -> (c1 < c2)%Z -> (c2 <= m)%Z ->
  norm_ltb log1p m c1 c2 = true.
Proof.
  intros Hm Hc1 Hlt Hc2.
  assert (Hall : linear_range_check log1p = true) by (vm_compute; reflexivity).
  unfold linear_range_check in Hall. rewrite forallb_forall in Hall.
  specialize (Hall m (zrange_In 1 20 m ltac:(lia))).
  rewrite forallb_forall in Hall.
  specialize (Hall c1 (zrange_In 0 (Z.to_nat m) c1 ltac:(lia))).
  rewrite forallb_forall in Hall.
  apply Hall, zrange_In. lia.
Qed.

(** *** The logarithmic scaler at its ends

    On binary64 the quotient of a finite float that is not zero by itself
    is exactly 1, and the quotient of 0 by a positive float is exactly 0. *)

Lemma SFdiv_self (s : bool) (m : positive) (e : Z) :
  SFdiv prec emax (S754_finite s m e) (S754_finite s m e)
  = S754_finite false 4503599627370496 (-52).
Proof.
  unfold SFdiv, SFdiv_core_binary.
  rewrite !Z.sub_diag.
  change (Z.min (fexp prec emax 0) 0) with (-53)%Z.
  change (0 - -53)%Z with 53%Z.
  rewrite Z.shiftl_mul_pow2 by lia.
  pose proof (Z.div_mul (2 ^ 53) (Zpos m) ltac:(lia)) as Hq.
  pose proof (Z.mod_mul (2 ^ 53) (Zpos m) ltac:(lia)) as Hr.
  unfold Z.div, Z.modulo in Hq, Hr.
  rewrite (Z.mul_comm (Zpos m)).
  destruct (Z.div_eucl (2 ^ 53 * Z.pos m) (Z.pos m)) as [q r].
  simpl in Hq, Hr. subst q r.
  replace (new_location (Z.pos m) 0) with loc_Exact
    by (unfold new_location, new_location_even, new_location_odd;
        now destruct (Z.even (Z.pos m))).
  destruct s; reflexivity.
Qed.

Lemma div_self (x : float) (s : bool) (m : positive) (e : Z) :
  Prim2SF x = S754_finite s m e -> (x / x)%float = 1%float.
Proof.
  intros E. apply Prim2SF_inj. rewrite div_spec, E.
  unfold SF64div. rewrite SFdiv_self. reflexivity.
Qed.

Lemma div_zero_positive (x : float) (m : positive) (e : Z) :
  Prim2SF x = S754_finite false m e -> (0 / x)%float = 0%float.
Proof.
  intros E. apply Prim2SF_inj. rewrite div_spec, E. reflexivity.
Qed.

Lemma is_zero_finite (x : float) (s : bool) (m : positive) (e : Z) :
  Prim2SF x = S754_finite s m e -> PrimFloat.is_zero x = false.
Proof.
  intros E. unfold PrimFloat.is_zero. rewrite eqb_spec, E. now destruct s.
Qed.

(** With a [log1p] that returns 0 at 0 and a finite positive float at the
    maximum count, the normalised values of the maximum count and of 0 are
    the floats 1 and 0, whatever the rounding of [log1p]. *)
Lemma norm_log_endpoints_binary64 (maxCount : Z) (m : positive) (e : Z) :
  (20 < maxCount)%Z ->
  log1p (float_of_int 0) = 0%float ->
  Prim2SF (log1p (float_of_int maxCount)) = S754_finite false m e ->
  norm_for_count (H := Float64 log1p) maxCount maxCount = Ok 1%float /\
  norm_for_count (H := Float64 log1p) maxCount 0 = Ok 0%float.
Proof.
  intros Hm H0 Hfin. unfold norm_for_count, math_log1p, float_truediv.
  apply Z.ltb_lt in Hm as Hm'. rewrite Hm'.
  replace (maxCount <=? -1)%Z with false by (symmetry; apply Z.leb_gt; lia).
  simpl. rewrite H0, (is_zero_finite _ _ _ _ Hfin).
  now rewrite (div_self _ _ _ _ Hfin), (div_zero_positive _ _ _ Hfin).
Qed.

Example format_2f_examples :
  map format_2f_float
      [0.125%float; 0.375%float; 2.625%float; (-0.0009765625)%float;
       1096.5%float]
  = ["0.12"; "0.38"; "2.62"; "-0.00"; "1096.50"].
Proof. vm_compute. reflexivity. Qed.

End Binary64.

(** * Further properties of the chart builder *)

(** ** Which lists a comprehension returns, and when it raises *)

Lemma mapM_Ok_iff {A B} (f : A -> result B) (l : list A) :
  (exists bs, mapM f l = Ok bs) <-> Forall (fun a => exists b, f a = Ok b) l.
Proof.
  induction l as [|a l IH]; simpl.
  - split; [constructor | now exists []].
  - split.
    + intros [bs E]. apply bind_Ok in E. destruct E as [b [Eb E]].
      apply bind_Ok in E. destruct E as [bs' [Ebs _]].
      constructor; [eauto | apply IH; eauto].
    + intros HF. inversion HF as [|? ? [b Eb] Hl]; subst.
      apply IH in Hl. destruct Hl as [bs Ebs].
      rewrite Eb, Ebs. simpl. eauto.
Qed.

Lemma mapM_Raise {A B} (f : A -> result B) (l : list A) (e : exn) :
  mapM f l = Raise e -> exists a, In a l /\ f a = Raise e.
Proof.
  induction l as [|a l IH]; simpl; [discriminate|].
  destruct (f a) as [b|e'] eqn:Ea; simpl.
  - destruct (mapM f l) as [bs|e'']; simpl; [discriminate|].
    intros [= ->]. destruct (IH eq_refl) as [a' [Hin Ea']]. eauto.
  - intros [= ->]. eauto.
Qed.

Lemma mapM_length {A B} (f : A -> result B) (l : list A) (bs : list B) :
  mapM f l = Ok bs -> List.length bs = List.length l.
Proof.
  revert bs. induction l as [|a l IH]; simpl; intros bs.
  - now intros [= <-].
  - intros E. apply bind_Ok in E. destruct E as [b [_ E]].
    apply bind_Ok in E. destruct E as [bs' [Ebs [= <-]]].
    simpl. now rewrite (IH bs').
Qed.

(** ** [_month_labels]: malformed dates *)

Lemma fromisoformat_raises (s : string) (e : exn) :
  fromisoformat s = Raise e -> e = ValueError.
Proof.
  unfold fromisoformat.
  repeat match goal with
         | |- context [match ?x with EmptyString => _ | String _ _ => _ end] =>
             destruct x
         | |- context [match ?x with Some _ => _ | None => _ end] =>
             destruct x
         | |- context [if ?b then _ else _] => destruct b
         end; congruence.
Qed.

Lemma month_labels_from_Ok_inv {lc : Locale} (i : nat) (days : list Sample)
    (labels : list (nat * string)) :
  month_labels_from i days = Ok labels ->
  exists dates, parsed_dates days dates /\ labels = anchors_from i dates.
Proof.
  revert i labels. induction days as [|d days IH]; intros i labels; simpl.
  - intros [= <-]. exists []. split; [constructor | reflexivity].
  - intros E. apply bind_Ok in E. destruct E as [dt [Edt E]].
    apply bind_Ok in E. destruct E as [rest [Erest [= <-]]].
    destruct (IH _ _ Erest) as [dates [HP ->]].
    exists (dt :: dates). split; [now constructor | reflexivity].
Qed.

Lemma month_labels_from_Raise {lc : Locale} (i : nat) (days : list Sample) (e : exn) :
  month_labels_from i days = Raise e ->
  e = ValueError /\
  exists d, In d days /\ fromisoformat (date d) = Raise ValueError.
Proof.
  revert i. induction days as [|d days IH]; intros i; simpl; [discriminate|].
  destruct (fromisoformat (date d)) as [dt|e'] eqn:Ed; simpl.
  - destruct (month_labels_from (S i) days) as [rest|e''] eqn:Er; simpl;
      [discriminate|].
    intros [= ->]. destruct (IH _ Er) as [-> [d' [Hin Ed']]]. eauto.
  - intros [= ->]. pose proof (fromisoformat_raises _ _ Ed) as ->. eauto.
Qed.

Lemma month_labels_from_dates {lc : Locale} (i : nat) (days days' : list Sample) :
  map date days = map date days' ->
  month_labels_from i days' = month_labels_from i days.
Proof.
  revert i days'. induction days as [|d days IH]; intros i [|d' days'];
    simpl; try discriminate; [reflexivity|].
  intros [= Ed Erest]. now rewrite Ed, (IH (S i) days' Erest).
Qed.

(** X1: [_month_labels] returns labels exactly for series whose dates are all
    well-formed, every label index is an index of the series, a malformed
    date makes it raise [ValueError] and nothing else, and the counts of
    the samples play no role. *)
Theorem month_labels_outcome {lc : Locale} (days : list Sample) :
  (forall labels,
     _month_labels days = Ok labels ->
     (exists dates, parsed_dates days dates) /\
     Forall (fun l => (fst l < List.length days)%nat) labels) /\
  (forall e,
     _month_labels days = Raise e ->
     e = ValueError /\
     exists d, In d days /\ fromisoformat (date d) = Raise ValueError) /\
  (forall days',
     map date days = map date days' ->
     _month_labels days' = _month_labels days).
Proof.
  unfold _month_labels. split; [|split].
  - intros labels E.
    destruct (month_labels_from_Ok_inv _ _ _ E) as [dates [HP ->]].
    split; [eauto|]. rewrite (Forall2_length HP). apply anchors_from_bound.
  - apply month_labels_from_Raise.
  - apply month_labels_from_dates.
Qed.

(** ** [build_svg]: which series give a document *)

Lemma norm_for_count_Ok_iff (m c : Z) :
  (exists norm : R, norm_for_count m c = Ok norm) <-> ((20 < m)%Z -> (0 <= c)%Z).
Proof.
  split.
  - intros [norm E] Hm. unfold norm_for_count, math_log1p in E.
    apply Z.ltb_lt in Hm. rewrite Hm in E.
    destruct (c <=? -1)%Z eqn:Hc; [discriminate|]. apply Z.leb_gt in Hc. lia.
  - intros Hc. destruct (Z_lt_le_dec 20 m) as [Hlog|Hlin].
    + rewrite norm_for_count_log by auto. eauto.
    + destruct (Z.eq_dec m 0) as [->|Hm0].
      * rewrite norm_for_count_zero. eauto.
      * rewrite norm_for_count_linear by assumption. eauto.
Qed.

Lemma norm_for_count_Raise (m c : Z) (e : exn) :
  norm_for_count (F := R) m c = Raise e ->
  e = ValueError /\ (20 < m)%Z /\ (c < 0)%Z.
Proof.
  intros E.
  destruct (Z_lt_le_dec 20 m) as [Hlog|Hlin].
  - destruct (Z_lt_le_dec c 0) as [Hc|Hc].
    + unfold norm_for_count, math_log1p in E.
      apply Z.ltb_lt in Hlog as Hlog'. rewrite Hlog' in E.
      replace (c <=? -1)%Z with true in E by (symmetry; apply Z.leb_le; lia).
      simpl in E. injection E as <-. auto.
    + rewrite norm_for_count_log in E by assumption. discriminate.
  - destruct (Z.eq_dec m 0) as [->|Hm0].
    + rewrite norm_for_count_zero in E. discriminate.
    + rewrite norm_for_count_linear in E by assumption. discriminate.
Qed.

Lemma y_for_count_Ok_iff (cfg : ChartConfig) (m c : Z) :
  (exists y : R, y_for_count cfg m c = Ok y) <-> ((20 < m)%Z -> (0 <= c)%Z).
Proof.
  rewrite <- norm_for_count_Ok_iff. unfold y_for_count. split.
  - intros [y E]. apply bind_Ok in E. destruct E as [norm [En _]]. eauto.
  - intros [norm En]. rewrite En. simpl. eauto.
Qed.

Lemma ys_Ok_iff (days : list Sample) (cfg : ChartConfig) :
  (exists ys_ : list R, ys days cfg = Ok ys_) <->
  ((20 < max_c days)%Z -> nonneg_counts days).
Proof.
  unfold ys. rewrite mapM_Ok_iff. unfold counts, nonneg_counts.
  rewrite Forall_map. split.
  - intros HF Hm. revert HF. apply Forall_impl. intros d Hd.
    now apply (y_for_count_Ok_iff cfg (max_c days)).
  - intros Hnn. apply Forall_forall. intros d Hd.
    apply y_for_count_Ok_iff. intros Hm. specialize (Hnn Hm).
    rewrite Forall_forall in Hnn. now apply Hnn.
Qed.

Lemma ys_Raise (days : list Sample) (cfg : ChartConfig) (e : exn) :
  ys (F := R) days cfg = Raise e ->
  e = ValueError /\ (20 < max_c days)%Z /\ exists d, In d days /\ (count d < 0)%Z.
Proof.
  unfold ys, counts. intros E. apply mapM_Raise in E.
  destruct E as [c [Hin E]]. apply in_map_iff in Hin. destruct Hin as [d [<- Hd]].
  unfold y_for_count in E.
  destruct (norm_for_count (max_c days) (count d)) as [norm|e'] eqn:En;
    [discriminate|].
  simpl in E. injection E as <-.
  destruct (norm_for_count_Raise _ _ _ En) as [-> [Hm Hc]]. eauto.
Qed.

(** The parts of the document of a series of two samples or more. *)
Lemma build_svg_parts {lc : Locale} (days : list Sample) (cfg : ChartConfig)
    (dates : list pydate) :
  (1 < List.length days)%nat ->
  ((20 < max_c days)%Z -> nonneg_counts days) ->
  parsed_dates days dates ->
  exists (ys_ : list R) (grid_ texts : list string),
    ys days cfg = Ok ys_ /\
    grid cfg = Ok grid_ /\
    mapM (label_text cfg (map (spec_x cfg (List.length days))
                              (range (List.length days))))
         (anchors_from 0 dates) = Ok texts /\
    build_svg days cfg
    = Ok (join_nl
            (svg_head cfg (match days with d0 :: _ => date d0 | [] => "" end)
                      (total days)
             ++ grid_
             ++ svg_paths cfg
                  (path_of (map (spec_x cfg (List.length days))
                                (range (List.length days))) ys_)
             ++ texts ++ [max_text days cfg; "</svg>"])).
Proof.
  intros Hn Hnn HP.
  destruct (proj2 (ys_Ok_iff days cfg) Hnn) as [ys_ Eys].
  destruct (grid_Ok cfg) as [grid_ Egrid].
  destruct (label_texts_Ok cfg
              (map (spec_x cfg (List.length days)) (range (List.length days)))
              (anchors_from 0 dates)) as [texts Etexts].
  { unfold range. rewrite length_map, length_seq.
    rewrite (Forall2_length HP). apply anchors_from_bound. }
  exists ys_, grid_, texts. repeat split; try assumption.
  unfold build_svg. destruct days as [|d0 days']; [simpl in Hn; lia|].
  rewrite xs_closed_form by assumption. cbn [bind].
  rewrite Eys. cbn [bind].
  unfold _month_labels. rewrite (month_labels_from_parsed _ _ _ HP). cbn [bind].
  rewrite Egrid. cbn [bind]. rewrite Etexts. reflexivity.
Qed.

(** X2: a series of two samples or more, with counts and sizes that a
    float holds exactly, gives a document exactly when every date is
    well-formed and, if the maximum count exceeds 20, no count is
    negative; any other such series makes [build_svg] raise [ValueError],
    and no other exception. *)
Theorem build_svg_outcome {lc : Locale} (days : list Sample) (cfg : ChartConfig) :
  (1 < List.length days)%nat ->
  float_exact_input days cfg ->
  ((exists doc, build_svg (F := R) days cfg = Ok doc) <->
   (((20 < max_c days)%Z -> nonneg_counts days) /\
    exists dates, parsed_dates days dates)) /\
  (forall e, build_svg (F := R) days cfg = Raise e -> e = ValueError).
Proof.
  intros Hn _. split; [split|].
  - intros [doc E]. unfold build_svg in E.
    destruct days as [|d0 days']; [simpl in Hn; lia|].
    apply bind_Ok in E. destruct E as [xs_ [_ E]].
    apply bind_Ok in E. destruct E as [ys_ [Eys E]].
    apply bind_Ok in E. destruct E as [labels [El _]].
    split; [apply (ys_Ok_iff _ cfg); eauto|].
    destruct (month_labels_from_Ok_inv _ _ _ El) as [dates [HP _]]. eauto.
  - intros [Hnn [dates HP]].
    destruct (build_svg_parts days cfg dates Hn Hnn HP)
      as [ys_ [grid_ [texts [_ [_ [_ E]]]]]]. eauto.
  - intros e E. unfold build_svg in E.
    destruct days as [|d0 days'] eqn:Edays; [discriminate|]. rewrite <- Edays in *.
    rewrite xs_closed_form in E by assumption. cbn [bind] in E.
    destruct (ys days cfg) as [ys_|e1] eqn:Eys; cbn [bind] in E.
    2:{ injection E as <-. now destruct (ys_Raise _ _ _ Eys). }
    destruct (_month_labels days) as [labels|e2] eqn:El; cbn [bind] in E.
    2:{ injection E as <-. now destruct (month_labels_from_Raise _ _ _ El). }
    destruct (grid_Ok cfg) as [grid_ Egrid]. rewrite Egrid in E. cbn [bind] in E.
    destruct (month_labels_from_Ok_inv _ _ _ El) as [dates [HP ->]].
    destruct (label_texts_Ok cfg
                (map (spec_x cfg (List.length days)) (range (List.length days)))
                (anchors_from 0 dates)) as [texts Etexts].
    { unfold range. rewrite length_map, length_seq.
      rewrite (Forall2_length HP). apply anchors_from_bound. }
    rewrite Etexts in E. discriminate.
Qed.

Lemma build_svg_outcome_witness :
  ((exists doc, build_svg (F := R) linear_days default_config = Ok doc) <->
   (((20 < max_c linear_days)%Z -> nonneg_counts linear_days) /\
    exists dates, parsed_dates linear_days dates)) /\
  (forall e,
     build_svg (F := R) linear_days default_config = Raise e -> e = ValueError).
Proof.
  apply (build_svg_outcome linear_days default_config).
  - simpl. lia.
  - unfold float_exact_input, float_exact.
    split; [repeat constructor; simpl; lia | simpl; lia].
Defined.

(** ** The locale shows in the document *)

Lemma Ok_inj {A : Type} (a b : A) : Ok a = Ok b -> a = b.
Proof. congruence. Qed.

Lemma append_inv_l (s t u : string) : (s ++ t = s ++ u)%string -> t = u.
Proof.
  induction s as [|c s IH]; simpl; [auto|]. intros [= E]. auto.
Qed.

Lemma join_nl_cons (s : string) (l : list string) :
  l <> [] -> join_nl (s :: l) = (s ++ String "010" (join_nl l))%string.
Proof. destruct l; [congruence | reflexivity]. Qed.

Lemma join_nl_app_inv (A X Y : list string) :
  X <> [] -> Y <> [] ->
  join_nl (A ++ X) = join_nl (A ++ Y) -> join_nl X = join_nl Y.
Proof.
  intros HX HY. induction A as [|a A IH]; [auto|].
  cbn [app].
  rewrite !join_nl_cons by (destruct A; [assumption | discriminate]).
  intros E. apply append_inv_l in E. injection E as E. auto.
Qed.

(** The example series in the C locale and in [pt_BR]: the label of
    January differs, and so do the documents. *)
Lemma linear_days_locale (doc1 doc2 : string) :
  build_svg (F := R) (lc := c_locale) linear_days default_config = Ok doc1 ->
  build_svg (F := R) (lc := pt_locale) linear_days default_config = Ok doc2 ->
  doc1 <> doc2.
Proof.
  intros E1 E2.
  assert (HP : parsed_dates linear_days
                 [ {| year := 2024; month := 1; day := 1 |};
                   {| year := 2024; month := 1; day := 2 |};
                   {| year := 2024; month := 1; day := 3 |} ])
    by (repeat constructor).
  assert (Hn : (1 < List.length linear_days)%nat) by (simpl; lia).
  assert (Hnn : (20 < max_c linear_days)%Z -> nonneg_counts linear_days)
    by (intros _; repeat constructor; simpl; lia).
  destruct (build_svg_parts (lc := c_locale) _ default_config _ Hn Hnn HP)
    as [ys1 [g1 [t1 [Ey1 [Eg1 [Et1 D1]]]]]].
  destruct (build_svg_parts (lc := pt_locale) _ default_config _ Hn Hnn HP)
    as [ys2 [g2 [t2 [Ey2 [Eg2 [Et2 D2]]]]]].
  rewrite Ey1 in Ey2. apply Ok_inj in Ey2. subst ys2.
  rewrite Eg1 in Eg2. apply Ok_inj in Eg2. subst g2.
  rewrite E1 in D1. rewrite E2 in D2.
  apply Ok_inj in D1, D2. subst doc1 doc2.
  change (anchors_from (lc := c_locale) 0 _) with [(0%nat, "Jan")] in Et1.
  change (anchors_from (lc := pt_locale) 0 _) with [(0%nat, "jan")] in Et2.
  change (List.length linear_days) with 3%nat in *.
  unfold range in Et1, Et2.
  cbn [mapM bind label_text fst snd nth_error map seq] in Et1, Et2.
  apply Ok_inj in Et1, Et2. subst t1 t2.
  intros E. rewrite !app_assoc in E.
  rewrite <- !(app_assoc _ [_] [_; _]) in E.
  apply join_nl_app_inv in E; [|discriminate|discriminate].
  cbn [app] in E.
  cbn [join_nl] in E.
  rewrite !append_assoc in E.
  repeat (apply append_inv_l in E).
  cbn [append] in E. discriminate E.
Qed.

(** The claim of purity as the design document has it, refuted: in a run
    that sets the locale between two calls, the two calls have the same
    series and the same configuration, and return different markup. *)
Theorem build_svg_depends_on_locale :
  exists doc1 doc2,
    fst (run_events (F := R) c_locale locale_change example_store)
    = [Some (Ok doc1); None; Some (Ok doc2)] /\
    nth_error locale_change 0 = Some (Call 3%nat default_config) /\
    nth_error locale_change 2 = Some (Call 3%nat default_config) /\
    doc1 <> doc2.
Proof.
  unfold locale_change. cbn [run_events].
  destruct (build_svg_st_spec (F := R) (lc := c_locale) example_store 3%nat
              default_config) as [ext1 ->].
  destruct (build_svg_st_spec (F := R) (lc := pt_locale)
              (example_store ++ ext1) 3%nat default_config) as [ext2 ->].
  cbn [fst]. unfold build_svg_at.
  rewrite (days_at_ext example_store ext1 3%nat linear_days eq_refl).
  change (days_at example_store 3%nat) with (Some linear_days).
  assert (HP : parsed_dates linear_days
                 [ {| year := 2024; month := 1; day := 1 |};
                   {| year := 2024; month := 1; day := 2 |};
                   {| year := 2024; month := 1; day := 3 |} ])
    by (repeat constructor).
  destruct (build_svg_Ok (lc := c_locale) linear_days default_config _
              ltac:(simpl; lia) ltac:(repeat constructor; simpl; lia) HP)
    as [rest1 E1].
  destruct (build_svg_Ok (lc := pt_locale) linear_days default_config _
              ltac:(simpl; lia) ltac:(repeat constructor; simpl; lia) HP)
    as [rest2 E2].
  rewrite E1, E2. do 2 eexists. split; [reflexivity|].
  split; [reflexivity|]. split; [reflexivity|].
  apply (linear_days_locale _ _ E1 E2).
Qed.

(** ** The elements of the document *)

Lemma append_empty_r (s : string) : (s ++ "")%string = s.
Proof. induction s as [|c s IH]; simpl; [reflexivity | now rewrite IH]. Qed.

Lemma elements_join_nl (tagss : list (list string)) (lines : list string) :
  Forall2 emits tagss lines -> elements (join_nl lines) = List.concat tagss.
Proof.
  induction 1 as [|tags s tagss lines Hs HF IH]; [reflexivity|].
  destruct lines as [|s' lines'].
  - inversion HF; subst. simpl.
    rewrite <- (append_empty_r s), Hs. reflexivity.
  - change (join_nl (s :: s' :: lines'))
      with (s ++ String "010" (join_nl (s' :: lines')))%string.
    rewrite Hs. simpl List.concat. f_equal. exact IH.
Qed.

Lemma Forall2_emits_app (t1 t2 : list (list string)) (l1 l2 : list string) :
  Forall2 emits t1 l1 -> Forall2 emits t2 l2 -> Forall2 emits (t1 ++ t2) (l1 ++ l2).
Proof. apply Forall2_app. Qed.

Lemma numeric_markup_free (s : string) : numeric s = true -> markup_free s = true.
Proof.
  induction s as [|c s IH]; simpl; [reflexivity|].
  intros Hn. apply andb_true_iff in Hn. destruct Hn as [Hc Hs].
  rewrite (IH Hs), andb_true_r.
  destruct (Ascii.eqb_spec c "<") as [->|]; [discriminate | reflexivity].
Qed.

Lemma markup_free_strftime_b (d : pydate) : markup_free (strftime_b d) = true.
Proof.
  unfold strftime_b. cbn [abmon c_locale].
  repeat match goal with
         | |- context [match ?p with xH => _ | xO _ => _ | xI _ => _ end] =>
             destruct p
         | |- context [match ?z with Z0 => _ | Zpos _ => _ | Zneg _ => _ end] =>
             destruct z
         end; reflexivity.
Qed.

Lemma digit_of_not_lt (c : ascii) (z : Z) :
  digit_of c = Some z -> Ascii.eqb c "<" = false.
Proof.
  intros E. destruct (Ascii.eqb_spec c "<") as [->|]; [discriminate | reflexivity].
Qed.

(** The first four characters of a date that parses are digits. *)
Lemma markup_free_year (s : string) (d : pydate) :
  fromisoformat s = Ok d -> markup_free (prefix_of 4 s) = true.
Proof.
  unfold fromisoformat.
  destruct ((_ =? 7)%nat || _ || _); [|discriminate].
  unfold parse_isoformat_date.
  destruct (parse_digits 4 0 s) as [[y p]|] eqn:Ey; [|discriminate].
  intros _. cbn [parse_digits] in Ey.
  destruct s as [|y1 s]; [discriminate|].
  destruct (digit_of y1) as [n1|] eqn:E1; [|discriminate].
  destruct s as [|y2 s]; [discriminate|].
  destruct (digit_of y2) as [n2|] eqn:E2; [|discriminate].
  destruct s as [|y3 s]; [discriminate|].
  destruct (digit_of y3) as [n3|] eqn:E3; [|discriminate].
  destruct s as [|y4 s]; [discriminate|].
  destruct (digit_of y4) as [n4|] eqn:E4; [|discriminate].
  unfold prefix_of. simpl.
  rewrite (digit_of_not_lt _ _ E1), (digit_of_not_lt _ _ E2),
          (digit_of_not_lt _ _ E3), (digit_of_not_lt _ _ E4).
  now destruct s.
Qed.

Lemma mapM_Forall2_inv {A B} (f : A -> result B) (l : list A) (bs : list B) :
  mapM f l = Ok bs -> Forall2 (fun a b => f a = Ok b) l bs.
Proof.
  revert bs. induction l as [|a l IH]; simpl; intros bs.
  - intros [= <-]. constructor.
  - intros E. apply bind_Ok in E. destruct E as [b [Eb E]].
    apply bind_Ok in E. destruct E as [bs' [Ebs [= <-]]].
    constructor; auto.
Qed.

Lemma anchors_from_names (i : nat) (dates : list pydate) :
  Forall (fun l => markup_free (snd l) = true) (anchors_from i dates).
Proof.
  revert i. induction dates as [|dt dates IH]; intros i; simpl; [constructor|].
  destruct (is_anchor dt); [constructor|]; try apply IH.
  apply markup_free_strftime_b.
Qed.

Ltac solve_free :=
  first [ assumption
        | apply markup_free_str_int
        | apply markup_free_strftime_b
        | solve [auto] ].

Ltac emit_line :=
  intros rest;
  repeat (cbn -[str_int prefix_of path_of strftime_b];
          rewrite ?append_assoc;
          match goal with
          | |- context [elements (?x ++ ?t)%string] =>
              rewrite (elements_skip x t) by solve_free
          end);
  cbn; reflexivity.

Section Elements.

Context {F : Type} `{PyFloat F}.

Hypothesis format_free : forall x : F, markup_free (format_2f x) = true.

Variable cfg : ChartConfig.

Hypothesis bg_free : markup_free (bg cfg) = true.
Hypothesis stroke_free : markup_free (stroke cfg) = true.
Hypothesis text_free : markup_free (text cfg) = true.

Lemma emits_closing : emits [] "</svg>".
Proof. intros rest. reflexivity. Qed.

Lemma emits_grid_line (i : nat) (line : string) :
  grid_line cfg i = Ok line -> emits ["line"] line.
Proof.
  unfold grid_line. intros E. apply bind_Ok in E.
  destruct E as [q [_ [= <-]]].
  pose proof (format_free (fadd (of_int (padding cfg))
                                (fmul q (of_int (inner_h cfg))))) as Hy.
  emit_line.
Qed.

Lemma emits_label_text (xs_ : list F) (l : nat * string) (t : string) :
  markup_free (snd l) = true ->
  label_text cfg xs_ l = Ok t -> emits ["text"] t.
Proof.
  unfold label_text. intros Hl E.
  destruct (nth_error xs_ (fst l)) as [x|]; [|discriminate].
  injection E as <-. pose proof (format_free x) as Hx.
  unfold font_family. emit_line.
Qed.

Lemma emits_max_text (days : list Sample) : emits ["text"] (max_text days cfg).
Proof. unfold max_text, font_family. emit_line. Qed.

Lemma emits_svg_paths (path : string) :
  markup_free path = true ->
  Forall2 emits [["path"]; ["path"]] (svg_paths cfg path).
Proof.
  intros Hp. unfold svg_paths. repeat constructor; emit_line.
Qed.

Lemma emits_svg_head (first_date : string) (total_ : Z) :
  markup_free (prefix_of 4 first_date) = true ->
  Forall2 emits
    [ ["svg"]; ["rect"]; ["defs"]; ["filter"]; ["feGaussianBlur"]; ["feMerge"];
      ["feMergeNode"]; ["feMergeNode"]; []; []; []; ["text"]; ["text"] ]
    (svg_head cfg first_date total_).
Proof.
  intros Hy. unfold svg_head, svg_open, font_family, subtitle_separator.
  repeat constructor; emit_line.
Qed.

Lemma markup_free_join_empty (l : list string) :
  Forall (fun s => markup_free s = true) l -> markup_free (join_empty l) = true.
Proof.
  induction 1 as [|s l Hs _ IH]; simpl; [reflexivity|].
  now rewrite markup_free_app, Hs, IH.
Qed.

Lemma markup_free_path_of (xs_ ys_ : list F) :
  markup_free (path_of xs_ ys_) = true.
Proof.
  unfold path_of. apply markup_free_join_empty, Forall_map, Forall_forall.
  intros [i [x y]] _. rewrite !markup_free_app, !format_free.
  now destruct (Nat.eqb i 0).
Qed.

(** The elements of a document that [build_svg] returns for a series that
    is not empty. *)
Lemma elements_of_document (days : list Sample) (doc : string) :
  days <> [] ->
  build_svg days cfg = Ok doc ->
  exists labels,
    _month_labels days = Ok labels /\
    elements doc
    = head_elements ++ repeat "line" 6 ++ ["path"; "path"]
      ++ repeat "text" (List.length labels) ++ ["text"].
Proof.
  intros Hne E. unfold build_svg in E.
  destruct days as [|d0 days'] eqn:Edays; [congruence|]. rewrite <- Edays in *.
  apply bind_Ok in E. destruct E as [xs_ [_ E]].
  apply bind_Ok in E. destruct E as [ys_ [_ E]].
  apply bind_Ok in E. destruct E as [labels [El E]].
  apply bind_Ok in E. destruct E as [grid_ [Eg E]].
  apply bind_Ok in E. destruct E as [texts [Et E]].
  assert (Edoc : doc = join_nl (svg_head cfg (date d0) (total days)
                                ++ grid_ ++ svg_paths cfg (path_of xs_ ys_)
                                ++ texts ++ [max_text days cfg; "</svg>"]))
    by congruence.
  clear E. subst doc.
  exists labels. split; [exact El|].
  destruct (month_labels_from_Ok_inv _ _ _ El) as [dates [HP Hl]].
  assert (Hy : markup_free (prefix_of 4 (date d0)) = true).
  { rewrite Edays in HP. inversion HP; subst. eapply markup_free_year; eauto. }
  assert (Hgrid : Forall2 emits (repeat ["line"] 6) grid_).
  { unfold grid in Eg. apply mapM_Forall2_inv in Eg.
    change (range (Z.to_nat (grid_lines + 1))) with [0; 1; 2; 3; 4; 5]%nat in Eg.
    repeat match goal with
           | HF : Forall2 _ (_ :: _) _ |- _ => inversion HF; subst; clear HF
           | HF : Forall2 _ [] _ |- _ => inversion HF; subst; clear HF
           end.
    repeat constructor; eapply emits_grid_line; eauto. }
  assert (Htexts : Forall2 emits (repeat ["text"] (List.length labels)) texts).
  { apply mapM_Forall2_inv in Et. subst labels.
    pose proof (anchors_from_names 0 dates) as Hnames. revert Et Hnames.
    generalize (anchors_from 0 dates) as ls. intros ls HF.
    induction HF as [|l t ls texts Hl _ IH]; intros Hnames; simpl;
      constructor; inversion Hnames; subst; auto.
    eapply emits_label_text; eauto. }
  rewrite (elements_join_nl
             ([ ["svg"]; ["rect"]; ["defs"]; ["filter"]; ["feGaussianBlur"];
                ["feMerge"]; ["feMergeNode"]; ["feMergeNode"]; []; []; [];
                ["text"]; ["text"] ]
              ++ repeat ["line"] 6 ++ [["path"]; ["path"]]
              ++ repeat ["text"] (List.length labels) ++ [["text"]; []])).
  - rewrite !concat_app. f_equal.
    change (List.concat (repeat ["line"] 6)) with (repeat "line" 6). f_equal.
    simpl. f_equal. f_equal.
    generalize (List.length labels) as k. intros k.
    induction k as [|k IH]; simpl; [reflexivity | now rewrite IH].
  - repeat apply Forall2_app; auto using emits_svg_head, emits_svg_paths,
      markup_free_path_of.
    constructor; [apply emits_max_text|].
    constructor; [apply emits_closing | constructor].
Qed.

End Elements.

(** ** Numbers in the document *)

Lemma numeric_app (s t : string) :
  numeric (s ++ t) = numeric s && numeric t.
Proof.
  induction s as [|c s IH]; simpl; [reflexivity|].
  now rewrite IH, andb_assoc.
Qed.

Lemma numeric_uint (d : Decimal.uint) :
  numeric (NilEmpty.string_of_uint d) = true.
Proof. induction d; simpl; auto. Qed.

Lemma numeric_str_int (z : Z) : numeric (str_int z) = true.
Proof.
  unfold str_int, NilZero.string_of_int, NilZero.string_of_uint.
  destruct (Z.to_int z) as [d|d]; destruct d; simpl; auto using numeric_uint.
Qed.

Lemma numeric_two_digits (z : Z) : numeric (two_digits z) = true.
Proof.
  unfold two_digits. rewrite numeric_app, numeric_str_int.
  now destruct (z <? 10)%Z.
Qed.

(** A real number is written with digits, a sign and a point. *)
Lemma numeric_format_2f_R (r : R) : numeric (format_2f_R r) = true.
Proof.
  unfold format_2f_R. rewrite !numeric_app, numeric_str_int, numeric_two_digits.
  now destruct (Rlt_dec r 0).
Qed.

Lemma markup_free_format_2f_R (r : R) : markup_free (format_2f (F := R) r) = true.
Proof. apply numeric_markup_free, numeric_format_2f_R. Qed.

(** X3: the document of a series of two samples or more has, in this order,
    the root, the background rectangle, the glow filter, the title and the
    subtitle, six grid lines, the path twice, one text per month label and
    the text of the maximum; nothing else. *)
Theorem document_elements (days : list Sample) (cfg : ChartConfig)
    (dates : list pydate) :
  (1 < List.length days)%nat ->
  ((20 < max_c days)%Z -> nonneg_counts days) ->
  parsed_dates days dates ->
  markup_free (bg cfg) = true ->
  markup_free (stroke cfg) = true ->
  markup_free (text cfg) = true ->
  exists doc labels,
    build_svg (F := R) days cfg = Ok doc /\
    _month_labels days = Ok labels /\
    elements doc
    = head_elements ++ repeat "line" 6 ++ ["path"; "path"]
      ++ repeat "text" (List.length labels) ++ ["text"].
Proof.
  intros Hn Hnn HP Hbg Hstroke Htext.
  destruct (build_svg_parts days cfg dates Hn Hnn HP)
    as [ys_ [grid_ [texts [_ [_ [_ E]]]]]].
  assert (Hne : days <> []) by (destruct days; [simpl in Hn; lia | discriminate]).
  destruct (elements_of_document markup_free_format_2f_R cfg
              Hbg Hstroke Htext days _ Hne E) as [labels [El Hel]].
  eauto.
Qed.

Lemma document_elements_witness :
  exists doc labels,
    build_svg (F := R) linear_days default_config = Ok doc /\
    _month_labels linear_days = Ok labels /\
    elements doc
    = head_elements ++ repeat "line" 6 ++ ["path"; "path"]
      ++ repeat "text" (List.length labels) ++ ["text"].
Proof.
  apply (document_elements linear_days default_config
           [ {| year := 2024; month := 1; day := 1 |};
             {| year := 2024; month := 1; day := 2 |};
             {| year := 2024; month := 1; day := 3 |} ]).
  - simpl. lia.
  - intros _. repeat constructor; simpl; lia.
  - repeat constructor.
  - reflexivity.
  - reflexivity.
  - reflexivity.
Defined.

(** ** Grid lines *)

Ltac same_text_deep :=
  repeat progress (cbn -[str_int prefix_of]; rewrite ?append_assoc);
  reflexivity.









(** ** Orientation of the scale *)

Lemma norm_for_count_increasing (m c1 c2 : Z) :
  (0 < m)%Z -> (0 <= c1)%Z -> (c1 < c2)%Z ->
  exists norm1 norm2 : R,
    norm_for_count m c1 = Ok norm1 /\
    norm_for_count m c2 = Ok norm2 /\
    norm1 < norm2.
Proof.
  intros Hm Hc1 Hlt.
  assert (H12 : IZR c1 < IZR c2) by (apply IZR_lt; lia).
  assert (H1 : 0 <= IZR c1) by (apply IZR_le; lia).
  destruct (Z_lt_le_dec 20 m) as [Hlog|Hlin].
  - do 2 eexists. rewrite !norm_for_count_log by lia.
    split; [reflexivity|]. split; [reflexivity|].
    pose proof (ln_1p_pos m Hm) as Hpos.
    apply Rmult_lt_compat_r; [now apply Rinv_0_lt_compat|].
    apply ln_increasing; lra.
  - do 2 eexists. rewrite !norm_for_count_linear by lia.
    split; [reflexivity|]. split; [reflexivity|].
    assert (0 < IZR m) by (apply IZR_lt; lia).
    apply Rmult_lt_compat_r; [now apply Rinv_0_lt_compat | assumption].
Qed.

(** X5: on both scales a higher count is drawn strictly higher (at a
    smaller y), as long as the series has a positive maximum and the
    plotting rectangle has a positive height. *)
Theorem higher_count_higher (cfg : ChartConfig) (m c1 c2 : Z) :
  (0 < m)%Z -> (0 <= c1)%Z -> (c1 < c2)%Z ->
  (2 * padding cfg < height cfg)%Z ->
  exists y1 y2 : R,
    y_for_count cfg m c1 = Ok y1 /\
    y_for_count cfg m c2 = Ok y2 /\
    y2 < y1.
Proof.
  intros Hm Hc1 Hlt Hh.
  destruct (norm_for_count_increasing m c1 c2 Hm Hc1 Hlt)
    as [n1 [n2 [E1 [E2 Hn]]]].
  unfold y_for_count. rewrite E1, E2. cbn [bind].
  do 2 eexists. split; [reflexivity|]. split; [reflexivity|].
  assert (0 < IZR (inner_h cfg)) by (apply IZR_lt; unfold inner_h; lia).
  simpl. nra.
Qed.

Lemma higher_count_higher_witness :
  exists y1 y2 : R,
    y_for_count default_config 100 7 = Ok y1 /\
    y_for_count default_config 100 100 = Ok y2 /\
    y2 < y1.
Proof.
  apply (higher_count_higher default_config 100 7 100); simpl; lia.
Defined.

(** X6: a series whose maximum count is 0 is drawn as a flat line on the
    lower edge of the plotting rectangle: every y is [height - padding],
    whatever the counts below the maximum are. *)
Theorem flat_series (days : list Sample) (cfg : ChartConfig) :
  max_c days = 0%Z ->
  ys days cfg
  = Ok (map (fun _ => IZR (height cfg - padding cfg)) days).
Proof.
  intros Hm. unfold ys, counts. rewrite Hm.
  rewrite (mapM_Ok_map _ (fun _ => IZR (height cfg - padding cfg))).
  - now rewrite map_map.
  - intros c _. unfold y_for_count. rewrite norm_for_count_zero. cbn [bind].
    f_equal. simpl. unfold inner_h. rewrite !minus_IZR, mult_IZR. lra.
Qed.

Lemma flat_series_witness :
  ys zero_days default_config
  = Ok (map (fun _ => IZR (height default_config - padding default_config))
            zero_days).
Proof. apply (flat_series zero_days default_config). reflexivity. Defined.

(** ** Horizontal spacing *)



(** ** How many labels *)

Lemma anchors_from_length {lc : Locale} (i : nat) (dates : list pydate) :
  List.length (anchors_from i dates) = List.length (filter is_anchor dates).
Proof.
  revert i. induction dates as [|dt dates IH]; intros i; simpl; [reflexivity|].
  destruct (is_anchor dt); simpl; now rewrite IH.
Qed.

Lemma anchor_in_quarter_dates (y : Z) (dt : pydate) :
  year dt = y -> is_anchor dt = true -> In dt (quarter_dates y).
Proof.
  intros Hy Ha. apply is_anchor_spec in Ha. destruct Ha as [Hd Hm].
  destruct dt as [y' m d]. simpl in *. subst y' d.
  unfold quarter_dates.
  destruct Hm as [ -> | [ -> | [ -> | -> ] ] ]; simpl; auto.
Qed.

(** X8: a series whose dates are distinct and lie in one calendar year gets
    at most four month labels. *)
Theorem labels_at_most_four {lc : Locale} (days : list Sample) (dates : list pydate) (y : Z) :
  parsed_dates days dates ->
  NoDup dates ->
  Forall (fun dt => year dt = y) dates ->
  exists labels,
    _month_labels days = Ok labels /\ (List.length labels <= 4)%nat.
Proof.
  intros HP Hnd Hy. exists (anchors_from 0 dates).
  split; [now apply month_labels_from_parsed|].
  rewrite anchors_from_length.
  change 4%nat with (List.length (quarter_dates y)).
  apply NoDup_incl_length; [now apply NoDup_filter|].
  intros dt Hin. apply filter_In in Hin. destruct Hin as [Hin Ha].
  rewrite Forall_forall in Hy. now apply anchor_in_quarter_dates; [apply Hy|].
Qed.

Lemma labels_at_most_four_witness :
  exists labels,
    _month_labels linear_days = Ok labels /\ (List.length labels <= 4)%nat.
Proof.
  apply (labels_at_most_four linear_days
           [ {| year := 2024; month := 1; day := 1 |};
             {| year := 2024; month := 1; day := 2 |};
             {| year := 2024; month := 1; day := 3 |} ] 2024).
  - repeat constructor.
  - repeat constructor; simpl; intuition discriminate.
  - repeat constructor.
Defined.

(** ** The path *)

Lemma count_char_app (c : ascii) (s t : string) :
  count_char c (s ++ t) = (count_char c s + count_char c t)%nat.
Proof.
  induction s as [|a s IH]; simpl; [reflexivity|]. rewrite IH. lia.
Qed.

Lemma count_char_numeric (c : ascii) (s : string) :
  numeric_char c = false -> numeric s = true -> count_char c s = 0%nat.
Proof.
  intros Hc. induction s as [|a s IH]; simpl; [reflexivity|].
  intros Hn. apply andb_true_iff in Hn. destruct Hn as [Ha Hs].
  rewrite (IH Hs). destruct (Ascii.eqb_spec a c) as [->|]; [congruence | reflexivity].
Qed.

Lemma join_empty_cons (s : string) (l : list string) :
  join_empty (s :: l) = (s ++ join_empty l)%string.
Proof. reflexivity. Qed.

(** The commands of the points from index [i] on. *)
Lemma path_tail_counts (pts : list (R * R)) (i : nat) :
  let path :=
    join_empty
      (map (fun '(i, (x, y)) =>
              ((if Nat.eqb i 0 then "M" else "L")
               ++ format_2f x ++ "," ++ format_2f y)%string)
           (combine (seq (S i) (List.length pts)) pts)) in
  count_char "M" path = 0%nat /\
  count_char "L" path = List.length pts /\
  count_char "," path = List.length pts.
Proof.
  revert i. induction pts as [|[x y] pts IH]; intros i; [simpl; auto|].
  destruct (IH (S i)) as [HM [HL HC]].
  cbn [List.length seq combine map]. rewrite join_empty_cons.
  cbn beta iota. cbn [Nat.eqb].
  rewrite !count_char_app, HM, HL, HC.
  change (format_2f x) with (format_2f_R x).
  change (format_2f y) with (format_2f_R y).
  rewrite !(count_char_numeric _ (format_2f_R _)) by
    (reflexivity || apply numeric_format_2f_R).
  simpl. auto.
Qed.

(** X9: the path is a single polyline through the points that [zip] pairs:
    it begins with one move-to command, every further point adds one
    line-to command, and there is one comma per point. *)
Theorem path_is_polyline (xs_ ys_ : list R) :
  let n := Nat.min (List.length xs_) (List.length ys_) in
  let path := path_of xs_ ys_ in
  (0 < n)%nat ->
  prefix "M" path = true /\
  count_char "M" path = 1%nat /\
  count_char "L" path = (n - 1)%nat /\
  count_char "," path = n.
Proof.
  intros n path Hn. subst n path. unfold path_of, enumerate.
  rewrite <- length_combine in *.
  destruct (combine xs_ ys_) as [|[x y] pts]; [simpl in Hn; lia|].
  destruct (path_tail_counts pts 0) as [HM [HL HC]].
  cbn [List.length seq combine map]. rewrite join_empty_cons.
  cbn beta iota. cbn [Nat.eqb].
  split; [rewrite append_assoc; apply prefix_append|].
  rewrite !count_char_app, HM, HL, HC.
  change (format_2f x) with (format_2f_R x).
  change (format_2f y) with (format_2f_R y).
  rewrite !(count_char_numeric _ (format_2f_R _)) by
    (reflexivity || apply numeric_format_2f_R).
  simpl. repeat split; lia.
Qed.

Lemma path_is_polyline_witness :
  prefix "M" (path_of [52; 600; 1148] [244; 180; 52]) = true /\
  count_char "M" (path_of [52; 600; 1148] [244; 180; 52]) = 1%nat /\
  count_char "L" (path_of [52; 600; 1148] [244; 180; 52]) = 2%nat /\
  count_char "," (path_of [52; 600; 1148] [244; 180; 52]) = 3%nat.
Proof.
  apply (path_is_polyline [52; 600; 1148] [244; 180; 52]). simpl. lia.
Defined.

(** ** Subtitle and maximum *)

Lemma total_sum (days : list Sample) :
  total days = fold_right Z.add 0%Z (counts days).
Proof.
  unfold total. apply fold_symmetric; intros; lia.
Qed.

Lemma contains_append_r (sub s t : string) :
  contains sub t = true -> contains sub (s ++ t) = true.
Proof.
  intros Hc. destruct (contains_true _ _ Hc) as [pre [post ->]].
  rewrite <- append_assoc. apply contains_append.
Qed.

Lemma contains_join_nl (sub s : string) (lines : list string) :
  In s lines -> contains sub s = true -> contains sub (join_nl lines) = true.
Proof.
  intros Hin Hc. induction lines as [|s' lines IH]; [contradiction|].
  destruct lines as [|s'' lines'].
  - destruct Hin as [->|[]]. exact Hc.
  - change (join_nl (s' :: s'' :: lines'))
      with (s' ++ String "010" (join_nl (s'' :: lines')))%string.
    destruct Hin as [->|Hin].
    + now apply contains_append_l.
    + apply contains_append_r.
      change (String "010" (join_nl (s'' :: lines')))
        with (String "010" "" ++ join_nl (s'' :: lines'))%string.
      apply contains_append_r. now apply IH.
Qed.

(** X10: the document of a series shows, in its subtitle, the first four
    characters of the date of the first sample and the sum of all counts,
    and, in its last text, the maximum of the counts. *)
Theorem document_annotations {lc : Locale} (d0 d1 : Sample) (days' : list Sample)
    (cfg : ChartConfig) (dates : list pydate) :
  let days := d0 :: d1 :: days' in
  ((20 < max_c days)%Z -> nonneg_counts days) ->
  parsed_dates days dates ->
  exists doc m,
    build_svg (F := R) days cfg = Ok doc /\
    is_max m (counts days) /\
    contains (">Year " ++ prefix_of 4 (date d0) ++ " " ++ subtitle_separator
              ++ " Total " ++ str_int (fold_right Z.add 0%Z (counts days))
              ++ "</text>")%string doc = true /\
    contains (">max: " ++ str_int m ++ "</text>")%string doc = true.
Proof.
  intros days Hnn HP.
  destruct (build_svg_parts days cfg dates) as [ys_ [grid_ [texts [_ [_ [_ E]]]]]];
    [simpl; lia | assumption | assumption |].
  eexists. exists (max_c days). split; [exact E|].
  split; [apply max_c_is_max; discriminate|].
  rewrite <- total_sum. split.
  - eapply contains_join_nl.
    + apply in_or_app. left. unfold svg_head.
      do 12 right. left. reflexivity.
    + apply (contains_between
               (dq "<text x='" ++ str_int (padding cfg)
                ++ dq "' y='" ++ str_int (padding cfg + 6)
                ++ dq "' fill='" ++ text cfg ++ dq "' "
                ++ font_family ++ dq "font-size='12' opacity='0.8'") _ "").
      unfold font_family, subtitle_separator. same_text_deep.
  - eapply contains_join_nl.
    + do 4 (apply in_or_app; right). left. reflexivity.
    + unfold max_text.
      apply (contains_between
               (dq "<text x='" ++ str_int (width cfg - padding cfg)
                ++ dq "' y='" ++ str_int (padding cfg - 10)
                ++ dq "' fill='" ++ text cfg ++ dq "' "
                ++ font_family ++ dq "font-size='11' text-anchor='end' opacity='0.8'") _ "").
      unfold font_family. same_text_deep.
Qed.

Lemma document_annotations_witness :
  exists doc m,
    build_svg (F := R) linear_days default_config = Ok doc /\
    is_max m (counts linear_days) /\
    contains (">Year " ++ "2024" ++ " " ++ subtitle_separator
              ++ " Total " ++ str_int 35 ++ "</text>")%string doc = true /\
    contains (">max: " ++ str_int m ++ "</text>")%string doc = true.
Proof.
  apply (document_annotations (mk_sample "2024-01-01" 5)
           (mk_sample "2024-01-02" 10) [mk_sample "2024-01-03" 20]
           default_config
           [ {| year := 2024; month := 1; day := 1 |};
             {| year := 2024; month := 1; day := 2 |};
             {| year := 2024; month := 1; day := 3 |} ]).
  - intros _. repeat constructor; simpl; lia.
  - repeat constructor.
Defined.

(** * The command line tool *)

(** ** Sorting by date *)

Lemma string_leb_trans (a b c : string) :
  String.leb a b = true -> String.leb b c = true -> String.leb a c = true.
Proof.
  unfold String.leb. intros Hab Hbc.
  destruct (String.compare a b) eqn:Eab; try discriminate;
    destruct (String.compare b c) eqn:Ebc; try discriminate.
  - apply String.compare_eq_iff in Eab, Ebc. subst.
    pose proof (proj2 (String_as_OT.cmp_eq c c) eq_refl) as Hcc.
    change (String_as_OT.cmp c c) with (String.compare c c) in Hcc.
    now rewrite Hcc.
  - apply String.compare_eq_iff in Eab. subst. now rewrite Ebc.
  - apply String.compare_eq_iff in Ebc. subst. now rewrite Eab.
  - apply String_as_OT.cmp_lt in Eab, Ebc.
    pose proof (String_as_OT.lt_trans _ _ _ Eab Ebc) as Hac.
    apply String_as_OT.cmp_lt in Hac.
    change (String_as_OT.cmp a c) with (String.compare a c) in Hac.
    now rewrite Hac.
Qed.

Lemma insert_day_perm (d : Sample) (l : list Sample) :
  Permutation (d :: l) (insert_day d l).
Proof.
  induction l as [|d' l IH]; simpl; [reflexivity|].
  destruct (String.leb (date d) (date d')); [reflexivity|].
  rewrite perm_swap. now apply perm_skip.
Qed.

Lemma insert_day_on_date (s : string) (d : Sample) (l : list Sample) :
  on_date s (insert_day d l) = on_date s (d :: l).
Proof.
  unfold on_date. induction l as [|d' l IH]; simpl; [reflexivity|].
  destruct (String.leb (date d) (date d')) eqn:Hle; [reflexivity|].
  simpl. rewrite IH. simpl.
  destruct (String.eqb_spec (date d) s) as [Hd|Hd];
    destruct (String.eqb_spec (date d') s) as [Hd'|Hd']; try reflexivity.
  exfalso. rewrite Hd, <- Hd' in Hle.
  destruct (String.leb_total (date d') (date d')); congruence.
Qed.

Lemma insert_day_sorted (d : Sample) (l : list Sample) :
  StronglySorted date_le l -> StronglySorted date_le (insert_day d l).
Proof.
  induction 1 as [|d' l Hs IH Hall]; simpl; [repeat constructor|].
  destruct (String.leb (date d) (date d')) eqn:Hle.
  - constructor; [now constructor|].
    constructor; [exact Hle|].
    revert Hall. apply Forall_impl. intros x Hx.
    unfold date_le in *. eapply string_leb_trans; eauto.
  - constructor; [exact IH|].
    assert (Hd : date_le d' d).
    { unfold date_le. destruct (String.leb_total (date d) (date d')); congruence. }
    eapply Permutation_Forall; [apply insert_day_perm|].
    now constructor.
Qed.

Lemma sort_days_perm (l : list Sample) : Permutation l (sort_days l).
Proof.
  induction l as [|d l IH]; simpl; [constructor|].
  rewrite <- insert_day_perm. now apply perm_skip.
Qed.

Lemma sort_days_sorted (l : list Sample) : StronglySorted date_le (sort_days l).
Proof.
  induction l as [|d l IH]; simpl; [constructor | now apply insert_day_sorted].
Qed.

Lemma sort_days_on_date (s : string) (l : list Sample) :
  on_date s (sort_days l) = on_date s l.
Proof.
  induction l as [|d l IH]; simpl; [reflexivity|].
  rewrite insert_day_on_date. unfold on_date in *. simpl. now rewrite IH.
Qed.

Lemma on_date_In (s : string) (x : Sample) (l : list Sample) :
  In x (on_date s l) <-> In x l /\ date x = s.
Proof.
  unfold on_date. rewrite filter_In.
  now destruct (String.eqb_spec (date x) s); intuition.
Qed.

(** Two sorted lists with the same samples in the same order on every date
    are the same list. *)
Lemma sorted_stable_unique (l1 l2 : list Sample) :
  StronglySorted date_le l1 -> StronglySorted date_le l2 ->
  (forall s, on_date s l1 = on_date s l2) -> l1 = l2.
Proof.
  intros H1. revert l2. induction H1 as [|a l1 Hs1 IH Ha]; intros l2 H2 Hon.
  - destruct l2 as [|b l2]; [reflexivity|].
    specialize (Hon (date b)). unfold on_date in Hon. simpl in Hon.
    now rewrite String.eqb_refl in Hon.
  - destruct H2 as [|b l2 Hs2 Hb].
    + specialize (Hon (date a)). unfold on_date in Hon. simpl in Hon.
      now rewrite String.eqb_refl in Hon.
    + assert (Hkey : date a = date b).
      { apply String.leb_antisym.
        - assert (Hin : In b (a :: l1)).
          { apply (on_date_In (date b)). rewrite Hon. apply on_date_In.
            split; [now left | reflexivity]. }
          destruct Hin as [->|Hin].
          + destruct (String.leb_total (date b) (date b)); assumption.
          + rewrite Forall_forall in Ha. now apply Ha.
        - assert (Hin : In a (b :: l2)).
          { apply (on_date_In (date a)). rewrite <- Hon. apply on_date_In.
            split; [now left | reflexivity]. }
          destruct Hin as [->|Hin].
          + destruct (String.leb_total (date a) (date a)); assumption.
          + rewrite Forall_forall in Hb. now apply Hb. }
      pose proof (Hon (date a)) as Hhead. unfold on_date in Hhead.
      simpl in Hhead. rewrite <- Hkey, !String.eqb_refl in Hhead.
      injection Hhead as Hab Htail. subst b. f_equal.
      apply IH; [assumption|]. intros s. specialize (Hon s).
      unfold on_date in *. simpl in Hon.
      destruct (String.eqb (date a) s); [now injection Hon | exact Hon].
Qed.

(** ** The order of the date strings is the order of the calendar *)

Lemma digit_char_compare (z z' : Z) :
  (0 <= z <= 9)%Z -> (0 <= z' <= 9)%Z ->
  Ascii.compare (digit_char z) (digit_char z') = (z ?= z')%Z.
Proof.
  intros Hz Hz'.
  assert (Ez : (z = 0 \/ z = 1 \/ z = 2 \/ z = 3 \/ z = 4 \/ z = 5 \/
               z = 6 \/ z = 7 \/ z = 8 \/ z = 9)%Z) by lia.
  assert (Ez' : (z' = 0 \/ z' = 1 \/ z' = 2 \/ z' = 3 \/ z' = 4 \/ z' = 5 \/
                z' = 6 \/ z' = 7 \/ z' = 8 \/ z' = 9)%Z) by lia.
  clear Hz Hz'.
  repeat (destruct Ez as [-> | Ez]); try subst z;
    repeat (destruct Ez' as [-> | Ez']); try subst z'; reflexivity.
Qed.

(** The digits that [isoformat] writes. *)
Lemma isoformat_digits (d : pydate) :
  valid_date d = true ->
  exists a b c e f g h k : Z,
    ((0 <= a <= 9) /\ (0 <= b <= 9) /\ (0 <= c <= 9) /\ (0 <= e <= 9) /\
     (0 <= f <= 9) /\ (0 <= g <= 9) /\ (0 <= h <= 9) /\ (0 <= k <= 9))%Z /\
    isoformat d
    = String (digit_char a) (String (digit_char b) (String (digit_char c)
        (String (digit_char e) (String "-" (String (digit_char f)
          (String (digit_char g) (String "-" (String (digit_char h)
            (String (digit_char k) EmptyString))))))))) /\
    (year d = 1000 * a + 100 * b + 10 * c + e /\
     month d = 10 * f + g /\ day d = 10 * h + k)%Z.
Proof.
  intros Hv. pose proof (valid_date_bounds d Hv) as [Hy [Hm Hd]].
  exists ((year d / 1000) mod 10)%Z, ((year d / 100) mod 10)%Z,
         ((year d / 10) mod 10)%Z, (year d mod 10)%Z,
         ((month d / 10) mod 10)%Z, (month d mod 10)%Z,
         ((day d / 10) mod 10)%Z, (day d mod 10)%Z.
  assert (Hmod : forall z, (0 <= z mod 10 <= 9)%Z)
    by (intros z; pose proof (Z.mod_pos_bound z 10); lia).
  split; [do 7 (split; [apply Hmod|]); apply Hmod|].
  split; [reflexivity|].
  rewrite decimal_4, !decimal_2 by lia. auto.
Qed.

(** Comparing the calendar forms of two dates compares the dates: the
    order of the strings is the order of the calendar. *)
Lemma iso_order (d1 d2 : pydate) :
  valid_date d1 = true -> valid_date d2 = true ->
  String.leb (isoformat d1) (isoformat d2) = chrono_leb d1 d2.
Proof.
  intros H1 H2.
  destruct (isoformat_digits _ H1)
    as (a & b & c & e & f & g & h & k & Hb & -> & Hy & Hm & Hd).
  destruct (isoformat_digits _ H2)
    as (a' & b' & c' & e' & f' & g' & h' & k' & Hb' & -> & Hy' & Hm' & Hd').
  clear H1 H2.
  destruct Hb as (? & ? & ? & ? & ? & ? & ? & ?).
  destruct Hb' as (? & ? & ? & ? & ? & ? & ? & ?).
  unfold String.leb, chrono_leb. rewrite Hy, Hm, Hd, Hy', Hm', Hd'.
  clear Hy Hm Hd Hy' Hm' Hd'.
  cbn [String.compare].
  rewrite !digit_char_compare by assumption.
  change (Ascii.compare "-" "-") with Eq. cbv iota.
  destruct (Z.compare_spec a a'); [subst| |];
  destruct (Z.compare_spec b b'); try subst;
  destruct (Z.compare_spec c c'); try subst;
  destruct (Z.compare_spec e e'); try subst;
  try (symmetry;
       match goal with |- context [(?x ?= ?y)%Z] =>
         destruct (Z.compare_spec x y); try reflexivity; try lia end; fail).
  all: match goal with |- context [(?x ?= ?x)%Z] => rewrite (Z.compare_refl x) end.
  all: destruct (Z.compare_spec f f'); try subst;
       destruct (Z.compare_spec g g'); try subst;
       try (symmetry;
         match goal with |- context [(?x ?= ?y)%Z] =>
           destruct (Z.compare_spec x y); try reflexivity; try lia end; fail).
  all: match goal with |- context [(?x ?= ?x)%Z] => rewrite (Z.compare_refl x) end.
  all: destruct (Z.compare_spec h h'); try subst;
       destruct (Z.compare_spec k k'); try subst;
       symmetry;
       match goal with |- context [(?x <=? ?y)%Z] =>
         destruct (Z.leb_spec x y); try reflexivity; try lia end.
Qed.

(** Dates written as [YYYY-MM-DD] are read back as themselves. *)
Lemma calendar_dates_parsed (days : list Sample) (dates : list pydate) :
  calendar_dates days dates -> parsed_dates days dates.
Proof.
  unfold calendar_dates, parsed_dates.
  induction 1 as [|d dt days dates [Hv E] _ IH]; constructor; [|exact IH].
  rewrite E. now apply fromisoformat_isoformat.
Qed.

(** ** The token and the request *)

Lemma github_token_world {P : Platform} (w : World) :
  snd (_github_token w) = w.
Proof.
  unfold _github_token.
  now destruct (or_else (environ w "GITHUB_TOKEN") (environ w "GH_PAT"))
    as [[|c t]|].
Qed.

Lemma github_token_cases {P : Platform} (w : World) :
  (exists c t, _github_token w = (Done (String c t), w)) \/
  _github_token w = (Fail missing_token, w).
Proof.
  unfold _github_token.
  destruct (or_else (environ w "GITHUB_TOKEN") (environ w "GH_PAT"))
    as [[|c t]|]; eauto.
Qed.

(** X11: [_github_token] gives the value of [GITHUB_TOKEN] when that is set
    and not empty, else the value of [GH_PAT] when that is set and not
    empty, and raises the [RuntimeError] about the missing token only when
    both are unset or empty; the token it gives is never empty, and the
    world stays as it is. *)
Theorem github_token_outcome {P : Platform} (w : World) :
  snd (_github_token w) = w /\
  ((exists t, fst (_github_token w) = Done t /\ t <> "" /\
      (environ w "GITHUB_TOKEN" = Some t \/
       (unset (environ w "GITHUB_TOKEN") /\ environ w "GH_PAT" = Some t))) \/
   (fst (_github_token w) = Fail missing_token /\
    unset (environ w "GITHUB_TOKEN") /\ unset (environ w "GH_PAT"))).
Proof.
  split; [apply github_token_world|].
  unfold _github_token, or_else, unset.
  destruct (environ w "GITHUB_TOKEN") as [[|c t]|] eqn:E1.
  - destruct (environ w "GH_PAT") as [[|c t]|] eqn:E2.
    + right. simpl. auto.
    + left. exists (String c t). simpl. repeat split; auto. discriminate.
    + right. simpl. auto.
  - left. exists (String c t). simpl. repeat split; auto. discriminate.
  - destruct (environ w "GH_PAT") as [[|c t]|] eqn:E2.
    + right. simpl. auto.
    + left. exists (String c t). simpl. repeat split; auto. discriminate.
    + right. simpl. auto.
Qed.

(** What [_request_graphql] does, step by step. *)
Lemma request_graphql_unfold {P : Platform} (query : string) (variables : json)
    (w : World) :
  let payload :=
    json_dumps (JDict [("query", JStr query); ("variables", variables)]) in
  (_github_token w = (Fail missing_token, w) /\
   _request_graphql query variables w = (Fail missing_token, w)) \/
  (exists token,
     token <> "" /\
     _github_token w = (Done token, w) /\
     let req := graphql_request token payload in
     let w' := {| environ := environ w; lc_time := lc_time w;
                  sent := sent w ++ [req]; disk := disk w |} in
     _request_graphql query variables w
     = (match urlopen (sent w) req with
        | Fail e => Fail e
        | Done res =>
            if negb (status res =? 200)%Z
            then Fail (RuntimeError ("GitHub API error: "
                                     ++ str_int (status res) ++ " "
                                     ++ body res)%string)
            else json_loads (body res)
        end, w')).
Proof.
  intros payload.
  destruct (github_token_cases w) as [[c [t E]]|E].
  - right. exists (String c t). split; [discriminate|]. split; [exact E|].
    unfold _request_graphql, io_bind. fold payload. rewrite E.
    unfold send. cbn [sent environ disk].
    destruct (urlopen (sent w) (graphql_request (String c t) payload))
      as [res|e]; [|reflexivity].
    now destruct (negb (status res =? 200)%Z).
  - left. split; [exact E|].
    unfold _request_graphql, io_bind. now rewrite E.
Qed.

Lemma request_graphql_world {P : Platform} (query : string)
    (variables : json) (w : World) :
  environ (snd (_request_graphql query variables w)) = environ w /\
  disk (snd (_request_graphql query variables w)) = disk w.
Proof.
  destruct (request_graphql_unfold query variables w)
    as [[_ E]|[token [_ [_ E]]]]; cbv zeta in E; rewrite E; now split.
Qed.


(** X13: [_request_graphql] returns an object only when the request went
    out, the answer had status 200 and [json.loads] read the object from
    its body. *)
Theorem request_graphql_returns {P : Platform} (query : string)
    (variables j : json) (w w' : World) :
  _request_graphql query variables w = (Done j, w') ->
  exists req res,
    sent w' = sent w ++ [req] /\
    urlopen (sent w) req = Done res /\
    status res = 200%Z /\
    json_loads (body res) = Done j.
Proof.
  intros E.
  destruct (request_graphql_unfold query variables w)
    as [[_ E']|[token [_ [_ E']]]]; cbv zeta in E'; rewrite E' in E.
  - discriminate.
  - match type of E with (match urlopen ?s ?r with _ => _ end, _) = _ =>
      exists r; destruct (urlopen s r) as [res|e] eqn:Eu end;
      [|discriminate].
    exists res.
    destruct (status res =? 200)%Z eqn:Es; cbn [negb] in E; [|discriminate].
    apply Z.eqb_eq in Es.
    injection E as Ej <-. cbn [sent]. auto.
Qed.

(** X14: an answer whose status is not 200 is never read: with a token,
    [_request_graphql] raises the [RuntimeError] that names the status and
    carries the body. *)
Theorem request_graphql_bad_status {P : Platform} (query : string)
    (variables : json) (w : World) (token : string) (res : Response) :
  fst (_github_token w) = Done token ->
  urlopen (sent w)
    (graphql_request token
       (json_dumps (JDict [("query", JStr query); ("variables", variables)])))
  = Done res ->
  status res <> 200%Z ->
  fst (_request_graphql query variables w)
  = Fail (RuntimeError ("GitHub API error: " ++ str_int (status res) ++ " "
                        ++ body res)%string).
Proof.
  intros Et0 Hu Hs.
  destruct (request_graphql_unfold query variables w)
    as [[Et _]|[token' [_ [Et E]]]].
  - rewrite Et in Et0. discriminate.
  - rewrite Et in Et0. injection Et0 as ->.
    cbv zeta in E. rewrite E, Hu. cbn [fst].
    apply Z.eqb_neq in Hs. now rewrite Hs.
Qed.

Lemma request_graphql_returns_witness :
  exists req res,
    sent (snd (_request_graphql "query" JNull
                 (fresh_world demo_platform gh_pat_env [])))
    = sent (fresh_world demo_platform gh_pat_env []) ++ [req] /\
    @urlopen demo_platform (sent (fresh_world demo_platform gh_pat_env [])) req
    = Done res /\
    status res = 200%Z /\
    @json_loads demo_platform (body res) = Done (calendar_payload two_weeks).
Proof.
  apply (request_graphql_returns (P := demo_platform) "query" JNull
           (calendar_payload two_weeks)
           (fresh_world demo_platform gh_pat_env [])).
  reflexivity.
Defined.

Lemma request_graphql_bad_status_witness :
  fst (_request_graphql "query" JNull (fresh_world down_platform gh_pat_env []))
  = Fail (RuntimeError "GitHub API error: 503 down").
Proof.
  apply (request_graphql_bad_status (P := down_platform) "query" JNull
           (fresh_world down_platform gh_pat_env []) "t0k3n"
           {| status := 503; body := "down" |}).
  - reflexivity.
  - reflexivity.
  - discriminate.
Defined.

(** ** The answer of the data source *)

Lemma o_bind_Done {A B : Type} (o : outcome A) (k : A -> outcome B) (b : B) :
  o_bind o k = Done b -> exists a, o = Done a /\ k a = Done b.
Proof. destruct o as [a|e]; simpl; [eauto | discriminate]. Qed.

Lemma find_binds (d : list (string * json)) (key : string) (v : json) :
  binds d key v ->
  find (fun kv => String.eqb (fst kv) key) d = Some (key, v).
Proof.
  intros [Hnd Hin]. induction d as [|[k x] d IH]; [destruct Hin|].
  simpl in *. inversion Hnd as [|? ? Hk Hnd']; subst.
  destruct Hin as [[= -> ->]|Hin].
  - now rewrite String.eqb_refl.
  - destruct (String.eqb_spec k key) as [->|_]; [|now apply IH].
    exfalso. apply Hk. apply in_map_iff. now exists (key, v).
Qed.

Lemma existsb_binds (d : list (string * json)) (key : string) (v : json) :
  In (key, v) d -> existsb (fun kv => String.eqb (fst kv) key) d = true.
Proof.
  intros Hin. apply existsb_exists. exists (key, v). split; [exact Hin|].
  apply String.eqb_refl.
Qed.

Lemma existsb_no_key (d : list (string * json)) (key : string) :
  no_key d key -> existsb (fun kv => String.eqb (fst kv) key) d = false.
Proof.
  intros Hno. destruct (existsb _ d) eqn:E; [|reflexivity].
  apply existsb_exists in E. destruct E as [[k v] [Hin Hk]].
  simpl in Hk. apply String.eqb_eq in Hk. subst k. now apply Hno in Hin.
Qed.

Lemma py_getitem_binds (d : list (string * json)) (key : string) (v : json) :
  binds d key v -> py_getitem (JDict d) key = Done v.
Proof. intros Hb. unfold py_getitem. now rewrite (find_binds d key v Hb). Qed.

Lemma fetch_contributions_unfold {P : Platform} (username : string) (year_ : Z)
    (w : World) :
  fetch_contributions username year_ w
  = match _request_graphql contributions_query
            (fetch_variables username year_) w with
    | (Done payload, w') => (days_of_payload payload, w')
    | (Fail e, w') => (Fail e, w')
    end.
Proof. reflexivity. Qed.

(** X15: when the answer carries an [errors] entry, [fetch_contributions]
    raises a [RuntimeError] with these errors as its message, whatever
    else the answer holds: the data beside the errors is not looked at. *)
Theorem fetch_errors_first {P : Platform} (username : string) (year_ : Z)
    (w w' : World) (d : list (string * json)) (errs : json) :
  _request_graphql contributions_query (fetch_variables username year_) w
  = (Done (JDict d), w') ->
  binds d "errors" errs ->
  fetch_contributions username year_ w
  = (Fail (RuntimeError (json_dumps errs)), w').
Proof.
  intros E Hb. rewrite fetch_contributions_unfold, E.
  unfold days_of_payload, py_in. cbn [o_bind].
  rewrite (existsb_binds d "errors" errs (proj2 Hb)).
  now rewrite (py_getitem_binds d "errors" errs Hb).
Qed.

Lemma fetch_errors_first_witness :
  fetch_contributions "octocat" 2024 (fresh_world errors_platform gh_pat_env [])
  = (Fail (RuntimeError "{}"),
     snd (_request_graphql contributions_query (fetch_variables "octocat" 2024)
            (fresh_world errors_platform gh_pat_env []))).
Proof.
  apply (fetch_errors_first (P := errors_platform) "octocat" 2024
           (fresh_world errors_platform gh_pat_env []) _
           [("data", JNull); ("errors", JList [JStr "rate limited"])]
           (JList [JStr "rate limited"])).
  - reflexivity.
  - split.
    + repeat constructor; simpl; intuition discriminate.
    + right. left. reflexivity.
Defined.

(** X16: an answer without errors whose [user] is [null] makes
    [fetch_contributions] raise a [TypeError]: the lookup of the
    contributions in [None] fails. *)
Theorem fetch_null_user {P : Platform} (username : string) (year_ : Z)
    (w w' : World) (d data_ : list (string * json)) :
  _request_graphql contributions_query (fetch_variables username year_) w
  = (Done (JDict d), w') ->
  no_key d "errors" ->
  binds d "data" (JDict data_) ->
  binds data_ "user" JNull ->
  fetch_contributions username year_ w = (Fail (Builtin TypeError), w').
Proof.
  intros E Hno Hd Hu. rewrite fetch_contributions_unfold, E.
  unfold days_of_payload, py_in. cbn [o_bind].
  rewrite (existsb_no_key d "errors" Hno).
  rewrite (py_getitem_binds d "data" _ Hd). cbn [o_bind].
  now rewrite (py_getitem_binds data_ "user" _ Hu).
Qed.

Lemma fetch_null_user_witness :
  fetch_contributions "nobody" 2024
    (fresh_world null_user_platform gh_pat_env [])
  = (Fail (Builtin TypeError),
     snd (_request_graphql contributions_query (fetch_variables "nobody" 2024)
            (fresh_world null_user_platform gh_pat_env []))).
Proof.
  apply (fetch_null_user (P := null_user_platform) "nobody" 2024
           (fresh_world null_user_platform gh_pat_env []) _
           [("data", JDict [("user", JNull)])] [("user", JNull)]).
  - reflexivity.
  - intros v [[=]|[]].
  - split; [repeat constructor; simpl; intuition | left; reflexivity].
  - split; [repeat constructor; simpl; intuition | left; reflexivity].
Defined.

(** ** The order of the fetched days *)

(** X17: the sort at the end of [fetch_contributions] keeps every sample,
    puts the samples in the order of their date strings, keeps samples of
    the same date in the order they came in, and is the only list that
    does so. *)
Theorem sort_days_spec (l : list Sample) :
  Permutation l (sort_days l) /\
  StronglySorted date_le (sort_days l) /\
  (forall s, on_date s (sort_days l) = on_date s l) /\
  (forall r, StronglySorted date_le r ->
             (forall s, on_date s r = on_date s l) -> r = sort_days l).
Proof.
  split; [apply sort_days_perm|].
  split; [apply sort_days_sorted|].
  split; [intros s; apply sort_days_on_date|].
  intros r Hr Hon. apply sorted_stable_unique.
  - exact Hr.
  - apply sort_days_sorted.
  - intros s. now rewrite Hon, sort_days_on_date.
Qed.

Lemma days_of_payload_sorted {P : Platform} (payload : json)
    (days : list Sample) :
  days_of_payload payload = Done days -> exists l, days = sort_days l.
Proof.
  unfold days_of_payload. intros E.
  apply o_bind_Done in E. destruct E as [b [_ E]].
  destruct b.
  - apply o_bind_Done in E. destruct E as [? [_ E]]. discriminate.
  - repeat (apply o_bind_Done in E; destruct E as [? [_ E]]).
    injection E as <-. eauto.
Qed.

Lemma fetch_contributions_sorted {P : Platform} (username : string) (year_ : Z)
    (w w' : World) (days : list Sample) :
  fetch_contributions username year_ w = (Done days, w') ->
  exists l, days = sort_days l.
Proof.
  rewrite fetch_contributions_unfold.
  destruct (_request_graphql _ _ w) as [[payload|e] w1]; [|discriminate].
  intros [= E _]. now apply days_of_payload_sorted in E.
Qed.

Lemma sorted_calendar (days : list Sample) (dates : list pydate) :
  calendar_dates days dates ->
  StronglySorted date_le days -> StronglySorted chrono_le dates.
Proof.
  unfold calendar_dates.
  induction 1 as [|a pa l pl [Hva Ha] Hl IH]; intros Hs; [constructor|].
  inversion Hs as [|? ? Hs' Hall]; subst.
  constructor; [now apply IH|].
  clear IH Hs Hs'. induction Hl as [|b pb l pl [Hvb Hb] Hl IH]; [constructor|].
  inversion Hall as [|? ? Hab Hall']; subst.
  constructor; [|now apply IH].
  unfold chrono_le. rewrite <- (iso_order _ _ Hva Hvb).
  unfold date_le in Hab. now rewrite Ha, Hb in Hab.
Qed.

(** X18: the days that [fetch_contributions] returns are in the order of
    the calendar when their dates are written as the data source writes
    them: for valid dates in the form [YYYY-MM-DD], the order of the date
    strings is the order of the dates. *)
Theorem fetched_days_chronological {P : Platform} (username : string)
    (year_ : Z) (w w' : World) (days : list Sample) (dates : list pydate) :
  fetch_contributions username year_ w = (Done days, w') ->
  calendar_dates days dates ->
  StronglySorted chrono_le dates.
Proof.
  intros E HC. destruct (fetch_contributions_sorted _ _ _ _ _ E) as [l ->].
  apply (sorted_calendar _ _ HC). apply sort_days_sorted.
Qed.

Lemma fetched_days_chronological_witness :
  StronglySorted chrono_le
    [ {| year := 2024; month := 1; day := 7 |};
      {| year := 2024; month := 1; day := 8 |};
      {| year := 2024; month := 1; day := 9 |} ].
Proof.
  apply (fetched_days_chronological (P := demo_platform) "octocat" 2024
           (fresh_world demo_platform gh_pat_env [])
           (snd (fetch_contributions "octocat" 2024
                   (fresh_world demo_platform gh_pat_env [])))
           [ mk_sample "2024-01-07" 1; mk_sample "2024-01-08" 2;
             mk_sample "2024-01-09" 0 ]).
  - reflexivity.
  - repeat constructor.
Defined.

(** ** [main] and the disk *)

Lemma request_graphql_locale {P : Platform} (query : string)
    (variables : json) (w : World) :
  lc_time (snd (_request_graphql query variables w)) = lc_time w.
Proof.
  destruct (request_graphql_unfold query variables w)
    as [[_ E]|[token [_ [_ E]]]]; cbv zeta in E; now rewrite E.
Qed.

Lemma fetch_contributions_world {P : Platform} (username : string) (year_ : Z)
    (w : World) :
  environ (snd (fetch_contributions username year_ w)) = environ w /\
  disk (snd (fetch_contributions username year_ w)) = disk w /\
  lc_time (snd (fetch_contributions username year_ w)) = lc_time w.
Proof.
  rewrite fetch_contributions_unfold.
  destruct (request_graphql_world contributions_query
              (fetch_variables username year_) w) as [He Hd].
  pose proof (request_graphql_locale contributions_query
                (fetch_variables username year_) w) as Hl.
  destruct (_request_graphql _ _ w) as [[payload|e] w1]; simpl in *; auto.
Qed.

Lemma build_svg_one {F : Type} {PF : PyFloat F} {lc : Locale} (d : Sample)
    (cfg : ChartConfig) :
  build_svg [d] cfg = Raise ZeroDivisionError.
Proof. reflexivity. Qed.

(** The steps of [main]. *)
Lemma main_unfold {P : Platform} {F : Type} {PF : PyFloat F} (args : Args)
    (w : World) :
  main args w
  = match fetch_contributions (user args) (year_arg args) w with
    | (Fail e, w1) => (Fail e, w1)
    | (Done days, w1) =>
        match build_svg (lc := lc_time w1) days default_config with
        | Raise e => (Fail (Builtin e), w1)
        | Ok svg =>
            match makedirs_exist_ok (dirname (out args)) (disk w1) with
            | (Fail e, fs1) =>
                (Fail e, {| environ := environ w1; lc_time := lc_time w1;
                            sent := sent w1; disk := fs1 |})
            | (Done _, fs1) =>
                (match fst (write_text (out args) svg fs1) with
                 | Fail e => Fail e
                 | Done _ => Done 0%Z
                 end,
                 {| environ := environ w1; lc_time := lc_time w1;
                    sent := sent w1;
                    disk := snd (write_text (out args) svg fs1) |})
            end
        end
    end.
Proof.
  unfold main, io_bind, io_lift, io_disk, io_ret, io_locale.
  destruct (fetch_contributions (user args) (year_arg args) w)
    as [[days|e] w1]; [|reflexivity].
  destruct (build_svg days default_config) as [svg|e]; [|reflexivity].
  destruct (makedirs_exist_ok (dirname (out args)) (disk w1)) as [[[]|e] fs1];
    [|reflexivity].
  cbn [disk environ sent lc_time].
  now destruct (write_text (out args) svg fs1) as [[[]|e] fs2].
Qed.


(** X20: [main] returns only with 0, and only after the days were
    fetched, the chart was built from them with the default
    configuration, the directory of [--out] was made and the chart was
    written to [--out]. *)
Theorem main_returns {P : Platform} {F : Type} {PF : PyFloat F}
    (args : Args) (w w' : World) (z : Z) :
  main args w = (Done z, w') ->
  z = 0%Z /\
  exists days w1 svg fs1,
    fetch_contributions (user args) (year_arg args) w = (Done days, w1) /\
    build_svg (lc := lc_time w) days default_config = Ok svg /\
    makedirs_exist_ok (dirname (out args)) (disk w) = (Done tt, fs1) /\
    write_text (out args) svg fs1 = (Done tt, disk w') /\
    sent w' = sent w1 /\ environ w' = environ w.
Proof.
  rewrite main_unfold.
  destruct (fetch_contributions_world (user args) (year_arg args) w)
    as [He [Hd Hl]].
  destruct (fetch_contributions (user args) (year_arg args) w)
    as [[days|e] w1]; cbn [snd] in He, Hd, Hl; [|discriminate].
  rewrite Hl, Hd.
  destruct (build_svg days default_config) as [svg|e] eqn:Eb; [|discriminate].
  destruct (makedirs_exist_ok (dirname (out args)) (disk w))
    as [[[]|e] fs1] eqn:Em; [|discriminate].
  destruct (write_text (out args) svg fs1) as [[[]|e] fs2] eqn:Ew;
    cbn [fst snd]; [|discriminate].
  intros [= <- <-]. split; [reflexivity|].
  exists days, w1, svg, fs1. cbn [disk sent environ].
  repeat split; auto.
Qed.

Lemma main_returns_witness :
  0%Z = 0%Z /\
  exists days w1 svg fs1,
    fetch_contributions "octocat" 2024
      (fresh_world empty_platform gh_pat_env []) = (Done days, w1) /\
    build_svg (F := R) (lc := c_locale) days default_config = Ok svg /\
    @makedirs_exist_ok empty_platform "assets" [] = (Done tt, fs1) /\
    @write_text empty_platform "assets/contributions.svg" svg fs1
    = (Done tt, [("assets/contributions.svg", empty_svg default_config)]) /\
    sent (snd (main (F := R) default_args
                 (fresh_world empty_platform gh_pat_env []))) = sent w1 /\
    gh_pat_env = gh_pat_env.
Proof.
  apply (main_returns (P := empty_platform) (F := R) default_args
           (fresh_world empty_platform gh_pat_env [])
           (snd (main (F := R) default_args
                   (fresh_world empty_platform gh_pat_env [])))
           0%Z).
  reflexivity.
Defined.

(** X21: when the data source delivers a single day, [main] ends in the
    [ZeroDivisionError] of the chart builder and leaves the disk as it
    was. *)
Theorem main_single_day {P : Platform} {F : Type} {PF : PyFloat F}
    (args : Args) (w w1 : World) (d : Sample) :
  fetch_contributions (user args) (year_arg args) w = (Done [d], w1) ->
  main args w = (Fail (Builtin ZeroDivisionError), w1) /\ disk w1 = disk w.
Proof.
  intros E. rewrite main_unfold, E, build_svg_one. split; [reflexivity|].
  destruct (fetch_contributions_world (user args) (year_arg args) w)
    as [_ [Hd _]].
  now rewrite E in Hd.
Qed.

Lemma main_single_day_witness :
  main (F := R) default_args (fresh_world one_day_platform gh_pat_env [])
  = (Fail (Builtin ZeroDivisionError),
     snd (fetch_contributions "octocat" 2024
            (fresh_world one_day_platform gh_pat_env []))) /\
  disk (snd (fetch_contributions "octocat" 2024
               (fresh_world one_day_platform gh_pat_env []))) = [].
Proof.
  apply (main_single_day (P := one_day_platform) (F := R) default_args
           (fresh_world one_day_platform gh_pat_env []) _
           (mk_sample "2024-01-01" 4)).
  reflexivity.
Defined.

(** ** The directory of the output file *)

Lemma upto_last_slash_bare (p : string) :
  has_slash p = false -> upto_last_slash p = "".
Proof.
  destruct p as [|c p]; simpl; [reflexivity|].
  intros Hs. apply orb_false_iff in Hs. destruct Hs as [Hc Hp].
  now rewrite Hp, Hc.
Qed.

Lemma upto_last_slash_nonempty (p : string) :
  has_slash p = true -> upto_last_slash p <> "".
Proof.
  destruct p as [|c p]; simpl; [discriminate|].
  destruct (has_slash p); [discriminate|].
  rewrite orb_false_r. now intros ->.
Qed.

Lemma rstrip_slashes_nonempty (s : string) :
  all_slashes s = false -> rstrip_slashes s <> "".
Proof.
  destruct s as [|c s]; [discriminate|].
  intros Hs. cbn [rstrip_slashes]. now rewrite Hs.
Qed.

(** [os.path.dirname] gives the empty string for the paths without a
    slash, and for no other. *)
Lemma dirname_empty_iff (p : string) :
  dirname p = "" <-> has_slash p = false.
Proof.
  unfold dirname. split.
  - intros E. destruct (has_slash p) eqn:Hs; [|reflexivity].
    apply upto_last_slash_nonempty in Hs.
    destruct (String.eqb_spec (upto_last_slash p) ""); [contradiction|].
    cbn [negb andb] in E.
    destruct (all_slashes (upto_last_slash p)) eqn:Ha; cbn [negb] in E.
    + contradiction.
    + now apply rstrip_slashes_nonempty in Ha.
  - intros Hs. now rewrite (upto_last_slash_bare p Hs).
Qed.

Example dirname_examples :
  dirname "assets/contributions.svg" = "assets" /\
  dirname "out.svg" = "" /\
  dirname "/out.svg" = "/" /\
  dirname "a/b/c.svg" = "a/b" /\
  dirname "a//b.svg" = "a" /\
  dirname "//x" = "//" /\
  dirname "a/" = "a" /\
  dirname "" = "" /\
  dirname "///a" = "///".
Proof. repeat split. Qed.

(** X22: with an [--out] that names a file without a directory, [main]
    never writes the chart.  [os.path.dirname] is then the empty string,
    and on a platform where [os.makedirs] refuses the empty string and
    leaves the disk alone, as Python's does, [main] ends in an exception
    with the disk as it was. *)
Theorem main_bare_filename {P : Platform} {F : Type} {PF : PyFloat F}
    (args : Args) (w : World) :
  has_slash (out args) = false ->
  (forall fs, exists e, makedirs_exist_ok "" fs = (Fail e, fs)) ->
  exists e w', main args w = (Fail e, w') /\ disk w' = disk w.
Proof.
  intros Hs Hm. rewrite main_unfold.
  destruct (fetch_contributions_world (user args) (year_arg args) w)
    as [_ [Hd _]].
  destruct (fetch_contributions (user args) (year_arg args) w)
    as [[days|e] w1]; cbn [snd] in Hd; [|eauto].
  destruct (build_svg days default_config) as [svg|e]; [|eauto].
  rewrite (proj2 (dirname_empty_iff (out args)) Hs).
  destruct (Hm (disk w1)) as [e ->]. eauto.
Qed.

Lemma main_bare_filename_witness :
  exists e w',
    main (F := R) bare_args (fresh_world empty_platform gh_pat_env [])
    = (Fail e, w') /\
    disk w' = [].
Proof.
  apply (main_bare_filename (P := empty_platform) (F := R) bare_args
           (fresh_world empty_platform gh_pat_env [])).
  - reflexivity.
  - intros fs. exists (LibraryError "FileNotFoundError"). reflexivity.
Defined.
